(** * Meteoblue weather add-on: a shallow embedding of [meteoblue.py]

    The program polls a weather provider over HTTP and republishes the
    answer as MQTT sensors.  The embedding follows the Python text:

    - JSON documents and Python objects are values of the type [value];
      operations that Python checks at run time ([in], [len], indexing,
      [.get]) return a [result] and raise the exception Python raises;
    - the outside world (environment, HTTP endpoints, broker) is an
      explicit argument, and everything the program does to it is
      recorded, in order, as a list of [event]s;
    - a computation is a value of [M A]: the events it performed and
      either its result or the exception it raised;
    - what the program takes from the Unicode database of the
      interpreter ([str.lower], and [str.isprintable] inside [repr])
      is a parameter of the model, the class [Unicode];
    - the options file is a record of its keys, see [Configuration]. *)

From Stdlib Require Import ZArith NArith List String Ascii Bool Lia.
From Stdlib Require Import DecimalString.
From Stdlib Require DecimalZ DecimalPos.
Import ListNotations.

Open Scope string_scope.
Open Scope Z_scope.

(** ** Python objects *)

Module Py.

(** Exceptions the program raises or meets.  [ClientError] is a failed
    transport of the HTTP library; [KeyboardInterrupt], [CancelledError]
    and [SystemExit] (what [sys.exit] raises) derive from
    [BaseException] only. *)
Inductive exn : Type :=
| ValueError (msg : string)
| TypeError
| AttributeError
| KeyError
| IndexError
| OSError
| ClientError
| KeyboardInterrupt
| CancelledError
| SystemExit (code : Z).

(** [isinstance(e, Exception)]: what [except Exception] catches. *)
Definition is_Exception (e : exn) : bool :=
  match e with
  | KeyboardInterrupt | CancelledError | SystemExit _ => false
  | _ => true
  end.

Inductive result (A : Type) : Type :=
| Ok (a : A)
| Raise (e : exn).
Arguments Ok {A} a.
Arguments Raise {A} e.

(** The next statement runs on the value of [r], unless [r] raised. *)
Definition and_then {A B : Type} (r : result A) (k : A -> result B) : result B :=
  match r with
  | Ok a => k a
  | Raise e => Raise e
  end.

#[local] Set Warnings "-register-all".

(** A Python object as [json.load] builds it.  A float is carried by
    the text [repr] prints for it (the program never computes with one);
    a string is the sequence of its UTF-8 bytes; a dict is the list of
    its items in insertion order, looked up from the front. *)
Inductive value : Type :=
| VNone
| VBool (b : bool)
| VInt (z : Z)
| VFloat (repr : string)
| VStr (s : string)
| VList (l : list value)
| VDict (d : list (string * value)).

Definition dict : Type := list (string * value).

Fixpoint lookup {A : Type} (k : string) (d : list (string * A)) : option A :=
  match d with
  | [] => None
  | (k', v) :: d' => if String.eqb k k' then Some v else lookup k d'
  end.

(** [d.get(k, default)] on a dict. *)
Definition dict_get (d : dict) (k : string) (default : value) : value :=
  match lookup k d with
  | Some v => v
  | None => default
  end.

(** [k in d] on a dict. *)
Definition dict_mem (k : string) (d : dict) : bool :=
  match lookup k d with
  | Some _ => true
  | None => false
  end.

(** [o.get(k, default)] on any object: only a dict has the method. *)
Definition py_get (o : value) (k : string) (default : value) : result value :=
  match o with
  | VDict d => Ok (dict_get d k default)
  | _ => Raise AttributeError
  end.

(** [bool(o)]. *)
Definition truthy (o : value) : bool :=
  match o with
  | VNone => false
  | VBool b => b
  | VInt z => negb (z =? 0)
  | VFloat r => negb (String.eqb r "0.0" || String.eqb r "-0.0")
  | VStr s => negb (String.eqb s "")
  | VList l => match l with [] => false | _ => true end
  | VDict d => match d with [] => false | _ => true end
  end.

Definition is_None (o : value) : bool :=
  match o with
  | VNone => true
  | _ => false
  end.

(** *** Strings *)

Fixpoint is_prefix (p s : string) : bool :=
  match p, s with
  | EmptyString, _ => true
  | String a p', String b s' => Ascii.eqb a b && is_prefix p' s'
  | String _ _, EmptyString => false
  end.

(** [p in s] on strings. *)
Fixpoint contains (p s : string) : bool :=
  is_prefix p s ||
  match s with
  | EmptyString => false
  | String _ s' => contains p s'
  end.

(** A byte [10xxxxxx] continues the code point begun before it. *)
Definition is_continuation (c : ascii) : bool :=
  let n := nat_of_ascii c in (128 <=? n)%nat && (n <? 192)%nat.

(** The code points of a string, each as the string of its bytes. *)
Fixpoint code_points (s : string) : list string :=
  match s with
  | EmptyString => []
  | String c s' =>
      match code_points s' with
      | [] => [String c EmptyString]
      | p :: ps =>
          match p with
          | String c' _ =>
              if is_continuation c' then String c p :: ps
              else String c EmptyString :: p :: ps
          | EmptyString => String c EmptyString :: ps
          end
      end
  end.

(** [s.replace(old, new)] for a one-character [old]. *)
Fixpoint replace (old : ascii) (new : string) (s : string) : string :=
  match s with
  | EmptyString => EmptyString
  | String c s' =>
      if Ascii.eqb c old then new ++ replace old new s'
      else String c (replace old new s')
  end.

(** [sep.join(l)]. *)
Fixpoint join (sep : string) (l : list string) : string :=
  match l with
  | [] => ""
  | [x] => x
  | x :: l' => x ++ sep ++ join sep l'
  end.

(** [str(z)] for an int. *)
Definition str_int (z : Z) : string := NilZero.string_of_int (Z.to_int z).

(** *** The Unicode database

    [str.lower] and [repr] read the Unicode database that the
    interpreter was built with: the case mapping, and which code points
    count as printable.  Both change from one version of Python to the
    next, so the model takes them as given.  On ASCII text the case
    mapping is fixed: the letters A to Z go to a to z and nothing else
    changes. *)

Fixpoint is_ascii (s : string) : bool :=
  match s with
  | EmptyString => true
  | String c s' => (nat_of_ascii c <? 128)%nat && is_ascii s'
  end.

Definition lower_char (c : ascii) : ascii :=
  let n := nat_of_ascii c in
  if (65 <=? n)%nat && (n <=? 90)%nat then ascii_of_nat (n + 32) else c.

(** The case mapping of ASCII text. *)
Fixpoint lower_ascii (s : string) : string :=
  match s with
  | EmptyString => EmptyString
  | String c s' => String (lower_char c) (lower_ascii s')
  end.

Class Unicode : Type := {
  (** [s.lower()] *)
  lower : string -> string;
  (** [chr(n).isprintable()], asked for code points beyond ASCII *)
  isprintable : N -> bool;
  lower_ascii_text : forall s, is_ascii s = true -> lower s = lower_ascii s
}.

(** The database cut down to ASCII: only the ASCII letters have a lower
    case, and every code point beyond ASCII counts as printable.  On
    ASCII text it does what every database does. *)
Definition ascii_tables : Unicode :=
  {| lower := lower_ascii;
     isprintable := fun _ => true;
     lower_ascii_text := fun s _ => eq_refl |}.

(** *** [repr] and [str] *)

(** The number of a code point, from its UTF-8 bytes. *)
Definition ord (p : string) : N :=
  match p with
  | EmptyString => 0%N
  | String c rest =>
      let n := N_of_ascii c in
      let lead :=
        if (n <? 128)%N then n
        else if (n <? 224)%N then N.land n 31
        else if (n <? 240)%N then N.land n 15
        else N.land n 7 in
      fold_left (fun acc b => (acc * 64 + N.land (N_of_ascii b) 63)%N)
                (list_ascii_of_string rest) lead
  end.

Definition hex_digit (n : N) : ascii :=
  if (n <? 10)%N then ascii_of_N (48 + n) else ascii_of_N (87 + n).

(** [n] in hexadecimal, on [width] digits. *)
Fixpoint hex (width : nat) (n : N) : string :=
  match width with
  | O => ""
  | S w => hex w (n / 16)%N ++ String (hex_digit (n mod 16)%N) ""
  end.

Definition apostrophe : ascii := ascii_of_nat 39.
Definition double_quote : ascii := ascii_of_nat 34.

Section Text.

Context {U : Unicode}.

(** One code point of [repr(s)], inside quotes [q]. *)
Definition repr_point (q : ascii) (p : string) : string :=
  let n := ord p in
  if (n =? 92)%N then "\\"
  else if (n =? N_of_ascii q)%N then String "\" (String q "")
  else if (n =? 9)%N then "\t"
  else if (n =? 10)%N then "\n"
  else if (n =? 13)%N then "\r"
  else if (n <? 32)%N || (n =? 127)%N then "\x" ++ hex 2 n
  else if (n <? 127)%N then p
  else if isprintable n then p
  else if (n <=? 255)%N then "\x" ++ hex 2 n
  else if (n <=? 65535)%N then "\u" ++ hex 4 n
  else "\U" ++ hex 8 n.

(** [repr(s)] for a string: single quotes, unless the string holds a
    single quote and no double quote. *)
Definition repr_str (s : string) : string :=
  let q :=
    if contains (String apostrophe "") s && negb (contains (String double_quote "") s)
    then double_quote else apostrophe in
  String q (join "" (map (repr_point q) (code_points s)) ++ String q "").

(** [repr(o)]. *)
Fixpoint py_repr (o : value) : string :=
  match o with
  | VNone => "None"
  | VBool true => "True"
  | VBool false => "False"
  | VInt z => str_int z
  | VFloat r => r
  | VStr s => repr_str s
  | VList l => "[" ++ join ", " (map py_repr l) ++ "]"
  | VDict d =>
      "{" ++ join ", " (map (fun kv => repr_str (fst kv) ++ ": " ++ py_repr (snd kv)) d) ++ "}"
  end.

(** [str(o)], which is also what an f-string prints for [{o}]. *)
Definition py_str (o : value) : string :=
  match o with
  | VStr s => s
  | _ => py_repr o
  end.

End Text.

(** *** Containers, checked at run time *)

(** [k in o] for a string [k]. *)
Definition py_in (k : string) (o : value) : result bool :=
  match o with
  | VDict d => Ok (dict_mem k d)
  | VList l =>
      Ok (existsb (fun x => match x with VStr s => String.eqb k s | _ => false end) l)
  | VStr s => Ok (contains k s)
  | _ => Raise TypeError
  end.

(** [o[k]] for a string [k]. *)
Definition py_getitem (o : value) (k : string) : result value :=
  match o with
  | VDict d =>
      match lookup k d with
      | Some v => Ok v
      | None => Raise KeyError
      end
  | _ => Raise TypeError
  end.

(** [len(o)]. *)
Definition py_len (o : value) : result nat :=
  match o with
  | VList l => Ok (List.length l)
  | VStr s => Ok (List.length (code_points s))
  | VDict d => Ok (List.length d)
  | _ => Raise TypeError
  end.

(** [o[i]] for an index [i >= 0]; a dict built from JSON has string
    keys only, so an integer key is never found. *)
Definition py_index (o : value) (i : nat) : result value :=
  match o with
  | VList l =>
      match nth_error l i with
      | Some v => Ok v
      | None => Raise IndexError
      end
  | VStr s =>
      match nth_error (code_points s) i with
      | Some c => Ok (VStr c)
      | None => Raise IndexError
      end
  | VDict _ => Raise KeyError
  | _ => Raise TypeError
  end.

(** [list(o)]: what a [for] loop over [o] walks through. *)
Definition py_iter (o : value) : result (list value) :=
  match o with
  | VList l => Ok l
  | VStr s => Ok (map VStr (code_points s))
  | VDict d => Ok (map (fun kv => VStr (fst kv)) d)
  | _ => Raise TypeError
  end.

(** The strings of a list, if they all are. *)
Fixpoint strings (l : list value) : option (list string) :=
  match l with
  | [] => Some []
  | VStr s :: l' => option_map (cons s) (strings l')
  | _ :: _ => None
  end.

(** [sep.join(o)]: [o] must be an iterable of strings. *)
Definition py_join (sep : string) (o : value) : result string :=
  and_then (py_iter o) (fun l =>
    match strings l with
    | Some ss => Ok (join sep ss)
    | None => Raise TypeError
    end).

(** [range(o)] as the list it walks through, for an int [o]. *)
Definition range (n : Z) : list Z := map Z.of_nat (seq 0 (Z.to_nat n)).

(** [range(o)] for any object: only an int (a bool is one) will do. *)
Definition py_range (o : value) : result (list Z) :=
  match o with
  | VInt z => Ok (range z)
  | VBool b => Ok (range (if b then 1 else 0))
  | _ => Raise TypeError
  end.

End Py.
Export Py.

Declare Scope result_scope.
Notation "x <~ r ;; k" := (and_then r (fun x => k))
  (at level 61, r at next level, right associativity) : result_scope.
Open Scope result_scope.

(** ** The outside world and the trace of what the program does to it *)

Module World.

(** What [session.get] hands back: the status line, and the outcomes
    of [await resp.json()] and of [await resp.text()], which both read
    the body and fail when it cannot be read or decoded. *)
Record response : Type := {
  status : Z;
  json : result value;
  text : result string
}.

Definition headers : Type := list (string * string).

(** An HTTP endpoint: the answer to a GET, or the exception of a failed
    transport. *)
Definition http : Type := string -> headers -> result response.

(** The payload handed to [mqtt_client.publish]: the document that
    [json.dumps] serialises, or a plain string. *)
Inductive payload : Type :=
| json_dumps (config : value)
| plain (s : string).

Record message : Type := {
  topic : string;
  payload_of : payload;
  retain : bool
}.

Inductive level : Type := DEBUG | INFO | ERROR.

(** The calls the program makes on its surroundings.  An event is the
    call, with its arguments as the program passed them.  The GET, the
    sleep and [connect] get their outcome from the world; the other
    calls (the logger, [publish] and the rest of the broker client,
    opening and closing an HTTP session) are taken to return.
    [LogExn lvl line e] is a log line that ends with [str(e)]. *)
Inductive event : Type :=
| HttpGet (url : string) (h : headers)
| Publish (m : message)
| Log (lvl : level) (line : string)
| LogExn (lvl : level) (line : string) (e : exn)
| Sleep (seconds : Z)
| SessionOpen
| SessionClose
| UsernamePwSet (username password : value)
| Connect (host port : value) (keepalive : Z)
| LoopStart
| LoopStop
| Disconnect.

Definition trace : Type := list event.

(** A computation: the events it performed, then its result or the
    exception that ended it. *)
Definition M (A : Type) : Type := (trace * result A)%type.

Definition ret {A : Type} (a : A) : M A := ([], Ok a).

Definition raise {A : Type} (e : exn) : M A := ([], Raise e).

Definition emit (ev : event) : M unit := ([ev], Ok tt).

Definition lift {A : Type} (r : result A) : M A := ([], r).

Definition bind {A B : Type} (c : M A) (k : A -> M B) : M B :=
  match c with
  | (t, Ok a) => let (t', r) := k a in ((t ++ t')%list, r)
  | (t, Raise e) => (t, Raise e)
  end.

(** [try: c  except Exception as e: h e]. *)
Definition try_except {A : Type} (c : M A) (h : exn -> M A) : M A :=
  match c with
  | (t, Raise e) =>
      if is_Exception e then let (t', r) := h e in ((t ++ t')%list, r)
      else (t, Raise e)
  | ok => ok
  end.

(** [try: c  finally: f]. *)
Definition try_finally {A : Type} (c : M A) (f : M unit) : M A :=
  match c, f with
  | (t, r), (t', Ok _) => ((t ++ t')%list, r)
  | (t, _), (t', Raise e) => ((t ++ t')%list, Raise e)
  end.

(** [session.get(url, headers=h)]: the request, then its answer. *)
Definition session_get (endpoint : http) (url : string) (h : headers) : M response :=
  ([HttpGet url h], endpoint url h).

Definition events {A : Type} (c : M A) : trace := fst c.
Definition outcome {A : Type} (c : M A) : result A := snd c.

(** The messages a trace publishes, in order. *)
Fixpoint published (t : trace) : list message :=
  match t with
  | [] => []
  | Publish m :: t' => m :: published t'
  | _ :: t' => published t'
  end.

(** The GET requests of a trace, in order. *)
Fixpoint requests (t : trace) : list string :=
  match t with
  | [] => []
  | HttpGet url _ :: t' => url :: requests t'
  | _ :: t' => requests t'
  end.

End World.
Export World.

Declare Scope M_scope.
Delimit Scope M_scope with M.
Notation "x <- c ;; k" := (bind c (fun x => k))
  (at level 61, c at next level, right associativity) : M_scope.
Notation "' pat <- c ;; k" := (bind c (fun x => match x with pat => k end))
  (at level 61, pat pattern, c at next level, right associativity) : M_scope.
Notation "c ;; k" := (bind c (fun _ => k))
  (at level 61, right associativity) : M_scope.
Open Scope M_scope.

(** ** Constants *)

Definition HASSIO_API : string := "http://supervisor/core/api".
Definition SUPERVISOR_API : string := "http://supervisor".
Definition METEOBLUE_API : string := "https://my.meteoblue.com/packages".

(** [not token] for [token = os.environ.get(...)]: unset, or empty. *)
Definition token_missing (token : option string) : bool :=
  match token with
  | None => true
  | Some s => String.eqb s ""
  end.

Definition bearer_headers (token : option string) : headers :=
  [("Authorization", "Bearer " ++ match token with Some s => s | None => "None" end);
   ("Content-Type", "application/json")].

(** ** Broker settings *)

Definition get_mqtt_config (token : option string) (supervisor : http) : M value :=
  if token_missing token then raise (ValueError "SUPERVISOR_TOKEN not found")
  else
    emit SessionOpen ;;
    try_finally
      (resp <- session_get supervisor (SUPERVISOR_API ++ "/services/mqtt")
                           (bearer_headers token) ;;
       if negb (status resp =? 200) then
         raise (ValueError ("Failed to get MQTT config: " ++ str_int (status resp)))
       else
         data <- lift (json resp) ;;
         mqtt_data <- lift (py_get data "data" (VDict [])) ;;
         host <- lift (py_get mqtt_data "host" (VStr "core-mosquitto")) ;;
         port <- lift (py_get mqtt_data "port" (VInt 1883)) ;;
         username <- lift (py_get mqtt_data "username" VNone) ;;
         password <- lift (py_get mqtt_data "password" VNone) ;;
         ret (VDict [("host", host); ("port", port);
                     ("username", username); ("password", password)]))
      (emit SessionClose).

(** ** Configuration *)

(** A JSON number of the options file. *)
Inductive num : Type :=
| Int (z : Z)
| Float (repr : string).

Definition value_of_num (n : num) : value :=
  match n with
  | Int z => VInt z
  | Float r => VFloat r
  end.

(** The options object of [/data/options.json], by its keys.

    The API key and the position are read with [config.get(key)], which
    gives [None] for a missing key and for null alike: their [None] is
    either, and a value is one of the schema's type.

    [units], [forecast_days] and [packages] are read with
    [config.get(key, default)] and used as they come: [None] is the
    missing key, which gives the default, and [Some v] is whatever JSON
    value the key holds, [Some VNone] for null, which [get] returns as
    it is.

    [update_interval] is read with a default too, and multiplied: it is
    missing ([None]), null ([Some None]) or the integer of its schema. *)
Record Configuration : Type := {
  api_key : option string;
  latitude : option num;
  longitude : option num;
  elevation : option num;
  units : option value;
  forecast_days : option value;
  packages : option value;
  update_interval : option (option Z)
}.

(** [config.get(key)] for a numeric key. *)
Definition get_num (o : option num) : value :=
  match o with
  | Some n => value_of_num n
  | None => VNone
  end.

(** [config.get(key, default)]. *)
Definition get_default {A : Type} (o : option A) (default : A) : A :=
  match o with
  | Some a => a
  | None => default
  end.

(** ** The weather client *)

Module MeteoblueClient.

Record client : Type := {
  api_key : string;
  config : Configuration
}.

(** [get_coordinates]: the configured position, or the one of the host
    platform.  [session] answers the GETs of the client's HTTP session. *)
Definition get_coordinates (self : client) (token : option string) (session : http)
  : M (value * value * value) :=
  let lat := get_num (latitude (config self)) in
  let lon := get_num (longitude (config self)) in
  let elevation := get_num (elevation (config self)) in
  if is_None lat || is_None lon then
    if token_missing token then raise (ValueError "Cannot get Home Assistant token")
    else
      resp <- session_get session (HASSIO_API ++ "/config") (bearer_headers token) ;;
      if negb (status resp =? 200) then
        raise (ValueError ("Failed to get HA config: " ++ str_int (status resp)))
      else
        data <- lift (json resp) ;;
        lat <- lift (py_get data "latitude" (VInt 0)) ;;
        lon <- lift (py_get data "longitude" (VInt 0)) ;;
        elevation <- (if negb (truthy elevation)
                      then lift (py_get data "elevation" VNone)
                      else ret elevation) ;;
        ret (lat, lon, elevation)
  else ret (lat, lon, elevation).

Section Provider.

Context {U : Unicode}.

(** The list [params] of [build_url], after the optional [asl]. *)
Definition url_params (self : client) (lat lon elevation : value)
  : result (list string) :=
  let units := get_default (units (config self)) (VDict []) in
  temp_unit <~ py_get units "temperature" (VStr "C") ;;
  wind_unit <~ py_get units "windspeed" (VStr "ms-1") ;;
  precip_unit <~ py_get units "precipitation" (VStr "mm") ;;
  let forecast_days := get_default (forecast_days (config self)) (VInt 7) in
  let params :=
    ["lat=" ++ py_str lat;
     "lon=" ++ py_str lon;
     "apikey=" ++ api_key self;
     "format=json";
     "temperature=" ++ py_str temp_unit;
     "windspeed=" ++ py_str wind_unit;
     "precipitationamount=" ++ py_str precip_unit;
     "forecast_days=" ++ py_str forecast_days;
     "tz=UTC"] in
  Ok (if negb (is_None elevation)
      then List.app params ["asl=" ++ py_str elevation]
      else params).

Definition build_url (self : client) (packages lat lon elevation : value)
  : result string :=
  package_str <~ py_join "_" packages ;;
  params <~ url_params self lat lon elevation ;;
  Ok (METEOBLUE_API ++ "/" ++ package_str ++ "?" ++ join "&" params).

Definition default_packages : value :=
  VList [VStr "current"; VStr "basic-1h"; VStr "basic-day"; VStr "sunmoon"].

Definition fetch_weather (self : client) (token : option string) (session : http)
  : M value :=
  try_except
    ('(lat, lon, elevation) <- get_coordinates self token session ;;
     let packages := get_default (packages (config self)) default_packages in
     url <- lift (build_url self packages lat lon elevation) ;;
     emit (Log INFO ("Fetching weather for coordinates: "
                     ++ py_str lat ++ ", " ++ py_str lon)) ;;
     resp <- session_get session url [] ;;
     if negb (status resp =? 200) then
       error_text <- lift (text resp) ;;
       emit (Log ERROR ("API error " ++ str_int (status resp) ++ ": " ++ error_text)) ;;
       raise (ValueError ("API returned status " ++ str_int (status resp)))
     else lift (json resp))
    (fun e => emit (LogExn ERROR "Error fetching weather: " e) ;; raise e).

End Provider.

End MeteoblueClient.

(** ** The publisher *)

(** [for x in l: body x]. *)
Fixpoint for_each {A : Type} (l : list A) (body : A -> M unit) : M unit :=
  match l with
  | [] => ret tt
  | x :: l' => body x ;; for_each l' body
  end.

Module HomeAssistantPublisher.

(** [if x: config[key] = x] for an optional string [x]. *)
Definition optional_entry (key : string) (x : option string) : dict :=
  match x with
  | Some s => if truthy (VStr s) then [(key, VStr s)] else []
  | None => []
  end.

Definition device_info : value :=
  VDict [("identifiers", VList [VStr "meteoblue_weather"]);
         ("name", VStr "Meteoblue Weather");
         ("model", VStr "Weather Station");
         ("manufacturer", VStr "Meteoblue")].

Section Publisher.

Context {U : Unicode}.

(** [name.lower().replace(" ", "_")]. *)
Definition entity_id_of (name : string) : string := replace " " "_" (lower name).

(** The dict [config] of [publish_discovery]. *)
Definition discovery_config (name : string)
    (unit_ device_class state_class icon : option string) : value :=
  let entity_id := entity_id_of name in
  VDict ([("name", VStr name);
          ("unique_id", VStr ("meteoblue_" ++ entity_id));
          ("state_topic", VStr ("meteoblue/" ++ entity_id ++ "/state"));
          ("device", device_info)]
         ++ optional_entry "unit_of_measurement" unit_
         ++ optional_entry "device_class" device_class
         ++ optional_entry "state_class" state_class
         ++ optional_entry "icon" icon)%list.

Definition publish_discovery (sensor_type name : string)
    (unit_ device_class state_class icon : option string) : M unit :=
  let entity_id := entity_id_of name in
  let topic := "homeassistant/sensor/meteoblue/" ++ entity_id ++ "/config" in
  let config := discovery_config name unit_ device_class state_class icon in
  emit (Publish {| topic := topic; payload_of := json_dumps config; retain := true |}) ;;
  emit (Log DEBUG ("Published discovery for " ++ name)).

Definition publish_state (entity_id : string) (state : value) : M unit :=
  let topic := "meteoblue/" ++ entity_id ++ "/state" in
  emit (Publish {| topic := topic; payload_of := plain (py_str state); retain := false |}).

Definition setup_current_sensors : M unit :=
  publish_discovery "sensor" "Temperature" (Some "째C") (Some "temperature")
                    (Some "measurement") (Some "mdi:thermometer") ;;
  publish_discovery "sensor" "Wind Speed" (Some "m/s") None
                    (Some "measurement") (Some "mdi:weather-windy") ;;
  publish_discovery "sensor" "Wind Direction" (Some "째") None
                    (Some "measurement") (Some "mdi:compass") ;;
  publish_discovery "sensor" "Humidity" (Some "%") (Some "humidity")
                    (Some "measurement") (Some "mdi:water-percent") ;;
  publish_discovery "sensor" "Pictocode" None None None
                    (Some "mdi:weather-partly-cloudy") ;;
  publish_discovery "sensor" "Is Daylight" None None None
                    (Some "mdi:weather-sunny").

Definition setup_forecast_sensors (days : value) : M unit :=
  days <- lift (py_range days) ;;
  for_each days (fun day =>
    publish_discovery "sensor" ("Forecast Day " ++ str_int day ++ " Temp Max")
                      (Some "째C") (Some "temperature") None (Some "mdi:thermometer-high") ;;
    publish_discovery "sensor" ("Forecast Day " ++ str_int day ++ " Temp Min")
                      (Some "째C") (Some "temperature") None (Some "mdi:thermometer-low") ;;
    publish_discovery "sensor" ("Forecast Day " ++ str_int day ++ " Precipitation")
                      (Some "mm") None None (Some "mdi:weather-rainy") ;;
    publish_discovery "sensor" ("Forecast Day " ++ str_int day ++ " Pictocode")
                      None None None (Some "mdi:weather-partly-cloudy")).

Definition setup_sunmoon_sensors : M unit :=
  publish_discovery "sensor" "Sunrise" None (Some "timestamp") None
                    (Some "mdi:weather-sunset-up") ;;
  publish_discovery "sensor" "Sunset" None (Some "timestamp") None
                    (Some "mdi:weather-sunset-down") ;;
  publish_discovery "sensor" "Moonrise" None (Some "timestamp") None
                    (Some "mdi:moon-waxing-crescent") ;;
  publish_discovery "sensor" "Moonset" None (Some "timestamp") None
                    (Some "mdi:moon-waning-crescent") ;;
  publish_discovery "sensor" "Moon Phase" None None None
                    (Some "mdi:moon-full").

(** [if key in current: self.publish_state(entity_id, current[key])]. *)
Definition publish_field (current : value) (key entity_id : string) : M unit :=
  present <- lift (py_in key current) ;;
  if present then
    state <- lift (py_getitem current key) ;;
    publish_state entity_id state
  else ret tt.

Definition publish_current_weather (data : value) : M unit :=
  current <- lift (py_get data "data_current" (VDict [])) ;;
  publish_field current "temperature" "temperature" ;;
  publish_field current "windspeed" "wind_speed" ;;
  publish_field current "winddirection" "wind_direction" ;;
  publish_field current "relativehumidity" "humidity" ;;
  publish_field current "pictocode" "pictocode" ;;
  publish_field current "isdaylight" "is_daylight".

(** [if key in forecast and i < len(forecast[key]):
       self.publish_state(f"forecast_day_{i}_{suffix}", forecast[key][i])]. *)
Definition publish_day (forecast : value) (key : string) (i : nat) (suffix : string)
  : M unit :=
  present <- lift (py_in key forecast) ;;
  if present then
    column <- lift (py_getitem forecast key) ;;
    n <- lift (py_len column) ;;
    if (i <? n)%nat then
      column <- lift (py_getitem forecast key) ;;
      state <- lift (py_index column i) ;;
      publish_state ("forecast_day_" ++ str_int (Z.of_nat i) ++ "_" ++ suffix) state
    else ret tt
  else ret tt.

Definition publish_forecast (data : value) : M unit :=
  forecast <- lift (py_get data "data_day" (VDict [])) ;;
  if negb (truthy forecast) then ret tt
  else
    times <- lift (py_get forecast "time" (VList [])) ;;
    times <- lift (py_iter times) ;;
    for_each (seq 0 (List.length times)) (fun i =>
      publish_day forecast "temperature_max" i "temp_max" ;;
      publish_day forecast "temperature_min" i "temp_min" ;;
      publish_day forecast "precipitation" i "precipitation" ;;
      publish_day forecast "pictocode" i "pictocode").

(** [if key in sunmoon and sunmoon[key]:
       self.publish_state(entity_id, sunmoon[key][0])]. *)
Definition publish_first (sunmoon : value) (key entity_id : string) : M unit :=
  present <- lift (py_in key sunmoon) ;;
  if present then
    column <- lift (py_getitem sunmoon key) ;;
    if truthy column then
      column <- lift (py_getitem sunmoon key) ;;
      state <- lift (py_index column 0) ;;
      publish_state entity_id state
    else ret tt
  else ret tt.

Definition publish_sunmoon (data : value) : M unit :=
  sunmoon <- lift (py_get data "data_day" (VDict [])) ;;
  if negb (truthy sunmoon) then ret tt
  else
    time <- lift (py_get sunmoon "time" VNone) ;;
    if negb (truthy time) then ret tt
    else
      publish_first sunmoon "sunrise" "sunrise" ;;
      publish_first sunmoon "sunset" "sunset" ;;
      publish_first sunmoon "moonrise" "moonrise" ;;
      publish_first sunmoon "moonset" "moonset" ;;
      publish_first sunmoon "moonphasename" "moon_phase".

End Publisher.

End HomeAssistantPublisher.

(** ** The program *)

Module Main.

Import HomeAssistantPublisher.

(** What one turn of the loop meets: the HTTP endpoints as they answer
    during the turn, and the exception (an interrupt) that ends the
    sleep early, if any. *)
Record cycle : Type := {
  session : http;
  interrupt : option exn
}.

(** The surroundings of one run of the process. *)
Record world : Type := {
  options : result Configuration;        (* reading /data/options.json *)
  token : option string;                 (* SUPERVISOR_TOKEN *)
  supervisor : http;                     (* the endpoint of get_mqtt_config *)
  broker : value -> value -> result unit; (* mqtt_client.connect(host, port, 60) *)
  polls : list cycle                     (* the turns the loop gets to run *)
}.

(** [await asyncio.sleep(seconds)]. *)
Definition sleep (seconds : Z) (interrupt : option exn) : M unit :=
  ([Sleep seconds],
   match interrupt with
   | None => Ok tt
   | Some e => Raise e
   end).

(** [config.get("update_interval", 30) * 60]: null cannot be
    multiplied. *)
Definition update_interval_seconds (config : Configuration) : result Z :=
  match get_default (update_interval config) (Some 30) with
  | Some minutes => Ok (minutes * 60)
  | None => Raise TypeError
  end.

Section Program.

Context {U : Unicode}.

(** The statements of the inner [try] of the loop. *)
Definition poll_body (self : MeteoblueClient.client) (token : option string) (session : http)
  : M unit :=
  emit (Log INFO "Fetching weather data...") ;;
  weather_data <- MeteoblueClient.fetch_weather self token session ;;
  has_current <- lift (py_in "data_current" weather_data) ;;
  (if has_current then publish_current_weather weather_data else ret tt) ;;
  has_day <- lift (py_in "data_day" weather_data) ;;
  (if has_day then
     publish_forecast weather_data ;;
     publish_sunmoon weather_data
   else ret tt) ;;
  emit (Log INFO "Weather data updated successfully").

(** One turn of [while True]: the guarded body, then the sleep. *)
Definition poll_cycle (self : MeteoblueClient.client) (token : option string)
                      (update_interval : Z) (c : cycle) : M unit :=
  try_except (poll_body self token (session c))
             (fun e => emit (LogExn ERROR "Error updating weather: " e)) ;;
  sleep update_interval (interrupt c).

(** [while True] over the turns the world provides; [Ok] means the loop
    is still running after them. *)
Fixpoint poll_loop (self : MeteoblueClient.client) (token : option string)
                   (update_interval : Z) (cs : list cycle) : M unit :=
  match cs with
  | [] => ret tt
  | c :: cs' =>
      poll_cycle self token update_interval c ;;
      poll_loop self token update_interval cs'
  end.

(** "Load configuration": the options, the API key and the interval. *)
Definition load_configuration (w : world) : M (Configuration * string * Z) :=
  emit (Log INFO "Starting Meteoblue Weather Add-on") ;;
  config <- try_except (lift (options w))
              (fun e => emit (LogExn ERROR "Failed to load configuration: " e) ;;
                        raise (SystemExit 1)) ;;
  api_key <- match api_key config with
             | Some k =>
                 if truthy (VStr k) then ret k
                 else emit (Log ERROR "API key not configured") ;; raise (SystemExit 1)
             | None => emit (Log ERROR "API key not configured") ;; raise (SystemExit 1)
             end ;;
  update_interval <- lift (update_interval_seconds config) ;;
  ret (config, api_key, update_interval).

(** "Get MQTT configuration from Supervisor" and "Set up MQTT". *)
Definition connect_mqtt (w : world) : M unit :=
  mqtt_config <- try_except
      (mqtt_config <- get_mqtt_config (token w) (supervisor w) ;;
       host <- lift (py_getitem mqtt_config "host") ;;
       port <- lift (py_getitem mqtt_config "port") ;;
       emit (Log INFO ("Got MQTT config: host=" ++ py_str host
                       ++ ", port=" ++ py_str port)) ;;
       ret mqtt_config)
      (fun e => emit (LogExn ERROR "Failed to get MQTT configuration: " e) ;;
                raise (SystemExit 1)) ;;
  username <- lift (py_get mqtt_config "username" VNone) ;;
  (if truthy username then
     username <- lift (py_getitem mqtt_config "username") ;;
     password <- lift (py_get mqtt_config "password" VNone) ;;
     emit (UsernamePwSet username password)
   else ret tt) ;;
  try_except
    (host <- lift (py_getitem mqtt_config "host") ;;
     port <- lift (py_getitem mqtt_config "port") ;;
     emit (Connect host port 60) ;;
     lift (broker w host port) ;;
     emit LoopStart ;;
     emit (Log INFO "Connected to MQTT broker"))
    (fun e => emit (LogExn ERROR "Failed to connect to MQTT: " e) ;;
              raise (SystemExit 1)).

(** "Set up sensors". *)
Definition setup_sensors (config : Configuration) : M unit :=
  setup_current_sensors ;;
  setup_forecast_sensors (get_default (forecast_days config) (VInt 7)) ;;
  setup_sunmoon_sensors ;;
  emit (Log INFO "Sensors configured").

(** [main] up to the loop. *)
Definition startup (w : world) : M (MeteoblueClient.client * Z) :=
  '(config, api_key, update_interval) <- load_configuration w ;;
  connect_mqtt w ;;
  let self := {| MeteoblueClient.api_key := api_key;
                 MeteoblueClient.config := config |} in
  emit SessionOpen ;;
  setup_sensors config ;;
  ret (self, update_interval).

(** How a run stands after the turns of [polls]. *)
Inductive status : Type :=
| Running                 (* the loop goes on *)
| Returned                (* [main] returned after the interrupt *)
| Exited (code : Z)       (* [sys.exit(code)] *)
| Died (e : exn).         (* an exception left [main] *)

Definition cleanup : trace := [SessionClose; LoopStop; Disconnect].

Definition main (w : world) : trace * status :=
  match startup w with
  | (t, Raise (SystemExit code)) => (t, Exited code)
  | (t, Raise e) => (t, Died e)
  | (t, Ok (self, update_interval)) =>
      match poll_loop self (token w) update_interval (polls w) with
      | (t', Ok _) => ((t ++ t')%list, Running)
      | (t', Raise KeyboardInterrupt) =>
          ((t ++ t' ++ [Log INFO "Shutting down..."] ++ cleanup)%list, Returned)
      | (t', Raise e) => ((t ++ t' ++ cleanup)%list, Died e)
      end
  end.

End Program.

End Main.

(** * Vocabulary of the statements *)

(** List append, apart from the [++] of strings. *)
Infix "+++" := (@List.app _) (at level 60, right associativity).

Section Vocabulary.

Context {U : Unicode}.

(** ** The request URL *)

(** The name of a query parameter: the text before its first [=]. *)
Fixpoint param_name (p : string) : string :=
  match p with
  | EmptyString => EmptyString
  | String c p' => if Ascii.eqb c "=" then EmptyString else String c (param_name p')
  end.

(** [s] ends with [e]. *)
Definition ends_with (e s : string) : bool :=
  (String.length e <=? String.length s)%nat &&
  String.eqb (substring (String.length s - String.length e) (String.length e) s) e.

(** What [config.get("units", {})] gives. *)
Definition configured_units (cfg : Configuration) : value :=
  get_default (units cfg) (VDict []).

(** The unit the query carries for a dimension: the entry of the
    [units] object, printed, or the default. *)
Definition unit_or (u : dict) (dimension default : string) : string :=
  py_str (dict_get u dimension (VStr default)).

(** The nine parameters every request carries, in the order of the
    URL, for the [units] object [u]. *)
Definition fixed_params (self : MeteoblueClient.client) (u : dict) (lat lon : value)
  : list string :=
  let cfg := MeteoblueClient.config self in
  ["lat=" ++ py_str lat;
   "lon=" ++ py_str lon;
   "apikey=" ++ MeteoblueClient.api_key self;
   "format=json";
   "temperature=" ++ unit_or u "temperature" "C";
   "windspeed=" ++ unit_or u "windspeed" "ms-1";
   "precipitationamount=" ++ unit_or u "precipitation" "mm";
   "forecast_days=" ++ py_str (get_default (forecast_days cfg) (VInt 7));
   "tz=UTC"].

(** The parameters after the optional [asl]. *)
Definition all_params (self : MeteoblueClient.client) (u : dict)
    (lat lon elevation : value) : list string :=
  fixed_params self u lat lon
  +++ (if is_None elevation then [] else ["asl=" ++ py_str elevation]).

(** The package names as the list [build_url] is called with. *)
Definition names (packages : list string) : value := VList (map VStr packages).

(** A client whose configuration sets neither units nor the number of
    forecast days; everything else is free. *)
Definition default_units_client (key : string) (cfg_key : option string)
    (la lo el : option num) (pk : option value) (iv : option (option Z))
  : MeteoblueClient.client :=
  {| MeteoblueClient.api_key := key;
     MeteoblueClient.config :=
       {| api_key := cfg_key; latitude := la; longitude := lo; elevation := el;
          units := None; forecast_days := None; packages := pk;
          update_interval := iv |} |}.

(** ** Topics and flags *)

(** The items of a dict. *)
Definition items (o : value) : dict :=
  match o with
  | VDict d => d
  | _ => []
  end.

(** The characters of a string. *)
Fixpoint chars (s : string) : list ascii :=
  match s with
  | EmptyString => []
  | String c s' => c :: chars s'
  end.

Definition discovery_topic (entity_id : string) : string :=
  "homeassistant/sensor/meteoblue/" ++ entity_id ++ "/config".

Definition state_topic (entity_id : string) : string :=
  "meteoblue/" ++ entity_id ++ "/state".

(** The state message of an entity. *)
Definition state_message (entity_id : string) (state : value) : message :=
  {| topic := state_topic entity_id;
     payload_of := plain (py_str state);
     retain := false |}.

(** ** Coordinates *)

(** The GET of [get_coordinates]. *)
Definition hass_config_request (token : option string) : event :=
  HttpGet (HASSIO_API ++ "/config") (bearer_headers token).

(** What [get_coordinates] makes of the answer of the host platform,
    given the elevation of the configuration. *)
Definition platform_coordinates (configured_elevation : value)
    (answer : result response) : result (value * value * value) :=
  match answer with
  | Raise e => Raise e
  | Ok resp =>
      if status resp =? 200 then
        match json resp with
        | Raise e => Raise e
        | Ok (VDict d) =>
            Ok (dict_get d "latitude" (VInt 0),
                dict_get d "longitude" (VInt 0),
                if truthy configured_elevation then configured_elevation
                else dict_get d "elevation" VNone)
        | Ok _ => Raise AttributeError
        end
      else Raise (ValueError ("Failed to get HA config: " ++ str_int (status resp)))
  end.

(** A configuration at sea level that leaves the latitude to the host
    platform, and a platform that reports its own position. *)
Definition sea_level_client : MeteoblueClient.client :=
  {| MeteoblueClient.api_key := "key";
     MeteoblueClient.config :=
       {| api_key := Some "key"; latitude := None;
          longitude := Some (Float "8.3"); elevation := Some (Int 0);
          units := None; forecast_days := None; packages := None;
          update_interval := None |} |}.

Definition hass_config_answer : http :=
  fun _ _ =>
    Ok {| status := 200;
          json := Ok (VDict [("latitude", VFloat "47.1");
                             ("longitude", VFloat "8.3");
                             ("elevation", VInt 430)]);
          text := Ok "" |}.

(** ** Broker settings *)

(** The answer of the supervisory endpoint to [get_mqtt_config]. *)
Definition mqtt_answer (token : option string) (supervisor : http) : result response :=
  supervisor (SUPERVISOR_API ++ "/services/mqtt") (bearer_headers token).

(** The call returns success: an answer with status 200. *)
Definition returns_success (answer : result response) : bool :=
  match answer with
  | Ok resp => status resp =? 200
  | Raise _ => false
  end.

(** The [data] object of a settings document [{data: {...}}]; an absent
    [data] stands for the empty object. *)
Definition settings_document (resp : response) : option dict :=
  match json resp with
  | Ok (VDict d) =>
      match lookup "data" d with
      | None => Some []
      | Some (VDict m) => Some m
      | Some _ => None
      end
  | _ => None
  end.

(** A successful answer carries a settings document. *)
Definition well_formed_answer (answer : result response) : bool :=
  match answer with
  | Ok resp =>
      if status resp =? 200
      then match settings_document resp with Some _ => true | None => false end
      else true
  | Raise _ => true
  end.

(** The settings [get_mqtt_config] returns for the object [m]. *)
Definition broker_settings (m : dict) : value :=
  VDict [("host", dict_get m "host" (VStr "core-mosquitto"));
         ("port", dict_get m "port" (VInt 1883));
         ("username", dict_get m "username" VNone);
         ("password", dict_get m "password" VNone)].

Definition supervisor_answer : http :=
  fun _ _ =>
    Ok {| status := 200;
          json := Ok (VDict [("result", VStr "ok");
                             ("data", VDict [("username", VStr "addons");
                                             ("password", VStr "secret")])]);
          text := Ok "" |}.

(** A successful answer whose [data] entry is null. *)
Definition null_data_answer : http :=
  fun _ _ =>
    Ok {| status := 200;
          json := Ok (VDict [("result", VStr "ok"); ("data", VNone)]);
          text := Ok "" |}.

(** ** Publishing a snapshot *)

(** A computation that only publishes the messages [ms] and returns. *)
Definition says (ms : list message) : M unit := (map Publish ms, Ok tt).

(** The list of an optional element. *)
Definition opt {A : Type} (o : option A) : list A :=
  match o with
  | Some a => [a]
  | None => []
  end.

(** *** Current conditions *)

(** The message of one key of the section, if the key is there. *)
Definition field_message (current : dict) (key entity_id : string) : list message :=
  opt (option_map (state_message entity_id) (lookup key current)).

(** The section of current conditions of a snapshot. *)
Definition current_section (data : value) : value :=
  dict_get (items data) "data_current" (VDict []).

(** A snapshot with a field named [humidity]. *)
Definition humidity_snapshot : value :=
  VDict [("data_current", VDict [("humidity", VInt 55)])].

Definition current_snapshot : dict :=
  [("data_current", VDict [("temperature", VFloat "21.5");
                           ("relativehumidity", VInt 55)])].

(** *** The daily forecast *)

(** The daily section of a snapshot. *)
Definition day_section (data : value) : value :=
  dict_get (items data) "data_day" (VDict []).

(** A column of the daily section is an array, when it is there. *)
Definition column_ok (forecast : dict) (key : string) : bool :=
  match lookup key forecast with
  | Some (VList _) | None => true
  | Some _ => false
  end.

Definition columns_ok (forecast : dict) (keys : list string) : bool :=
  forallb (column_ok forecast) keys.

(** The element of day [i] in the column [key]. *)
Definition cell (forecast : dict) (key : string) (i : nat) : option value :=
  match lookup key forecast with
  | Some (VList column) => nth_error column i
  | _ => None
  end.

Definition day_entity (i : nat) (suffix : string) : string :=
  "forecast_day_" ++ str_int (Z.of_nat i) ++ "_" ++ suffix.

(** The message of day [i] for one column, if the column reaches it. *)
Definition day_message (forecast : dict) (key : string) (i : nat) (suffix : string)
  : list message :=
  opt (option_map (state_message (day_entity i suffix)) (cell forecast key i)).

(** The messages of day [i], in the order they are published. *)
Definition day_messages (forecast : dict) (i : nat) : list message :=
  day_message forecast "temperature_max" i "temp_max"
  +++ day_message forecast "temperature_min" i "temp_min"
  +++ day_message forecast "precipitation" i "precipitation"
  +++ day_message forecast "pictocode" i "pictocode".

Definition forecast_keys : list string :=
  ["temperature_max"; "temperature_min"; "precipitation"; "pictocode"].

(** The message is the [temp_max] state of some day. *)
Definition is_temp_max (m : message) : bool :=
  is_prefix "meteoblue/forecast_day_" (topic m)
  && ends_with "_temp_max/state" (topic m).

(** A daily section of three days whose [temperature_min] is null. *)
Definition null_min_forecast : dict :=
  [("time", VList [VStr "2025-01-01"; VStr "2025-01-02"; VStr "2025-01-03"]);
   ("temperature_max", VList [VFloat "4.5"; VFloat "6.0"; VFloat "3.2"]);
   ("temperature_min", VNone)].

Definition three_day_forecast : dict :=
  [("time", VList [VStr "2025-01-01"; VStr "2025-01-02"; VStr "2025-01-03"]);
   ("temperature_max", VList [VFloat "4.5"; VFloat "6.0"; VFloat "3.2"]);
   ("temperature_min", VList [VFloat "-1.0"; VFloat "0.5"]);
   ("sunrise", VList [VStr "08:12"; VStr "08:12"; VStr "08:11"])].

(** *** Sun and moon *)

(** The keys [publish_sunmoon] reads, each with the entity it feeds. *)
Definition sunmoon_fields : list (string * string) :=
  [("sunrise", "sunrise");
   ("sunset", "sunset");
   ("moonrise", "moonrise");
   ("moonset", "moonset");
   ("moonphasename", "moon_phase")].

(** An array cut down to its first element. *)
Definition first_only (column : value) : value :=
  match column with
  | VList (x :: _) => VList [x]
  | _ => column
  end.

Definition today_section (section : value) : value :=
  match section with
  | VDict f => VDict (map (fun kv => (fst kv, first_only (snd kv))) f)
  | _ => section
  end.

(** The snapshot with every array of its daily section cut down to the
    first element. *)
Definition today_only (data : value) : value :=
  match data with
  | VDict d =>
      VDict (map (fun kv =>
                    (fst kv,
                     if String.eqb (fst kv) "data_day"
                     then today_section (snd kv) else snd kv)) d)
  | _ => data
  end.

(** The message carries element 0 of one of the sun and moon columns. *)
Definition carries_first (data : value) (m : message) : Prop :=
  exists key entity_id x,
    In (key, entity_id) sunmoon_fields
    /\ py_index (dict_get (items (day_section data)) key VNone) 0 = Ok x
    /\ m = state_message entity_id x.

(** *** No time array, no state *)

(** The [time] column of the daily section, if the section has one. *)
Definition time_column (data : value) : option value :=
  lookup "time" (items (day_section data)).

Definition timeless_snapshot : value :=
  VDict [("data_day",
          VDict [("sunrise", VList [VStr "08:12"]);
                 ("sunset", VList [VStr "16:40"]);
                 ("temperature_max", VList [VFloat "4.5"; VFloat "6.0"])])].

(** ** Discovery before state *)

(** The message is a state message: not retained, on a state topic. *)
Definition is_state (m : message) : Prop :=
  exists entity_id state, m = state_message entity_id state.

(** The message is a discovery message: retained, a JSON document on the
    discovery topic of a sensor. *)
Definition is_discovery (m : message) : Prop :=
  exists name config,
    m = {| topic := discovery_topic (HomeAssistantPublisher.entity_id_of name);
           payload_of := json_dumps config;
           retain := true |}.

(** What [config.get("forecast_days", 7)] gives. *)
Definition configured_days (cfg : Configuration) : value :=
  get_default (forecast_days cfg) (VInt 7).

(** The number of days [range] counts for an object, if it is an int
    (a bool is one). *)
Definition day_count (days : value) : option Z :=
  match days with
  | VInt z => Some z
  | VBool b => Some (if b then 1 else 0)
  | _ => None
  end.

(** The four discovery calls of one day of [setup_forecast_sensors]. *)
Definition forecast_day_sensors (day : Z) : M unit :=
  HomeAssistantPublisher.publish_discovery "sensor"
    ("Forecast Day " ++ str_int day ++ " Temp Max")
    (Some "째C") (Some "temperature") None (Some "mdi:thermometer-high") ;;
  HomeAssistantPublisher.publish_discovery "sensor"
    ("Forecast Day " ++ str_int day ++ " Temp Min")
    (Some "째C") (Some "temperature") None (Some "mdi:thermometer-low") ;;
  HomeAssistantPublisher.publish_discovery "sensor"
    ("Forecast Day " ++ str_int day ++ " Precipitation")
    (Some "mm") None None (Some "mdi:weather-rainy") ;;
  HomeAssistantPublisher.publish_discovery "sensor"
    ("Forecast Day " ++ str_int day ++ " Pictocode")
    None None None (Some "mdi:weather-partly-cloudy").

(** The discovery messages of the three setup calls, in call order. *)
Definition catalogue (days : Z) : list message :=
  published (events HomeAssistantPublisher.setup_current_sensors)
  +++ published (events (HomeAssistantPublisher.setup_forecast_sensors (VInt days)))
  +++ published (events HomeAssistantPublisher.setup_sunmoon_sensors).

(** The computation publishes nothing. *)
Definition silent {A : Type} (c : M A) : Prop :=
  Forall (fun _ => False) (published (events c)).

(** ** The poll loop *)

(** The line the loop logs for a failed turn. *)
Definition failure_log (e : exn) : event :=
  LogExn ERROR "Error updating weather: " e.

(** What [await asyncio.sleep] gives back. *)
Definition after_sleep (c : Main.cycle) : result unit :=
  match Main.interrupt c with
  | None => Ok tt
  | Some x => Raise x
  end.

(** A client with its position configured, and two turns that fail: one
    with the provider out of reach, one with a snapshot whose section of
    current conditions is a number. *)
Definition zurich_client : MeteoblueClient.client :=
  {| MeteoblueClient.api_key := "key";
     MeteoblueClient.config :=
       {| api_key := Some "key"; latitude := Some (Float "47.1");
          longitude := Some (Float "8.3"); elevation := None;
          units := None; forecast_days := None; packages := None;
          update_interval := None |} |}.

Definition zurich_url : string :=
  "https://my.meteoblue.com/packages/current_basic-1h_basic-day_sunmoon?lat=47.1&lon=8.3&apikey=key&format=json&temperature=C&windspeed=ms-1&precipitationamount=mm&forecast_days=7&tz=UTC".

Definition offline_cycle : Main.cycle :=
  {| Main.session := fun _ _ => Raise ClientError; Main.interrupt := None |}.

Definition malformed_cycle : Main.cycle :=
  {| Main.session := fun _ _ =>
       Ok {| status := 200; json := Ok (VDict [("data_current", VInt 5)]); text := Ok "" |};
     Main.interrupt := None |}.

(** ** Further vocabulary: the weather client *)

(** What [fetch_weather] logs before it re-raises [e]. *)
Definition fetch_failure_log (e : exn) : trace :=
  if is_Exception e then [LogExn ERROR "Error fetching weather: " e] else [].

(** The exception of [fetch_weather] for a status other than 200. *)
Definition status_error (resp : response) : exn :=
  ValueError ("API returned status " ++ str_int (status resp)).

(** What [fetch_weather] returns for the answer of the provider. *)
Definition provider_outcome (answer : result response) : result value :=
  match answer with
  | Raise e => Raise e
  | Ok resp =>
      if status resp =? 200 then json resp
      else match text resp with
           | Ok _ => Raise (status_error resp)
           | Raise e => Raise e
           end
  end.

(** What [fetch_weather] logs after the answer of the provider. *)
Definition provider_log (answer : result response) : trace :=
  match answer with
  | Raise e => fetch_failure_log e
  | Ok resp =>
      if status resp =? 200 then
        match json resp with
        | Ok _ => []
        | Raise e => fetch_failure_log e
        end
      else
        match text resp with
        | Ok body =>
            [Log ERROR ("API error " ++ str_int (status resp) ++ ": " ++ body);
             LogExn ERROR "Error fetching weather: " (status_error resp)]
        | Raise e => fetch_failure_log e
        end
  end.

(** What [config.get("packages", [...])] gives. *)
Definition configured_packages (cfg : Configuration) : value :=
  get_default (packages cfg) MeteoblueClient.default_packages.

(** The URL [fetch_weather] builds at the coordinates [get_coordinates]
    gave, or the exception of [build_url]. *)
Definition weather_url (self : MeteoblueClient.client) (lat lon elevation : value)
  : result string :=
  MeteoblueClient.build_url self (configured_packages (MeteoblueClient.config self))
    lat lon elevation.

(** The client with another latitude and longitude in its configuration. *)
Definition with_position (self : MeteoblueClient.client) (la lo : option num)
  : MeteoblueClient.client :=
  let cfg := MeteoblueClient.config self in
  {| MeteoblueClient.api_key := MeteoblueClient.api_key self;
     MeteoblueClient.config :=
       {| api_key := api_key cfg; latitude := la; longitude := lo;
          elevation := elevation cfg; units := units cfg;
          forecast_days := forecast_days cfg; packages := packages cfg;
          update_interval := update_interval cfg |} |}.

(** A client without a configured position, at 520 m. *)
Definition hillside_client : MeteoblueClient.client :=
  {| MeteoblueClient.api_key := "key";
     MeteoblueClient.config :=
       {| api_key := Some "key"; latitude := None; longitude := None;
          elevation := Some (Int 520); units := None; forecast_days := None;
          packages := None; update_interval := None |} |}.

(** The client of [zurich_client] with null for its packages. *)
Definition null_packages_client : MeteoblueClient.client :=
  {| MeteoblueClient.api_key := "key";
     MeteoblueClient.config :=
       {| api_key := Some "key"; latitude := Some (Float "47.1");
          longitude := Some (Float "8.3"); elevation := None;
          units := None; forecast_days := None; packages := Some VNone;
          update_interval := None |} |}.

(** The same with null for its units, and with null for its number of
    days. *)
Definition null_units_client : MeteoblueClient.client :=
  {| MeteoblueClient.api_key := "key";
     MeteoblueClient.config :=
       {| api_key := Some "key"; latitude := Some (Float "47.1");
          longitude := Some (Float "8.3"); elevation := None;
          units := Some VNone; forecast_days := None; packages := None;
          update_interval := None |} |}.

Definition null_days_client : MeteoblueClient.client :=
  {| MeteoblueClient.api_key := "key";
     MeteoblueClient.config :=
       {| api_key := Some "key"; latitude := Some (Float "47.1");
          longitude := Some (Float "8.3"); elevation := None;
          units := None; forecast_days := Some VNone; packages := None;
          update_interval := None |} |}.

(** An endpoint that answers every GET with status 503. *)
Definition unavailable : http :=
  fun _ _ => Ok {| status := 503; json := Raise (ValueError "no JSON");
                   text := Ok "Service Unavailable" |}.

(** ** Further vocabulary: the publisher *)

(** The computation ends in one of the results [rs]. *)
Definition ends_in {A : Type} (rs : list (result A)) (c : M A) : Prop :=
  In (outcome c) rs.

(** The computation raises, if at all, one of the exceptions [es]. *)
Definition raises_among {A : Type} (es : list exn) (c : M A) : Prop :=
  match outcome c with
  | Ok _ => True
  | Raise e => In e es
  end.

(** The length of a column of the daily section; 0 when it is absent. *)
Definition column_length (forecast : dict) (key : string) : nat :=
  match lookup key forecast with
  | Some (VList column) => List.length column
  | _ => 0%nat
  end.

(** The keys [publish_sunmoon] reads. *)
Definition sunmoon_keys : list string := map fst sunmoon_fields.

(** The message of the first element of a column, if it has one. *)
Definition first_message (sunmoon : dict) (key entity_id : string) : list message :=
  match lookup key sunmoon with
  | Some (VList (x :: _)) => [state_message entity_id x]
  | _ => []
  end.

(** None, a bool or a number: an object that is no container. *)
Definition is_scalar (o : value) : bool :=
  match o with
  | VNone | VBool _ | VInt _ | VFloat _ => true
  | _ => false
  end.

(** A daily section whose sun and moon columns partly lack data. *)
Definition sparse_sunmoon : dict :=
  [("time", VList [VStr "2025-01-01"; VStr "2025-01-02"]);
   ("sunrise", VList [VStr "08:12"; VStr "08:11"]);
   ("moonrise", VList []);
   ("moonphasename", VList [VStr "new moon"])].

(** A snapshot whose two sections are null. *)
Definition null_snapshot : dict :=
  [("data_current", VNone); ("data_day", VNone)].

(** A turn whose snapshot has a number for current conditions and a
    proper daily section. *)
Definition half_broken_cycle : Main.cycle :=
  {| Main.session := fun _ _ =>
       Ok {| status := 200;
             json := Ok (VDict [("data_current", VInt 5);
                                ("data_day", VDict three_day_forecast)]);
             text := Ok "" |};
     Main.interrupt := None |}.

(** ** Further vocabulary: the program *)

(** The lengths of the sleeps of a trace, in order. *)
Fixpoint sleeps (t : trace) : list Z :=
  match t with
  | [] => []
  | Sleep seconds :: t' => seconds :: sleeps t'
  | _ :: t' => sleeps t'
  end.

(** The event is no sleep. *)
Definition awake (ev : event) : Prop :=
  match ev with
  | Sleep _ => False
  | _ => True
  end.

(** A turn that cannot end the loop: its sleep is not interrupted and
    its body raises, if anything, what [except Exception] catches. *)
Definition calm (self : MeteoblueClient.client) (token : option string)
    (c : Main.cycle) : bool :=
  match Main.interrupt c with
  | None =>
      match outcome (Main.poll_body self token (Main.session c)) with
      | Ok _ => true
      | Raise e => is_Exception e
      end
  | Some _ => false
  end.

(** A turn with a good answer that is interrupted while it sleeps. *)
Definition interrupted_cycle : Main.cycle :=
  {| Main.session := fun _ _ =>
       Ok {| status := 200;
             json := Ok (VDict [("data_current", VDict [("temperature", VFloat "3.5")])]);
             text := Ok "" |};
     Main.interrupt := Some KeyboardInterrupt |}.

(** The line [main] logs when the configuration stops it: the options
    cannot be read, or hold no API key. *)
Definition configuration_failure (w : Main.world) : option event :=
  match Main.options w with
  | Raise e =>
      if is_Exception e
      then Some (LogExn ERROR "Failed to load configuration: " e)
      else None
  | Ok config =>
      match api_key config with
      | Some k => if String.eqb k "" then Some (Log ERROR "API key not configured")
                  else None
      | None => Some (Log ERROR "API key not configured")
      end
  end.

(** What "Set up MQTT" does with the credentials of the settings. *)
Definition credentials_events (username password : value) : trace :=
  if truthy username then [UsernamePwSet username password] else [].

(** What follows the call of [connect], by its result. *)
Definition connect_events (answer : result unit) : trace :=
  match answer with
  | Ok _ => [LoopStart; Log INFO "Connected to MQTT broker"]
  | Raise e =>
      if is_Exception e then [LogExn ERROR "Failed to connect to MQTT: " e] else []
  end.

Definition connect_outcome (answer : result unit) : result unit :=
  match answer with
  | Ok _ => Ok tt
  | Raise e => if is_Exception e then Raise (SystemExit 1) else Raise e
  end.

(** The events of a trace before its first publication. *)
Fixpoint before_publish (t : trace) : trace :=
  match t with
  | [] => []
  | Publish _ :: _ => []
  | ev :: t' => ev :: before_publish t'
  end.

(** The event is a call of [connect] with keepalive 60. *)
Definition is_connect (ev : event) : bool :=
  match ev with
  | Connect _ _ keepalive => keepalive =? 60
  | _ => false
  end.

Definition is_loop_start (ev : event) : bool :=
  match ev with
  | LoopStart => true
  | _ => false
  end.

(** A world around a configuration: a supervisor that answers as
    [supervisor_answer] does, a broker that accepts, a credential. *)
Definition world_of (config : result Configuration) (polls : list Main.cycle)
  : Main.world :=
  {| Main.options := config;
     Main.token := Some "token";
     Main.supervisor := supervisor_answer;
     Main.broker := fun _ _ => Ok tt;
     Main.polls := polls |}.

(** The same with a broker that refuses the connection. *)
Definition world_without_broker (config : result Configuration) : Main.world :=
  {| Main.options := config;
     Main.token := Some "token";
     Main.supervisor := supervisor_answer;
     Main.broker := fun _ _ => Raise OSError;
     Main.polls := [] |}.

(** Options without an API key. *)
Definition keyless_options : Configuration :=
  {| api_key := Some ""; latitude := None; longitude := None; elevation := None;
     units := None; forecast_days := None; packages := None;
     update_interval := None |}.

(** Options with an API key, one day of forecast and an interval of
    five minutes. *)
Definition minimal_options : Configuration :=
  {| api_key := Some "key"; latitude := None; longitude := None; elevation := None;
     units := None; forecast_days := Some (VInt 1); packages := None;
     update_interval := Some (Some 5) |}.

(** Options whose number of forecast days is null, and options whose
    interval is null. *)
Definition null_days_options : Configuration :=
  {| api_key := Some "key"; latitude := None; longitude := None; elevation := None;
     units := None; forecast_days := Some VNone; packages := None;
     update_interval := None |}.

Definition null_interval_options : Configuration :=
  {| api_key := Some "key"; latitude := None; longitude := None; elevation := None;
     units := None; forecast_days := None; packages := None;
     update_interval := Some None |}.

(** What [main] appends when the loop ends with [e]. *)
Definition shutdown (e : exn) : trace :=
  match e with
  | KeyboardInterrupt =>
      [Log INFO "Shutting down..."; SessionClose; LoopStop; Disconnect]
  | _ => [SessionClose; LoopStop; Disconnect]
  end.

(** How [main] stands when the loop ended with [e]. *)
Definition shutdown_status (e : exn) : Main.status :=
  match e with
  | KeyboardInterrupt => Main.Returned
  | _ => Main.Died e
  end.

(** The client [main] builds from [minimal_options]. *)
Definition minimal_client : MeteoblueClient.client :=
  {| MeteoblueClient.api_key := "key"; MeteoblueClient.config := minimal_options |}.

(** A world whose supervisor is out of reach. *)
Definition world_without_supervisor : Main.world :=
  {| Main.options := Ok minimal_options;
     Main.token := Some "token";
     Main.supervisor := fun _ _ => Raise ClientError;
     Main.broker := fun _ _ => Ok tt;
     Main.polls := [offline_cycle] |}.

(** ** Further vocabulary: topics *)

(** The state topic a discovery message announces. *)
Definition declared_state_topic (m : message) : option string :=
  match payload_of m with
  | json_dumps config =>
      match lookup "state_topic" (items config) with
      | Some (VStr t) => Some t
      | _ => None
      end
  | plain _ => None
  end.

(** The state topics the discovery messages of a list announce. *)
Definition declared (ms : list message) : list string :=
  flat_map (fun m => opt (declared_state_topic m)) ms.

(** The number of days [publish_forecast] walks through. *)
Definition time_count (data : value) : nat :=
  match py_iter (dict_get (items (day_section data)) "time" (VList [])) with
  | Ok times => List.length times
  | Raise _ => 0%nat
  end.

(** The names of the four forecast sensors of a day. *)
Definition forecast_names (day : Z) : list string :=
  ["Forecast Day " ++ str_int day ++ " Temp Max";
   "Forecast Day " ++ str_int day ++ " Temp Min";
   "Forecast Day " ++ str_int day ++ " Precipitation";
   "Forecast Day " ++ str_int day ++ " Pictocode"].

(** The entity ids [publish_forecast] uses for a day. *)
Definition forecast_entities (i : nat) : list string :=
  [day_entity i "temp_max"; day_entity i "temp_min";
   day_entity i "precipitation"; day_entity i "pictocode"].

(** The entity ids of the sensors of the catalogue, in call order. *)
Definition current_ids : list string :=
  ["temperature"; "wind_speed"; "wind_direction"; "humidity"; "pictocode";
   "is_daylight"].

Definition sunmoon_ids : list string :=
  ["sunrise"; "sunset"; "moonrise"; "moonset"; "moon_phase"].

(** The entity ids of the forecast sensors of a day. *)
Definition forecast_ids (day : Z) : list string :=
  ["forecast_day_" ++ str_int day ++ "_temp_max";
   "forecast_day_" ++ str_int day ++ "_temp_min";
   "forecast_day_" ++ str_int day ++ "_precipitation";
   "forecast_day_" ++ str_int day ++ "_pictocode"].

Definition catalogue_ids (days : Z) : list string :=
  current_ids +++ flat_map forecast_ids (range days) +++ sunmoon_ids.

(** The entity id is the one of a forecast sensor. *)
Definition is_forecast_id (id : string) : bool := is_prefix "forecast_day_" id.

(** A daily section with more days than sensors were set up for. *)
Definition long_forecast : dict :=
  [("time", VList [VStr "2025-01-01"; VStr "2025-01-02"]);
   ("temperature_max", VList [VFloat "4.5"; VFloat "6.0"])].

(** ** Further vocabulary: requests and discovery documents *)

(** The event is no HTTP request. *)
Definition offline (ev : event) : Prop :=
  match ev with
  | HttpGet _ _ => False
  | _ => True
  end.

(** An optional argument of [publish_discovery] as the document keeps
    it: a non-empty string, or nothing. *)
Definition kept (x : option string) : option value :=
  match x with
  | Some s => if String.eqb s "" then None else Some (VStr s)
  | None => None
  end.

(** A world whose loop meets the given turns, with everything in order
    at startup. *)
Definition calm_world : Main.world :=
  world_of (Ok minimal_options) [offline_cycle; malformed_cycle].

(** The event is neither the stop of the network loop nor the
    disconnection from the broker. *)
Definition connected (ev : event) : Prop :=
  match ev with
  | LoopStop | Disconnect => False
  | _ => True
  end.

(** An event of the startup: no sleep, no stop, no disconnection. *)
Definition starting (ev : event) : Prop :=
  match ev with
  | Sleep _ | LoopStop | Disconnect => False
  | _ => True
  end.

End Vocabulary.

(** * Properties *)

Section Properties.

Context {U : Unicode}.

(** ** Python objects *)

Example str_int_500 : str_int 500 = "500".
Proof. reflexivity. Qed.

Example str_int_neg : str_int (-12) = "-12".
Proof. reflexivity. Qed.

Example code_points_mixed : List.length (code_points "째C") = 2%nat.
Proof. reflexivity. Qed.

Example ord_hangul : ord "째" = 51704%N.
Proof. reflexivity. Qed.

Example repr_list : py_str (VList [VStr "a"; VInt 1; VNone]) = "['a', 1, None]".
Proof. reflexivity. Qed.

Example repr_nested :
  py_str (VDict [("a", VList [VBool true; VFloat "1.5"]); ("b", VDict [])])
  = "{'a': [True, 1.5], 'b': {}}".
Proof. reflexivity. Qed.

Example repr_quotes :
  py_repr (VStr "it's") = String double_quote ("it's" ++ String double_quote "")
  /\ py_repr (VStr "back\slash") = "'back\\slash'".
Proof. split; reflexivity. Qed.

Example str_scalars :
  py_str (VStr "sunny") = "sunny" /\ py_str (VInt (-3)) = "-3"
  /\ py_str (VFloat "21.5") = "21.5" /\ py_str (VBool false) = "False"
  /\ py_str VNone = "None" /\ py_str (VList []) = "[]".
Proof. repeat split. Qed.

Example repr_control :
  py_repr (VStr (String (ascii_of_nat 10) (String (ascii_of_nat 127) "")))
  = "'\n\x7f'".
Proof. reflexivity. Qed.

(** A code point beyond ASCII is copied when the database has it
    printable and escaped by its number when not: on 2, 4 or 8 digits. *)
Lemma repr_point_beyond_ascii (q : ascii) (p : string) :
  (N_of_ascii q <= 127)%N ->
  (127 < ord p)%N ->
  repr_point q p =
  if isprintable (ord p) then p
  else if (ord p <=? 255)%N then "\x" ++ hex 2 (ord p)
  else if (ord p <=? 65535)%N then "\u" ++ hex 4 (ord p)
  else "\U" ++ hex 8 (ord p).
Proof.
  intros Hq Hn. unfold repr_point. cbv zeta.
  repeat match goal with
         | |- context [(ord p =? ?b)%N] =>
             destruct (N.eqb_spec (ord p) b) as [E | _]; [exfalso; lia |]
         | |- context [(ord p <? ?b)%N] =>
             destruct (N.ltb_spec (ord p) b) as [E | _]; [exfalso; lia |]
         end.
  reflexivity.
Qed.

Example repr_no_break_space :
  isprintable 160 = false ->
  py_str (VList [VStr (String (ascii_of_nat 194) (String (ascii_of_nat 160) ""))])
  = "['\xa0']".
Proof.
  intros Hnbsp. unfold py_str, py_repr, repr_str. cbn [map join].
  change (code_points _) with [String (ascii_of_nat 194) (String (ascii_of_nat 160) "")].
  cbn [map join].
  rewrite repr_point_beyond_ascii by (vm_compute; first [reflexivity | discriminate]).
  change (ord _) with 160%N. rewrite Hnbsp. reflexivity.
Qed.

(** *** ASCII text *)

Lemma is_ascii_app (a b : string) : is_ascii (a ++ b) = is_ascii a && is_ascii b.
Proof.
  induction a as [| c a IH]; [reflexivity |].
  simpl. now rewrite IH, andb_assoc.
Qed.

Lemma lower_ascii_app (a b : string) :
  lower_ascii (a ++ b) = lower_ascii a ++ lower_ascii b.
Proof. induction a as [| c a IH]; simpl; [reflexivity | now rewrite IH]. Qed.

Lemma append_assoc (a b c : string) : (a ++ b) ++ c = a ++ (b ++ c).
Proof. induction a as [| x a IH]; simpl; [reflexivity | now rewrite IH]. Qed.

Lemma replace_app (old : ascii) (new a b : string) :
  replace old new (a ++ b) = replace old new a ++ replace old new b.
Proof.
  induction a as [| c a IH]; simpl; [reflexivity |].
  destruct (Ascii.eqb c old); rewrite IH;
    [now rewrite append_assoc | reflexivity].
Qed.

(** The digits of a number are ASCII and have neither case nor space. *)
Lemma uint_plain (d : Decimal.uint) :
  is_ascii (NilEmpty.string_of_uint d) = true
  /\ lower_ascii (NilEmpty.string_of_uint d) = NilEmpty.string_of_uint d
  /\ replace " " "_" (NilEmpty.string_of_uint d) = NilEmpty.string_of_uint d.
Proof.
  induction d as [| d [IH1 [IH2 IH3]] | d [IH1 [IH2 IH3]] | d [IH1 [IH2 IH3]]
                  | d [IH1 [IH2 IH3]] | d [IH1 [IH2 IH3]] | d [IH1 [IH2 IH3]]
                  | d [IH1 [IH2 IH3]] | d [IH1 [IH2 IH3]] | d [IH1 [IH2 IH3]]
                  | d [IH1 [IH2 IH3]]];
    simpl; [now repeat split | ..]; now rewrite IH1, IH2, IH3.
Qed.

Lemma str_int_plain (z : Z) :
  is_ascii (str_int z) = true
  /\ lower_ascii (str_int z) = str_int z
  /\ replace " " "_" (str_int z) = str_int z.
Proof.
  unfold str_int, NilZero.string_of_int, NilZero.string_of_uint.
  destruct (Z.to_int z) as [d | d].
  - destruct d; try (now repeat split); apply uint_plain.
  - simpl. destruct d; try (now repeat split);
      match goal with
      | |- context [NilEmpty.string_of_uint ?u] =>
          destruct (uint_plain u) as [H1 [H2 H3]]; rewrite H1, H2, H3;
          now repeat split
      end.
Qed.

(** ** Laws of the trace monad *)

Lemma bind_ret_l {A B : Type} (a : A) (k : A -> M B) : bind (ret a) k = k a.
Proof. unfold bind, ret. destruct (k a) as [t r]. reflexivity. Qed.

Lemma bind_raise {A B : Type} (e : exn) (k : A -> M B) : bind (raise e) k = raise e.
Proof. reflexivity. Qed.

Lemma bind_lift_ok {A B : Type} (a : A) (k : A -> M B) : bind (lift (Ok a)) k = k a.
Proof. apply bind_ret_l. Qed.

Lemma bind_lift_raise {A B : Type} (e : exn) (k : A -> M B) :
  bind (lift (Raise e)) k = raise e.
Proof. reflexivity. Qed.

Lemma events_bind {A B : Type} (c : M A) (k : A -> M B) :
  events (bind c k) =
  match outcome c with
  | Ok a => (events c ++ events (k a))%list
  | Raise _ => events c
  end.
Proof.
  destruct c as [t [a | e]]; simpl; [destruct (k a) |]; reflexivity.
Qed.

Lemma outcome_bind {A B : Type} (c : M A) (k : A -> M B) :
  outcome (bind c k) =
  match outcome c with
  | Ok a => outcome (k a)
  | Raise e => Raise e
  end.
Proof.
  destruct c as [t [a | e]]; simpl; [destruct (k a) |]; reflexivity.
Qed.

Lemma published_app (t t' : trace) :
  published (t ++ t')%list = (published t ++ published t')%list.
Proof.
  induction t as [| ev t IH]; [reflexivity |].
  destruct ev; simpl; rewrite IH; reflexivity.
Qed.

Lemma requests_app (t t' : trace) :
  requests (t ++ t')%list = (requests t ++ requests t')%list.
Proof.
  induction t as [| ev t IH]; [reflexivity |].
  destruct ev; simpl; rewrite IH; reflexivity.
Qed.

(** ** The request URL *)

Lemma strings_names (packages : list string) :
  strings (map VStr packages) = Some packages.
Proof.
  induction packages as [| x packages IH]; [reflexivity |].
  simpl. now rewrite IH.
Qed.

Lemma py_join_names (sep : string) (packages : list string) :
  py_join sep (names packages) = Ok (join sep packages).
Proof. unfold py_join, names. simpl. now rewrite strings_names. Qed.

Lemma url_params_cases (self : MeteoblueClient.client) (lat lon elevation : value) :
  MeteoblueClient.url_params self lat lon elevation =
  match configured_units (MeteoblueClient.config self) with
  | VDict u => Ok (all_params self u lat lon elevation)
  | _ => Raise AttributeError
  end.
Proof.
  unfold MeteoblueClient.url_params, configured_units, all_params, fixed_params, unit_or.
  destruct (get_default (units (MeteoblueClient.config self)) (VDict []));
    try reflexivity.
  simpl. destruct (is_None elevation); reflexivity.
Qed.

Lemma length_append (a b : string) :
  String.length (a ++ b) = (String.length a + String.length b)%nat.
Proof. induction a as [| x a IH]; simpl; [reflexivity | now rewrite IH]. Qed.

Lemma substring_all (e : string) : substring 0 (String.length e) e = e.
Proof. induction e as [| x e IH]; simpl; [reflexivity | now rewrite IH]. Qed.

Lemma substring_skip (s e : string) :
  substring (String.length s) (String.length e) (s ++ e) = e.
Proof. induction s as [| x s IH]; simpl; [apply substring_all | exact IH]. Qed.

Lemma ends_with_append (s e : string) : ends_with e (s ++ e) = true.
Proof.
  unfold ends_with. rewrite length_append.
  replace (String.length s + String.length e - String.length e)%nat
    with (String.length s) by lia.
  rewrite substring_skip, String.eqb_refl, andb_true_r.
  apply Nat.leb_le. lia.
Qed.

(** The URL is not built for every configuration: with null for its
    [units] entry, [build_url] raises. *)
Lemma build_url_without_units (self : MeteoblueClient.client)
    (packages : list string) (lat lon elevation : value) :
  units (MeteoblueClient.config self) = Some VNone ->
  MeteoblueClient.build_url self (names packages) lat lon elevation
  = Raise AttributeError.
Proof.
  intros Hunits. unfold MeteoblueClient.build_url.
  rewrite py_join_names, url_params_cases. unfold configured_units.
  now rewrite Hunits.
Qed.

(** C2, amended.  [build_url] is a function of its arguments and the
    configuration alone: it performs no event, and for a list of
    package names and any configuration it either raises
    [AttributeError], exactly when the [units] entry is not an object,
    or returns the provider base, [/], the package names joined with
    [_], [?], and the parameters lat, lon, apikey, format=json,
    temperature, windspeed, precipitationamount, forecast_days, tz=UTC
    in that order, joined with [&], followed by asl exactly when the
    elevation is not [None].  A unit is the one the [units] object has
    for its dimension and otherwise the default (C, ms-1 and mm).  For
    packages [current], lat 47.1, lon 8.3, no elevation and default
    units the URL ends with
    precipitationamount=mm&forecast_days=7&tz=UTC and no parameter is
    named asl, and elevation 500 appends &asl=500. *)
Theorem build_url_contract :
  (forall self packages lat lon elevation,
     MeteoblueClient.build_url self (names packages) lat lon elevation =
     match get_default (units (MeteoblueClient.config self)) (VDict []) with
     | VDict u =>
         Ok (METEOBLUE_API ++ "/" ++ join "_" packages ++ "?"
             ++ join "&" (fixed_params self u lat lon
                          +++ (if is_None elevation then []
                               else ["asl=" ++ py_str elevation])))
     | _ => Raise AttributeError
     end)
  /\ (forall self u lat lon elevation,
        map param_name (fixed_params self u lat lon
                        +++ (if is_None elevation then []
                             else ["asl=" ++ py_str elevation])) =
        ["lat"; "lon"; "apikey"; "format"; "temperature"; "windspeed";
         "precipitationamount"; "forecast_days"; "tz"]
        +++ (if is_None elevation then [] else ["asl"]))
  /\ (forall u dimension default,
        unit_or u dimension default =
        match lookup dimension u with
        | Some x => py_str x
        | None => default
        end)
  /\ (forall key cfg_key la lo el pk iv,
        let self := default_units_client key cfg_key la lo el pk iv in
        let url :=
          "https://my.meteoblue.com/packages/current?lat=47.1&lon=8.3&apikey="
          ++ key
          ++ "&format=json&temperature=C&windspeed=ms-1&precipitationamount=mm&forecast_days=7&tz=UTC"
        in
        MeteoblueClient.build_url self (names ["current"])
          (VFloat "47.1") (VFloat "8.3") VNone = Ok url
        /\ ends_with "precipitationamount=mm&forecast_days=7&tz=UTC" url = true
        /\ (exists params,
              MeteoblueClient.url_params self (VFloat "47.1") (VFloat "8.3") VNone
              = Ok params
              /\ existsb (String.eqb "asl") (map param_name params) = false)
        /\ MeteoblueClient.build_url self (names ["current"])
             (VFloat "47.1") (VFloat "8.3") (VInt 500)
           = Ok (url ++ "&asl=500")).
Proof.
  split; [| split; [| split]].
  - intros self packages lat lon el.
    unfold MeteoblueClient.build_url.
    rewrite py_join_names, url_params_cases. unfold configured_units, all_params.
    destruct (get_default (units (MeteoblueClient.config self)) (VDict []));
      reflexivity.
  - intros self u lat lon el. destruct (is_None el); reflexivity.
  - intros u dimension default. unfold unit_or, dict_get.
    destruct (lookup dimension u); reflexivity.
  - intros key cfg_key la lo el pk iv self url.
    split; [reflexivity |]. split; [| split].
    + subst url.
      replace (key ++ "&format=json&temperature=C&windspeed=ms-1&precipitationamount=mm&forecast_days=7&tz=UTC")
        with ((key ++ "&format=json&temperature=C&windspeed=ms-1&")
              ++ "precipitationamount=mm&forecast_days=7&tz=UTC")
        by (now rewrite append_assoc).
      rewrite <- append_assoc. apply ends_with_append.
    + eexists. split; reflexivity.
    + subst url. cbn. now rewrite append_assoc.
Qed.

(** ** Topics and flags *)

Lemma replace_no_space (s : string) :
  Forall (fun ch => ch <> " "%char) (chars (replace " " "_" s)).
Proof.
  induction s as [| c s IH]; [constructor |].
  simpl. destruct (Ascii.eqb_spec c " ") as [-> | Hc]; simpl.
  - constructor; [discriminate | exact IH].
  - constructor; assumption.
Qed.

(** The entity id of a name in ASCII, whatever the database. *)
Lemma entity_id_of_ascii (name : string) :
  is_ascii name = true ->
  HomeAssistantPublisher.entity_id_of name = replace " " "_" (lower_ascii name).
Proof.
  intros Hascii. unfold HomeAssistantPublisher.entity_id_of.
  now rewrite lower_ascii_text.
Qed.

Example entity_id_of_names :
  HomeAssistantPublisher.entity_id_of "Is Daylight" = "is_daylight"
  /\ HomeAssistantPublisher.entity_id_of "Moon Phase" = "moon_phase"
  /\ HomeAssistantPublisher.entity_id_of "Forecast Day 3 Temp Max"
     = "forecast_day_3_temp_max".
Proof. rewrite !entity_id_of_ascii by reflexivity. repeat split. Qed.

(** C5. [publish_discovery] publishes one message: to
    homeassistant/sensor/meteoblue/{entity_id}/config, retained, whose
    JSON document names meteoblue/{entity_id}/state as state topic,
    where entity_id is the name lower-cased, as [str.lower] does it,
    with each space replaced by an underscore, so that it holds no
    space; Wind Speed gives wind_speed, and so the topics
    homeassistant/sensor/meteoblue/wind_speed/config and
    meteoblue/wind_speed/state.  [publish_state] publishes one message:
    the string form of the value, to meteoblue/{entity_id}/state, not
    retained. *)
Theorem topics_and_flags :
  (forall sensor_type name unit_ device_class state_class icon,
     let entity_id := replace " " "_" (lower name) in
     let c := HomeAssistantPublisher.publish_discovery
                sensor_type name unit_ device_class state_class icon in
     published (events c) =
       [{| topic := "homeassistant/sensor/meteoblue/" ++ entity_id ++ "/config";
           payload_of := json_dumps (HomeAssistantPublisher.discovery_config
                                       name unit_ device_class state_class icon);
           retain := true |}]
     /\ outcome c = Ok tt
     /\ lookup "state_topic"
          (items (HomeAssistantPublisher.discovery_config
                    name unit_ device_class state_class icon))
        = Some (VStr ("meteoblue/" ++ entity_id ++ "/state"))
     /\ Forall (fun ch => ch <> " "%char) (chars entity_id))
  /\ (forall sensor_type unit_ device_class state_class icon,
        let c := HomeAssistantPublisher.publish_discovery
                   sensor_type "Wind Speed" unit_ device_class state_class icon in
        HomeAssistantPublisher.entity_id_of "Wind Speed" = "wind_speed"
        /\ map topic (published (events c))
           = ["homeassistant/sensor/meteoblue/wind_speed/config"]
        /\ declared (published (events c)) = ["meteoblue/wind_speed/state"])
  /\ (forall entity_id state,
        let c := HomeAssistantPublisher.publish_state entity_id state in
        events c =
          [Publish {| topic := "meteoblue/" ++ entity_id ++ "/state";
                      payload_of := plain (py_str state);
                      retain := false |}]
        /\ outcome c = Ok tt).
Proof.
  split; [| split].
  - intros sensor_type name unit_ device_class state_class icon entity_id c.
    split; [reflexivity |]. split; [reflexivity |]. split; [reflexivity |].
    apply replace_no_space.
  - intros sensor_type unit_ device_class state_class icon c.
    assert (Hid : HomeAssistantPublisher.entity_id_of "Wind Speed" = "wind_speed")
      by (now rewrite entity_id_of_ascii).
    split; [exact Hid |]. subst c.
    unfold HomeAssistantPublisher.publish_discovery,
      HomeAssistantPublisher.discovery_config.
    rewrite Hid. split; reflexivity.
  - intros entity_id state c. split; reflexivity.
Qed.

(** ** Coordinates *)

(** With latitude and longitude configured, [get_coordinates] performs
    no event and returns the configured values. *)
Lemma get_coordinates_configured (self : MeteoblueClient.client)
    (token : option string) (session : http) (la lo : num) :
  latitude (MeteoblueClient.config self) = Some la ->
  longitude (MeteoblueClient.config self) = Some lo ->
  MeteoblueClient.get_coordinates self token session =
  ([], Ok (value_of_num la, value_of_num lo,
           get_num (elevation (MeteoblueClient.config self)))).
Proof.
  intros Hla Hlo. unfold MeteoblueClient.get_coordinates.
  rewrite Hla, Hlo. destruct la, lo; reflexivity.
Qed.

(** Without one of them: no request and an error when the credential is
    missing, and otherwise one GET whose answer decides the result. *)
Lemma get_coordinates_from_platform (self : MeteoblueClient.client)
    (token : option string) (session : http) :
  latitude (MeteoblueClient.config self) = None
  \/ longitude (MeteoblueClient.config self) = None ->
  MeteoblueClient.get_coordinates self token session =
  if token_missing token
  then ([], Raise (ValueError "Cannot get Home Assistant token"))
  else ([hass_config_request token],
        platform_coordinates (get_num (elevation (MeteoblueClient.config self)))
          (session (HASSIO_API ++ "/config") (bearer_headers token))).
Proof.
  intros Hlack. unfold MeteoblueClient.get_coordinates.
  assert (Hnone : is_None (get_num (latitude (MeteoblueClient.config self)))
                  || is_None (get_num (longitude (MeteoblueClient.config self))) = true).
  { destruct Hlack as [H | H]; rewrite H; simpl; [reflexivity | apply orb_true_r]. }
  rewrite Hnone. destruct (token_missing token); [reflexivity |].
  unfold session_get, hass_config_request, platform_coordinates, bind, lift.
  destruct (session (HASSIO_API ++ "/config") (bearer_headers token)) as [resp | e];
    [| reflexivity].
  destruct (status resp =? 200); simpl; [| reflexivity].
  destruct (json resp) as [[| | | | | |d] | e]; simpl; try reflexivity.
  destruct (truthy (get_num (elevation (MeteoblueClient.config self)))); reflexivity.
Qed.

(** C1. At a configuration whose elevation is 0 and whose latitude is
    missing, [get_coordinates] asks the host platform once and returns
    the elevation the platform reports (430) in place of the configured
    one. *)
Theorem get_coordinates_sea_level :
  MeteoblueClient.get_coordinates sea_level_client (Some "token") hass_config_answer
  = ([hass_config_request (Some "token")],
     Ok (VFloat "47.1", VFloat "8.3", VInt 430))
  /\ get_num (elevation (MeteoblueClient.config sea_level_client)) = VInt 0.
Proof. split; reflexivity. Qed.

(** ** Broker settings *)

Lemma get_mqtt_config_outcome (token : option string) (supervisor : http) :
  outcome (get_mqtt_config token supervisor) =
  if token_missing token then Raise (ValueError "SUPERVISOR_TOKEN not found")
  else
    match mqtt_answer token supervisor with
    | Raise e => Raise e
    | Ok resp =>
        if status resp =? 200 then
          match json resp with
          | Raise e => Raise e
          | Ok (VDict d) =>
              match dict_get d "data" (VDict []) with
              | VDict m => Ok (broker_settings m)
              | _ => Raise AttributeError
              end
          | Ok _ => Raise AttributeError
          end
        else Raise (ValueError ("Failed to get MQTT config: " ++ str_int (status resp)))
    end.
Proof.
  unfold get_mqtt_config, mqtt_answer.
  destruct (token_missing token); [reflexivity |].
  unfold session_get, bind, lift, try_finally, emit, outcome.
  destruct (supervisor (SUPERVISOR_API ++ "/services/mqtt") (bearer_headers token))
    as [resp | e]; [| reflexivity].
  destruct (status resp =? 200); simpl; [| reflexivity].
  destruct (json resp) as [[| | | | | |d] | e]; simpl; try reflexivity.
  destruct (dict_get d "data" (VDict [])); reflexivity.
Qed.

(** The claim of C9 fails as stated: with the credential present and
    an answer of status 200, [get_mqtt_config] still raises when the
    [data] entry of the answer is null. *)
Lemma get_mqtt_config_null_data :
  token_missing (Some "token") = false
  /\ returns_success (mqtt_answer (Some "token") null_data_answer) = true
  /\ outcome (get_mqtt_config (Some "token") null_data_answer) = Raise AttributeError.
Proof. split; [| split]; reflexivity. Qed.

(** C9, amended.  [get_mqtt_config] raises exactly when the bearer
    credential is missing (unset or empty), or the call does not return
    success, or the successful answer carries no settings document: its
    body cannot be read, or is no object, or has a [data] entry that is
    no object.  Otherwise it returns the settings of the document, with
    host core-mosquitto and port 1883 where the document omits them and
    username and password as the document has them. *)
Theorem get_mqtt_config_contract (token : option string) (supervisor : http) :
  ((exists e, outcome (get_mqtt_config token supervisor) = Raise e)
   <-> token_missing token = true
       \/ returns_success (mqtt_answer token supervisor) = false
       \/ well_formed_answer (mqtt_answer token supervisor) = false)
  /\ (token_missing token = false ->
      forall resp m,
        mqtt_answer token supervisor = Ok resp ->
        status resp = 200 ->
        settings_document resp = Some m ->
        outcome (get_mqtt_config token supervisor) =
        Ok (VDict [("host", match lookup "host" m with
                            | Some h => h
                            | None => VStr "core-mosquitto"
                            end);
                   ("port", match lookup "port" m with
                            | Some p => p
                            | None => VInt 1883
                            end);
                   ("username", dict_get m "username" VNone);
                   ("password", dict_get m "password" VNone)])).
Proof.
  rewrite get_mqtt_config_outcome.
  unfold well_formed_answer, settings_document, returns_success.
  destruct (token_missing token) eqn:Htok.
  - split; [| discriminate].
    split; [auto | intros _; eexists; reflexivity].
  - destruct (mqtt_answer token supervisor) as [resp | e] eqn:Hans.
    + destruct (status resp =? 200) eqn:Hst.
      * destruct (json resp) as [[| | | | | |d] | e] eqn:Hjs;
          try (split;
               [split; [auto | intros _; eexists; reflexivity]
               | intros _ resp' m' [= <-] _ Hdoc; rewrite Hjs in Hdoc; discriminate]).
        unfold dict_get.
        destruct (lookup "data" d) as [[| | | | | |m] |] eqn:Hdata;
          try (split;
               [split; [auto | intros _; eexists; reflexivity]
               | intros _ resp' m' [= <-] _ Hdoc; rewrite Hjs, Hdata in Hdoc;
                 discriminate]).
        -- split.
           ++ split; [intros [e He]; discriminate
                     | intros [H | [H | H]]; discriminate].
           ++ intros _ resp' m' [= <-] _ Hdoc.
              rewrite Hjs, Hdata in Hdoc. injection Hdoc as <-. reflexivity.
        -- split.
           ++ split; [intros [e He]; discriminate
                     | intros [H | [H | H]]; discriminate].
           ++ intros _ resp' m' [= <-] _ Hdoc.
              rewrite Hjs, Hdata in Hdoc. injection Hdoc as <-. reflexivity.
      * split.
        -- split; [auto | intros _; eexists; reflexivity].
        -- intros _ resp' m' [= <-] Hok.
           apply Z.eqb_neq in Hst. contradiction.
    + split.
      * split; [auto | intros _; eexists; reflexivity].
      * intros _ resp' m' Hresp. discriminate.
Qed.

(** ** Publishing a snapshot *)

Lemma bind_says (ms ms' : list message) (k : unit -> M unit) :
  k tt = says ms' -> bind (says ms) k = says (ms +++ ms').
Proof.
  intros Hk. unfold says, bind. rewrite Hk. unfold says.
  now rewrite map_app.
Qed.

Lemma published_says (ms : list message) : published (events (says ms)) = ms.
Proof.
  unfold says, events. simpl.
  induction ms as [| m ms IH]; simpl; [reflexivity | now rewrite IH].
Qed.

Lemma for_each_says {A : Type} (f : A -> list message) (body : A -> M unit)
    (l : list A) :
  (forall x, In x l -> body x = says (f x)) ->
  for_each l body = says (flat_map f l).
Proof.
  induction l as [| x l IH]; intros Hbody; [reflexivity |].
  simpl. rewrite (Hbody x (or_introl eq_refl)).
  apply bind_says. apply IH. intros y Hy. apply Hbody. now right.
Qed.

Lemma publish_state_says (entity_id : string) (state : value) :
  HomeAssistantPublisher.publish_state entity_id state
  = says [state_message entity_id state].
Proof. reflexivity. Qed.

(** *** Current conditions *)

Lemma publish_field_says (current : dict) (key entity_id : string) :
  HomeAssistantPublisher.publish_field (VDict current) key entity_id
  = says (field_message current key entity_id).
Proof.
  unfold HomeAssistantPublisher.publish_field, field_message.
  simpl py_in. unfold dict_mem, py_getitem.
  destruct (lookup key current) as [v |]; reflexivity.
Qed.

(** A field [humidity] that is present in the section of current
    conditions is not published, whatever the database. *)
Lemma humidity_unread :
  py_in "humidity" (current_section humidity_snapshot) = Ok true
  /\ HomeAssistantPublisher.publish_current_weather humidity_snapshot = ([], Ok tt).
Proof. split; reflexivity. Qed.

(** C8, amended.  For a snapshot that is an object whose section of
    current conditions is an object (or absent),
    [publish_current_weather] publishes, in this order, one state
    message for each of the keys temperature, windspeed, winddirection,
    relativehumidity, pictocode and isdaylight that is present in the
    section, carrying that field's value (relativehumidity to the
    entity humidity); it does nothing else, and an absent key costs
    neither an error nor a default. *)
Theorem publish_current_weather_fields (d current : dict) :
  dict_get d "data_current" (VDict []) = VDict current ->
  HomeAssistantPublisher.publish_current_weather (VDict d)
  = (map Publish
       (opt (option_map (state_message "temperature") (lookup "temperature" current))
        +++ opt (option_map (state_message "wind_speed") (lookup "windspeed" current))
        +++ opt (option_map (state_message "wind_direction")
                   (lookup "winddirection" current))
        +++ opt (option_map (state_message "humidity")
                   (lookup "relativehumidity" current))
        +++ opt (option_map (state_message "pictocode") (lookup "pictocode" current))
        +++ opt (option_map (state_message "is_daylight")
                   (lookup "isdaylight" current))),
     Ok tt).
Proof.
  intros Hsection. unfold HomeAssistantPublisher.publish_current_weather.
  simpl py_get. rewrite Hsection, bind_lift_ok.
  rewrite !publish_field_says.
  change (map Publish ?ms, Ok tt) with (says ms).
  repeat (apply bind_says).
  reflexivity.
Qed.

(** *** The daily forecast *)

Lemma publish_day_says (forecast : dict) (key : string) (i : nat) (suffix : string) :
  column_ok forecast key = true ->
  HomeAssistantPublisher.publish_day (VDict forecast) key i suffix
  = says (day_message forecast key i suffix).
Proof.
  unfold column_ok, HomeAssistantPublisher.publish_day, day_message, cell.
  simpl py_in. unfold dict_mem, py_getitem.
  destruct (lookup key forecast) as [[| | | | | column |] |]; try discriminate;
    intros _; [| reflexivity].
  rewrite !bind_lift_ok. simpl py_len. rewrite bind_lift_ok.
  destruct (i <? List.length column)%nat eqn:Hlt.
  - apply Nat.ltb_lt in Hlt. apply nth_error_Some in Hlt.
    simpl py_index.
    destruct (nth_error column i) as [v |]; [| congruence].
    now rewrite bind_lift_ok.
  - apply Nat.ltb_ge in Hlt. apply nth_error_None in Hlt.
    now rewrite Hlt.
Qed.

Lemma publish_forecast_says (d forecast : dict) (times : list value) :
  dict_get d "data_day" (VDict []) = VDict forecast ->
  lookup "time" forecast = Some (VList times) ->
  columns_ok forecast forecast_keys = true ->
  HomeAssistantPublisher.publish_forecast (VDict d)
  = says (flat_map (day_messages forecast) (seq 0 (List.length times))).
Proof.
  intros Hsection Htime Hcols.
  unfold columns_ok, forecast_keys in Hcols. simpl in Hcols.
  repeat (apply andb_prop in Hcols; destruct Hcols as [? Hcols]).
  unfold HomeAssistantPublisher.publish_forecast.
  simpl py_get. rewrite Hsection, bind_lift_ok.
  assert (Htruthy : truthy (VDict forecast) = true)
    by (destruct forecast; [discriminate | reflexivity]).
  rewrite Htruthy. simpl negb. cbv iota.
  simpl py_get. unfold dict_get. rewrite Htime, bind_lift_ok.
  simpl py_iter. rewrite bind_lift_ok.
  apply for_each_says. intros i _.
  rewrite !publish_day_says by assumption.
  unfold day_messages. repeat (apply bind_says).
  reflexivity.
Qed.

Lemma filter_day_message (forecast : dict) (key : string) (i : nat) (suffix : string) :
  filter is_temp_max (day_message forecast key i suffix) =
  if is_temp_max (state_message (day_entity i suffix) VNone)
  then day_message forecast key i suffix
  else [].
Proof.
  unfold day_message. destruct (cell forecast key i) as [v |]; simpl.
  - change (is_temp_max (state_message (day_entity i suffix) v))
      with (is_temp_max (state_message (day_entity i suffix) VNone)).
    now destruct (is_temp_max (state_message (day_entity i suffix) VNone)).
  - now destruct (is_temp_max (state_message (day_entity i suffix) VNone)).
Qed.

Lemma filter_day_messages (forecast : dict) (i : nat) :
  (i < 3)%nat ->
  filter is_temp_max (day_messages forecast i)
  = day_message forecast "temperature_max" i "temp_max".
Proof.
  intros Hi. unfold day_messages.
  rewrite !filter_app, !filter_day_message.
  destruct i as [| [| [| i]]]; [| | | lia];
    (match goal with
     | |- ?l = _ =>
         let l' := eval cbv beta iota zeta delta -[day_message List.app] in l in
         change l with l'
     end; now rewrite !app_nil_r).
Qed.

(** With [time] and [temperature_max] of three elements and a null
    [temperature_min], [publish_forecast] publishes the maximum of the
    first day and raises, whatever the database. *)
Lemma null_column_stops_forecast :
  HomeAssistantPublisher.publish_forecast (VDict [("data_day", VDict null_min_forecast)])
  = ([Publish (state_message "forecast_day_0_temp_max" (VFloat "4.5"))],
     Raise TypeError).
Proof. reflexivity. Qed.

(** C4, amended.  For a snapshot whose daily section has a [time] array of 3
    elements and a [temperature_max] array of 3 elements (the other
    per-day columns being arrays where present), [publish_forecast]
    returns normally and publishes the messages of the days 0, 1 and 2
    and of no other day: among them exactly three are
    forecast_day_N_temp_max states, for N = 0, 1, 2 in this order, each
    carrying element N of [temperature_max].  The number of days of the
    configuration is no argument of [publish_forecast]. *)
Theorem publish_forecast_three_days (d forecast : dict) (times tmax : list value) :
  dict_get d "data_day" (VDict []) = VDict forecast ->
  lookup "time" forecast = Some (VList times) ->
  List.length times = 3%nat ->
  lookup "temperature_max" forecast = Some (VList tmax) ->
  List.length tmax = 3%nat ->
  columns_ok forecast forecast_keys = true ->
  let c := HomeAssistantPublisher.publish_forecast (VDict d) in
  outcome c = Ok tt
  /\ published (events c) =
     day_messages forecast 0 +++ day_messages forecast 1 +++ day_messages forecast 2
  /\ filter is_temp_max (published (events c)) =
     [state_message "forecast_day_0_temp_max" (nth 0 tmax VNone);
      state_message "forecast_day_1_temp_max" (nth 1 tmax VNone);
      state_message "forecast_day_2_temp_max" (nth 2 tmax VNone)].
Proof.
  intros Hsection Htime Hlen Hmax Hlenmax Hcols c.
  assert (Hc : c = says (day_messages forecast 0 +++ day_messages forecast 1
                         +++ day_messages forecast 2)).
  { subst c. rewrite (publish_forecast_says d forecast times) by assumption.
    rewrite Hlen. simpl. now rewrite app_nil_r. }
  rewrite Hc, published_says. split; [reflexivity |]. split; [reflexivity |].
  rewrite !filter_app, !filter_day_messages by lia.
  unfold day_message, cell. rewrite Hmax.
  destruct tmax as [| a [| b [| e [| x tmax]]]]; try discriminate.
  reflexivity.
Qed.

(** *** Sun and moon *)

Lemma lookup_map_values (g : string -> value -> value) (k : string) (d : dict) :
  lookup k (map (fun kv => (fst kv, g (fst kv) (snd kv))) d)
  = option_map (g k) (lookup k d).
Proof.
  induction d as [| [k' v] d IH]; [reflexivity |].
  simpl. destruct (String.eqb k k') eqn:E; [| exact IH].
  apply String.eqb_eq in E. now subst k'.
Qed.

Lemma truthy_first_only (v : value) : truthy (first_only v) = truthy v.
Proof. destruct v as [| | | | | [| x l] |]; reflexivity. Qed.

Lemma py_index_first_only (v : value) : py_index (first_only v) 0 = py_index v 0.
Proof. destruct v as [| | | | | [| x l] |]; reflexivity. Qed.

Lemma published_bind_Forall {A B : Type} (P : message -> Prop)
    (c : M A) (k : A -> M B) :
  Forall P (published (events c)) ->
  (forall a, Forall P (published (events (k a)))) ->
  Forall P (published (events (bind c k))).
Proof.
  intros Hc Hk. rewrite events_bind.
  destruct (outcome c) as [a | e]; [| exact Hc].
  rewrite published_app. apply Forall_app. split; [exact Hc | apply Hk].
Qed.

Lemma published_lift_Forall {A : Type} (P : message -> Prop) (r : result A) :
  Forall P (published (events (lift r))).
Proof. constructor. Qed.

Lemma publish_first_today (f : dict) (key entity_id : string) :
  HomeAssistantPublisher.publish_first
    (VDict (map (fun kv => (fst kv, first_only (snd kv))) f)) key entity_id
  = HomeAssistantPublisher.publish_first (VDict f) key entity_id.
Proof.
  unfold HomeAssistantPublisher.publish_first.
  simpl py_in. unfold dict_mem, py_getitem.
  rewrite (lookup_map_values (fun _ => first_only)).
  destruct (lookup key f) as [column |]; [| reflexivity].
  simpl option_map. cbv iota. rewrite !bind_lift_ok, truthy_first_only.
  destruct (truthy column); [| reflexivity].
  now rewrite py_index_first_only.
Qed.

Lemma publish_first_carries (data : value) (f : dict) (key entity_id : string) :
  day_section data = VDict f ->
  In (key, entity_id) sunmoon_fields ->
  Forall (carries_first data)
    (published (events (HomeAssistantPublisher.publish_first (VDict f) key entity_id))).
Proof.
  intros Hsection Hin. unfold HomeAssistantPublisher.publish_first.
  simpl py_in. unfold dict_mem, py_getitem.
  destruct (lookup key f) as [column |] eqn:Hcol; [| constructor].
  rewrite !bind_lift_ok.
  destruct (truthy column); [| constructor].
  destruct (py_index column 0) as [x |] eqn:Hx; [| constructor].
  rewrite bind_lift_ok. repeat constructor.
  exists key, entity_id, x. split; [exact Hin |]. split; [| reflexivity].
  rewrite Hsection. simpl items. unfold dict_get. now rewrite Hcol.
Qed.

Lemma day_section_today (d : dict) :
  dict_get (map (fun kv =>
                   (fst kv,
                    if String.eqb (fst kv) "data_day"
                    then today_section (snd kv) else snd kv)) d)
           "data_day" (VDict [])
  = today_section (dict_get d "data_day" (VDict [])).
Proof.
  unfold dict_get.
  rewrite (lookup_map_values
             (fun k v => if String.eqb k "data_day" then today_section v else v)).
  destruct (lookup "data_day" d); reflexivity.
Qed.

Lemma time_today (f : dict) :
  dict_get (map (fun kv => (fst kv, first_only (snd kv))) f) "time" VNone
  = first_only (dict_get f "time" VNone).
Proof.
  unfold dict_get. rewrite (lookup_map_values (fun _ => first_only)).
  destruct (lookup "time" f); reflexivity.
Qed.

Lemma publish_sunmoon_dict (d : dict) :
  HomeAssistantPublisher.publish_sunmoon (VDict d) =
  match day_section (VDict d) with
  | VDict f =>
      if negb (truthy (VDict f)) then ret tt
      else if negb (truthy (dict_get f "time" VNone)) then ret tt
      else
        HomeAssistantPublisher.publish_first (VDict f) "sunrise" "sunrise" ;;
        HomeAssistantPublisher.publish_first (VDict f) "sunset" "sunset" ;;
        HomeAssistantPublisher.publish_first (VDict f) "moonrise" "moonrise" ;;
        HomeAssistantPublisher.publish_first (VDict f) "moonset" "moonset" ;;
        HomeAssistantPublisher.publish_first (VDict f) "moonphasename" "moon_phase"
  | section => if negb (truthy section) then ret tt else raise AttributeError
  end.
Proof.
  unfold HomeAssistantPublisher.publish_sunmoon, day_section.
  simpl py_get. simpl items. rewrite bind_lift_ok.
  destruct (dict_get d "data_day" (VDict [])) as [| b | z | r | s | l | f];
    try reflexivity;
    match goal with
    | |- context [negb (truthy ?v)] => destruct (negb (truthy v))
    end; try reflexivity.
  simpl py_get. now rewrite bind_lift_ok.
Qed.

(** C7. Every state message [publish_sunmoon] publishes, for any
    snapshot, carries element 0 of the column of sunrise, sunset,
    moonrise, moonset or moonphasename it is named after; and nothing
    beyond the first element of any array of the daily section is
    published, for [publish_sunmoon] does exactly the same on the
    snapshot with every such array cut down to its first element. *)
Theorem publish_sunmoon_first_element (data : value) :
  Forall (carries_first data)
    (published (events (HomeAssistantPublisher.publish_sunmoon data)))
  /\ HomeAssistantPublisher.publish_sunmoon (today_only data)
     = HomeAssistantPublisher.publish_sunmoon data.
Proof.
  destruct data as [| b | z | r | s | l | d]; try (split; [constructor | reflexivity]).
  split.
  - rewrite publish_sunmoon_dict.
    destruct (day_section (VDict d)) as [| b | z | r | s | l | f] eqn:Hsection;
      try (match goal with
           | |- context [if ?c then _ else _] => destruct c; constructor
           end).
    destruct (negb (truthy (VDict f))); [constructor |].
    destruct (negb (truthy (dict_get f "time" VNone))); [constructor |].
    repeat (apply published_bind_Forall; [| intros _]);
      apply (publish_first_carries (VDict d) f); try exact Hsection;
      unfold sunmoon_fields; simpl; auto 10.
  - simpl today_only. rewrite !publish_sunmoon_dict.
    unfold day_section. simpl items. rewrite day_section_today.
    destruct (dict_get d "data_day" (VDict [])) as [| b | z | r | s | l | f];
      try reflexivity.
    simpl today_section. cbv iota.
    replace (truthy (VDict (map (fun kv => (fst kv, first_only (snd kv))) f)))
      with (truthy (VDict f)) by (now destruct f).
    destruct (negb (truthy (VDict f))); [reflexivity |].
    rewrite time_today, truthy_first_only.
    destruct (negb (truthy (dict_get f "time" VNone))); [reflexivity |].
    now rewrite !publish_first_today.
Qed.

Example publish_sunmoon_two_days :
  HomeAssistantPublisher.publish_sunmoon
    (VDict [("data_day",
             VDict [("time", VList [VStr "2025-01-01"; VStr "2025-01-02"]);
                    ("sunrise", VList [VStr "08:12"; VStr "08:11"]);
                    ("moonphasename", VList [VStr "full moon"; VStr "waning gibbous"])])])
  = says [state_message "sunrise" (VStr "08:12");
          state_message "moon_phase" (VStr "full moon")].
Proof. reflexivity. Qed.

(** *** No time array, no state *)

(** C10. For a snapshot whose daily section lacks the [time] key or has
    an empty [time] array, neither [publish_forecast] nor
    [publish_sunmoon] performs any event, so no state message is
    published, whatever other columns the section holds. *)
Theorem no_time_no_state (data : value) :
  time_column data = None \/ time_column data = Some (VList []) ->
  events (HomeAssistantPublisher.publish_forecast data) = []
  /\ events (HomeAssistantPublisher.publish_sunmoon data) = [].
Proof.
  intros Htime.
  destruct data as [| b | z | r | s | l | d]; try (split; reflexivity).
  unfold time_column in Htime. split.
  - unfold HomeAssistantPublisher.publish_forecast.
    simpl py_get. rewrite bind_lift_ok.
    change (dict_get d "data_day" (VDict [])) with (day_section (VDict d)).
    destruct (day_section (VDict d)) as [| b | z | r | s | l | f];
      try (match goal with
           | |- context [negb (truthy ?v)] => destruct (negb (truthy v))
           end; reflexivity).
    destruct (negb (truthy (VDict f))); [reflexivity |].
    simpl py_get. simpl items in Htime. unfold dict_get.
    destruct Htime as [-> | ->]; reflexivity.
  - rewrite publish_sunmoon_dict.
    destruct (day_section (VDict d)) as [| b | z | r | s | l | f];
      try (match goal with
           | |- context [negb (truthy ?v)] => destruct (negb (truthy v))
           end; reflexivity).
    destruct (negb (truthy (VDict f))); [reflexivity |].
    simpl items in Htime. unfold dict_get.
    destruct Htime as [-> | ->]; reflexivity.
Qed.

(** ** Discovery before state *)

Lemma silent_nil {A : Type} (c : M A) : silent c -> published (events c) = [].
Proof.
  unfold silent. destruct (published (events c)) as [| m ms]; [reflexivity |].
  intros H. inversion H. contradiction.
Qed.

Lemma published_try_except_Forall {A : Type} (P : message -> Prop)
    (c : M A) (h : exn -> M A) :
  Forall P (published (events c)) ->
  (forall e, Forall P (published (events (h e)))) ->
  Forall P (published (events (try_except c h))).
Proof.
  intros Hc Hh. destruct c as [t [a | e]]; [exact Hc |].
  unfold try_except. destruct (is_Exception e); [| exact Hc].
  specialize (Hh e). destruct (h e) as [t' r]. simpl in *.
  rewrite published_app. apply Forall_app. now split.
Qed.

Lemma published_for_each_Forall {A : Type} (P : message -> Prop)
    (l : list A) (body : A -> M unit) :
  (forall x, Forall P (published (events (body x)))) ->
  Forall P (published (events (for_each l body))).
Proof.
  intros Hbody. induction l as [| x l IH]; [constructor |].
  simpl. apply published_bind_Forall; [apply Hbody | intros _; exact IH].
Qed.

Lemma publish_state_is_state (entity_id : string) (state : value) :
  Forall is_state
    (published (events (HomeAssistantPublisher.publish_state entity_id state))).
Proof. repeat constructor. now exists entity_id, state. Qed.

Lemma publish_discovery_is_discovery (sensor_type name : string)
    (unit_ device_class state_class icon : option string) :
  Forall is_discovery
    (published (events (HomeAssistantPublisher.publish_discovery
                          sensor_type name unit_ device_class state_class icon))).
Proof. repeat constructor. now eexists name, _. Qed.

(** One step through a computation, for a goal about all the messages
    it publishes. *)
Ltac trace_step :=
  first
    [ apply publish_state_is_state
    | apply publish_discovery_is_discovery
    | apply published_bind_Forall; [| intros ?]
    | apply published_try_except_Forall; [| intros ?]
    | apply published_for_each_Forall; intros ?
    | apply published_lift_Forall
    | apply Forall_nil
    | match goal with
      | |- context [if ?b then _ else _] => destruct b
      | |- context [match ?x with (_, _) => _ end] => destruct x
      end ].

Ltac trace_walk := repeat trace_step.

Lemma publish_current_weather_states (data : value) :
  Forall is_state
    (published (events (HomeAssistantPublisher.publish_current_weather data))).
Proof.
  unfold HomeAssistantPublisher.publish_current_weather,
    HomeAssistantPublisher.publish_field.
  trace_walk.
Qed.

Lemma publish_forecast_states (data : value) :
  Forall is_state
    (published (events (HomeAssistantPublisher.publish_forecast data))).
Proof.
  unfold HomeAssistantPublisher.publish_forecast,
    HomeAssistantPublisher.publish_day.
  trace_walk.
Qed.

Lemma publish_sunmoon_states (data : value) :
  Forall is_state
    (published (events (HomeAssistantPublisher.publish_sunmoon data))).
Proof.
  unfold HomeAssistantPublisher.publish_sunmoon,
    HomeAssistantPublisher.publish_first.
  trace_walk.
Qed.

Lemma get_coordinates_silent (self : MeteoblueClient.client)
    (token : option string) (session : http) :
  silent (MeteoblueClient.get_coordinates self token session).
Proof.
  unfold silent, MeteoblueClient.get_coordinates. trace_walk.
Qed.

Lemma fetch_weather_silent (self : MeteoblueClient.client)
    (token : option string) (session : http) :
  silent (MeteoblueClient.fetch_weather self token session).
Proof.
  unfold silent, MeteoblueClient.fetch_weather.
  apply published_try_except_Forall; [| intros e; trace_walk].
  apply published_bind_Forall; [apply get_coordinates_silent |].
  intros [[lat lon] elevation]. trace_walk.
Qed.

Lemma poll_body_states (self : MeteoblueClient.client) (token : option string)
    (session : http) :
  Forall is_state (published (events (Main.poll_body self token session))).
Proof.
  unfold Main.poll_body.
  apply published_bind_Forall; [constructor | intros _].
  apply published_bind_Forall.
  { rewrite (silent_nil _ (fetch_weather_silent self token session)). constructor. }
  intros weather_data.
  apply published_bind_Forall; [apply published_lift_Forall | intros has_current].
  apply published_bind_Forall.
  { destruct has_current; [apply publish_current_weather_states | constructor]. }
  intros _.
  apply published_bind_Forall; [apply published_lift_Forall | intros has_day].
  apply published_bind_Forall; [| intros _; constructor].
  destruct has_day; [| constructor].
  apply published_bind_Forall;
    [apply publish_forecast_states | intros _; apply publish_sunmoon_states].
Qed.

Lemma poll_loop_states (self : MeteoblueClient.client) (token : option string)
    (update_interval : Z) (cs : list Main.cycle) :
  Forall is_state
    (published (events (Main.poll_loop self token update_interval cs))).
Proof.
  induction cs as [| c cs IH]; [constructor |].
  simpl. apply published_bind_Forall; [| intros _; exact IH].
  unfold Main.poll_cycle.
  apply published_bind_Forall; [| intros _; constructor].
  apply published_try_except_Forall; [apply poll_body_states |].
  intros e. constructor.
Qed.

Lemma get_mqtt_config_silent (token : option string) (supervisor : http) :
  silent (get_mqtt_config token supervisor).
Proof.
  unfold silent, get_mqtt_config.
  destruct (token_missing token); [constructor |].
  apply published_bind_Forall; [constructor | intros _].
  match goal with
  | |- Forall _ (published (events (try_finally ?c _))) =>
      assert (Hc : Forall (fun _ : message => False) (published (events c)))
        by trace_walk;
      destruct c as [t r]
  end.
  unfold try_finally. simpl in *. rewrite published_app.
  apply Forall_app. split; [exact Hc | constructor].
Qed.

Lemma load_configuration_silent (w : Main.world) :
  silent (Main.load_configuration w).
Proof.
  unfold silent, Main.load_configuration.
  apply published_bind_Forall; [constructor | intros _].
  apply published_bind_Forall; [trace_walk | intros config].
  apply published_bind_Forall; [| intros k; trace_walk].
  destruct (api_key config) as [k |]; [destruct (truthy (VStr k)) |]; constructor.
Qed.

Lemma connect_mqtt_silent (w : Main.world) : silent (Main.connect_mqtt w).
Proof.
  unfold silent, Main.connect_mqtt.
  apply published_bind_Forall.
  { apply published_try_except_Forall; [| intros e; constructor].
    apply published_bind_Forall; [apply get_mqtt_config_silent | intros cfg].
    trace_walk. }
  intros mqtt_config. trace_walk.
Qed.

(** *** The stages of [main], case by case *)

Lemma load_configuration_cases (w : Main.world) :
  Main.load_configuration w =
  match configuration_failure w, Main.options w with
  | Some line, _ =>
      ([Log INFO "Starting Meteoblue Weather Add-on"; line], Raise (SystemExit 1))
  | None, Raise e => ([Log INFO "Starting Meteoblue Weather Add-on"], Raise e)
  | None, Ok config =>
      ([Log INFO "Starting Meteoblue Weather Add-on"],
       match Main.update_interval_seconds config with
       | Ok seconds =>
           Ok (config, match api_key config with Some k => k | None => "" end, seconds)
       | Raise e => Raise e
       end)
  end.
Proof.
  unfold configuration_failure, Main.load_configuration.
  destruct (Main.options w) as [config | e]; simpl.
  - destruct (api_key config) as [k |]; simpl; [| reflexivity].
    destruct (String.eqb k ""); simpl; [reflexivity |].
    destruct (Main.update_interval_seconds config); reflexivity.
  - now destruct (is_Exception e).
Qed.

Lemma load_configuration_ok (w : Main.world) (config : Configuration)
    (key : string) (seconds : Z) :
  outcome (Main.load_configuration w) = Ok (config, key, seconds) ->
  Main.options w = Ok config
  /\ api_key config = Some key
  /\ key <> ""
  /\ Main.update_interval_seconds config = Ok seconds.
Proof.
  rewrite load_configuration_cases. unfold configuration_failure.
  destruct (Main.options w) as [cfg | e]; [| destruct (is_Exception e); discriminate].
  destruct (api_key cfg) as [k |] eqn:Hkey; [| discriminate].
  destruct (String.eqb_spec k "") as [-> | Hk]; [discriminate |].
  simpl outcome.
  destruct (Main.update_interval_seconds cfg) as [s |] eqn:Hs; [| discriminate].
  intros [= <- <- <-]. repeat split; auto.
Qed.

Lemma get_mqtt_config_settings (token : option string) (supervisor : http) (v : value) :
  outcome (get_mqtt_config token supervisor) = Ok v ->
  exists m, v = broker_settings m.
Proof.
  rewrite get_mqtt_config_outcome.
  destruct (token_missing token); [discriminate |].
  destruct (mqtt_answer token supervisor) as [resp | e]; [| discriminate].
  destruct (status resp =? 200); [| discriminate].
  destruct (json resp) as [[| | | | | | d] | e]; try discriminate.
  destruct (dict_get d "data" (VDict [])) as [| | | | | | m]; try discriminate.
  intros [= <-]. now exists m.
Qed.

Lemma connect_mqtt_cases (w : Main.world) :
  Main.connect_mqtt w =
  match get_mqtt_config (Main.token w) (Main.supervisor w) with
  | (t, Raise e) =>
      if is_Exception e
      then (t +++ [LogExn ERROR "Failed to get MQTT configuration: " e],
            Raise (SystemExit 1))
      else (t, Raise e)
  | (t, Ok settings) =>
      let host := dict_get (items settings) "host" VNone in
      let port := dict_get (items settings) "port" VNone in
      let username := dict_get (items settings) "username" VNone in
      let password := dict_get (items settings) "password" VNone in
      (t +++ [Log INFO ("Got MQTT config: host=" ++ py_str host
                        ++ ", port=" ++ py_str port)]
         +++ credentials_events username password
         +++ [Connect host port 60]
         +++ connect_events (Main.broker w host port),
       connect_outcome (Main.broker w host port))
  end.
Proof.
  pose proof (get_mqtt_config_settings (Main.token w) (Main.supervisor w)) as Hshape.
  unfold Main.connect_mqtt.
  destruct (get_mqtt_config (Main.token w) (Main.supervisor w)) as [t [v | e]].
  - destruct (Hshape v eq_refl) as [m ->]. clear Hshape.
    unfold broker_settings. cbv zeta. simpl items.
    change (dict_get _ "host" VNone) with (dict_get m "host" (VStr "core-mosquitto")).
    change (dict_get _ "port" VNone) with (dict_get m "port" (VInt 1883)).
    change (dict_get _ "username" VNone) with (dict_get m "username" VNone).
    change (dict_get _ "password" VNone) with (dict_get m "password" VNone).
    set (host := dict_get m "host" (VStr "core-mosquitto")).
    set (port := dict_get m "port" (VInt 1883)).
    set (username := dict_get m "username" VNone).
    set (password := dict_get m "password" VNone).
    unfold credentials_events, connect_events, connect_outcome.
    assert (Hu : dict_get [("host", host); ("port", port); ("username", username);
                           ("password", password)] "username" VNone = username)
      by reflexivity.
    assert (Hp : dict_get [("host", host); ("port", port); ("username", username);
                           ("password", password)] "password" VNone = password)
      by reflexivity.
    unfold bind, try_except, lift, emit, ret. simpl. rewrite Hu, ?Hp.
    destruct (truthy username); simpl;
      (destruct (Main.broker w host port) as [[] | e]; simpl;
       [| destruct (is_Exception e); simpl]);
      rewrite <- ?app_assoc; simpl; rewrite ?app_nil_r; reflexivity.
  - clear Hshape. unfold bind, try_except. simpl.
    destruct (is_Exception e); reflexivity.
Qed.

Lemma startup_cases (w : Main.world) :
  Main.startup w =
  match Main.load_configuration w with
  | (t1, Raise e) => (t1, Raise e)
  | (t1, Ok (config, key, update_interval)) =>
      match Main.connect_mqtt w with
      | (t2, Raise e) => (t1 +++ t2, Raise e)
      | (t2, Ok _) =>
          (t1 +++ t2 +++ [SessionOpen] +++ events (Main.setup_sensors config),
           match outcome (Main.setup_sensors config) with
           | Ok _ =>
               Ok ({| MeteoblueClient.api_key := key; MeteoblueClient.config := config |},
                   update_interval)
           | Raise e => Raise e
           end)
      end
  end.
Proof.
  unfold Main.startup.
  destruct (Main.load_configuration w) as [t1 [[[config key] iv] | e]];
    [| reflexivity].
  destruct (Main.connect_mqtt w) as [t2 [[] | e]]; [| reflexivity].
  destruct (Main.setup_sensors config) as [t3 [[] | e]] eqn:Hsetup;
    unfold bind, emit, ret; simpl; rewrite Hsetup; simpl;
    rewrite ?app_nil_r, <- ?app_assoc; reflexivity.
Qed.

Lemma main_cases (w : Main.world) :
  Main.main w =
  match Main.startup w with
  | (t, Raise e) =>
      (t, match e with SystemExit code => Main.Exited code | _ => Main.Died e end)
  | (t, Ok (self, update_interval)) =>
      match Main.poll_loop self (Main.token w) update_interval (Main.polls w) with
      | (t', Ok _) => (t +++ t', Main.Running)
      | (t', Raise e) => (t +++ t' +++ shutdown e, shutdown_status e)
      end
  end.
Proof.
  unfold Main.main.
  destruct (Main.startup w) as [t [[self iv] | e]]; [| now destruct e].
  destruct (Main.poll_loop self (Main.token w) iv (Main.polls w)) as [t' [[] | e]];
    [reflexivity | now destruct e].
Qed.

(** *** The catalogue *)

Lemma for_each_outcome {A : Type} (l : list A) (body : A -> M unit) :
  (forall x, outcome (body x) = Ok tt) -> outcome (for_each l body) = Ok tt.
Proof.
  intros Hbody. induction l as [| x l IH]; [reflexivity |].
  simpl. now rewrite outcome_bind, Hbody.
Qed.

Lemma for_each_published {A : Type} (l : list A) (body : A -> M unit) :
  (forall x, outcome (body x) = Ok tt) ->
  published (events (for_each l body))
  = flat_map (fun x => published (events (body x))) l.
Proof.
  intros Hbody. induction l as [| x l IH]; [reflexivity |].
  simpl. now rewrite events_bind, Hbody, published_app, IH.
Qed.

Lemma length_flat_map_const {A B : Type} (f : A -> list B) (n : nat) (l : list A) :
  (forall x, List.length (f x) = n) ->
  List.length (flat_map f l) = (n * List.length l)%nat.
Proof.
  intros Hf. induction l as [| x l IH]; simpl; [lia |].
  rewrite length_app, Hf, IH. lia.
Qed.

(** With an int, [setup_forecast_sensors] walks through the days. *)
Lemma setup_forecast_sensors_int (days : Z) :
  HomeAssistantPublisher.setup_forecast_sensors (VInt days)
  = for_each (range days) forecast_day_sensors.
Proof.
  unfold HomeAssistantPublisher.setup_forecast_sensors. simpl py_range.
  now rewrite bind_lift_ok.
Qed.

(** With anything else it raises before the first message. *)
Lemma setup_forecast_sensors_cases (days : value) :
  HomeAssistantPublisher.setup_forecast_sensors days =
  match day_count days with
  | Some d => HomeAssistantPublisher.setup_forecast_sensors (VInt d)
  | None => ([], Raise TypeError)
  end.
Proof. destruct days as [| [] | | | | |]; reflexivity. Qed.

Lemma setup_forecast_sensors_outcome (days : Z) :
  outcome (HomeAssistantPublisher.setup_forecast_sensors (VInt days)) = Ok tt.
Proof.
  rewrite setup_forecast_sensors_int. apply for_each_outcome. reflexivity.
Qed.

Lemma setup_forecast_sensors_published (days : Z) :
  published (events (HomeAssistantPublisher.setup_forecast_sensors (VInt days)))
  = flat_map (fun day => published (events (forecast_day_sensors day))) (range days).
Proof.
  rewrite setup_forecast_sensors_int. apply for_each_published. reflexivity.
Qed.

Lemma setup_forecast_sensors_count (days : Z) :
  Z.of_nat (List.length
              (published
                 (events (HomeAssistantPublisher.setup_forecast_sensors (VInt days)))))
  = 4 * Z.max 0 days.
Proof.
  rewrite setup_forecast_sensors_published.
  rewrite (length_flat_map_const _ 4) by reflexivity.
  unfold range. rewrite length_map, length_seq. lia.
Qed.

Lemma setup_sensors_cases (config : Configuration) :
  match day_count (configured_days config) with
  | Some days =>
      published (events (Main.setup_sensors config)) = catalogue days
      /\ outcome (Main.setup_sensors config) = Ok tt
  | None =>
      published (events (Main.setup_sensors config))
      = published (events HomeAssistantPublisher.setup_current_sensors)
      /\ outcome (Main.setup_sensors config) = Raise TypeError
  end.
Proof.
  unfold Main.setup_sensors, catalogue. fold (configured_days config).
  rewrite (setup_forecast_sensors_cases (configured_days config)).
  destruct (day_count (configured_days config)) as [days |].
  - rewrite events_bind, outcome_bind. simpl outcome at 1 2. cbv iota.
    rewrite events_bind, outcome_bind, !setup_forecast_sensors_outcome.
    rewrite !published_app. split; reflexivity.
  - rewrite events_bind, outcome_bind. simpl outcome at 1 2. cbv iota.
    rewrite published_app. split; [| reflexivity].
    apply app_nil_r.
Qed.

Lemma startup_published (w : Main.world) :
  match outcome (Main.startup w) with
  | Ok (self, seconds) =>
      Main.options w = Ok (MeteoblueClient.config self)
      /\ Main.update_interval_seconds (MeteoblueClient.config self) = Ok seconds
      /\ exists days,
           day_count (configured_days (MeteoblueClient.config self)) = Some days
           /\ published (events (Main.startup w)) = catalogue days
  | Raise _ =>
      published (events (Main.startup w)) = []
      \/ published (events (Main.startup w))
         = published (events HomeAssistantPublisher.setup_current_sensors)
  end.
Proof.
  rewrite startup_cases.
  pose proof (silent_nil _ (load_configuration_silent w)) as Hload.
  pose proof (load_configuration_ok w) as Hok.
  destruct (Main.load_configuration w) as [t1 [[[config key] iv] | e]];
    simpl in Hload, Hok; [| now left].
  destruct (Hok config key iv eq_refl) as [Hoptions [_ [_ Hiv]]]. clear Hok.
  pose proof (silent_nil _ (connect_mqtt_silent w)) as Hconnect.
  destruct (Main.connect_mqtt w) as [t2 [[] | e]]; simpl in Hconnect.
  - pose proof (setup_sensors_cases config) as Hsetup.
    destruct (day_count (configured_days config)) as [days |] eqn:Hdays;
      destruct Hsetup as [Hpub Hout]; cbn [outcome events fst snd]; rewrite Hout;
      cbn [MeteoblueClient.config]; rewrite !published_app, Hload, Hconnect, Hpub;
      cbn [published List.app].
    + repeat split; try assumption. exists days. now split.
    + now right.
  - left. cbn [outcome events fst snd]. now rewrite published_app, Hload, Hconnect.
Qed.

(** When the configuration and the broker are in order, the startup
    goes through. *)
Lemma startup_returns (w : Main.world) (config : Configuration) (key : string)
    (seconds days : Z) :
  Main.options w = Ok config ->
  api_key config = Some key ->
  key <> "" ->
  Main.update_interval_seconds config = Ok seconds ->
  outcome (Main.connect_mqtt w) = Ok tt ->
  day_count (configured_days config) = Some days ->
  outcome (Main.startup w)
  = Ok ({| MeteoblueClient.api_key := key; MeteoblueClient.config := config |},
        seconds).
Proof.
  intros Hoptions Hkey Hne Hseconds Hconnect Hdays.
  rewrite startup_cases, load_configuration_cases. unfold configuration_failure.
  rewrite Hoptions, Hkey, Hseconds.
  destruct (String.eqb_spec key "") as [-> | _]; [contradiction |].
  destruct (Main.connect_mqtt w) as [t2 r2]. simpl in Hconnect. subst r2.
  pose proof (setup_sensors_cases config) as Hsetup. rewrite Hdays in Hsetup.
  destruct Hsetup as [_ Hout]. simpl outcome. now rewrite Hout.
Qed.

Lemma catalogue_is_discovery (days : Z) : Forall is_discovery (catalogue days).
Proof.
  unfold catalogue. apply Forall_app; split; [| apply Forall_app; split].
  - unfold HomeAssistantPublisher.setup_current_sensors. trace_walk.
  - unfold HomeAssistantPublisher.setup_forecast_sensors. trace_walk.
  - unfold HomeAssistantPublisher.setup_sunmoon_sensors. trace_walk.
Qed.

(** C3. The three setup calls publish 6 current-weather, 4 times
    [forecast_days] forecast and 5 sun and moon discovery messages, in
    this call order and all retained.  In every run of [main], for any
    number of turns of the loop: when the startup goes through, the
    published messages are this whole catalogue, for the configured
    number of days (7 by default), followed by state messages only, so
    no state message of any poll cycle comes before a discovery
    message; when the startup fails, nothing is published, or the six
    current-weather discovery messages and nothing else (the
    [forecast_days] entry is no int), and so no state message either.
    The startup does go through when the options hold a non-empty API
    key, an interval that is not null and a number of days that is an
    int or missing, and the broker is connected. *)
Theorem discovery_before_state :
  (forall days,
     List.length (published (events HomeAssistantPublisher.setup_current_sensors))
       = 6%nat
     /\ Z.of_nat
          (List.length
             (published
                (events (HomeAssistantPublisher.setup_forecast_sensors (VInt days)))))
        = 4 * Z.max 0 days
     /\ List.length (published (events HomeAssistantPublisher.setup_sunmoon_sensors))
        = 5%nat
     /\ Forall is_discovery (catalogue days))
  /\ (forall w,
        match outcome (Main.startup w) with
        | Ok (self, _) =>
            Main.options w = Ok (MeteoblueClient.config self)
            /\ exists days states,
                 day_count (get_default
                              (forecast_days (MeteoblueClient.config self)) (VInt 7))
                 = Some days
                 /\ published (fst (Main.main w)) = catalogue days +++ states
                 /\ Forall is_state states
        | Raise _ =>
            published (fst (Main.main w)) = []
            \/ published (fst (Main.main w))
               = published (events HomeAssistantPublisher.setup_current_sensors)
        end)
  /\ (forall w config key seconds days,
        Main.options w = Ok config ->
        api_key config = Some key ->
        key <> "" ->
        Main.update_interval_seconds config = Ok seconds ->
        outcome (Main.connect_mqtt w) = Ok tt ->
        day_count (get_default (forecast_days config) (VInt 7)) = Some days ->
        outcome (Main.startup w)
        = Ok ({| MeteoblueClient.api_key := key; MeteoblueClient.config := config |},
              seconds)).
Proof.
  split; [| split].
  - intros days. split; [reflexivity |].
    split; [apply setup_forecast_sensors_count |].
    split; [reflexivity | apply catalogue_is_discovery].
  - intros w. pose proof (startup_published w) as Hstart. rewrite main_cases.
    destruct (Main.startup w) as [t [[self update_interval] | e]]; simpl in *.
    + destruct Hstart as [Hoptions [_ [days [Hdays Hpub]]]]. split; [exact Hoptions |].
      pose proof (poll_loop_states self (Main.token w) update_interval (Main.polls w))
        as Hloop.
      destruct (Main.poll_loop self (Main.token w) update_interval (Main.polls w))
        as [t' [[] | e]]; simpl in Hloop; exists days, (published t');
        (split; [exact Hdays |]); (split; [| exact Hloop]); simpl fst.
      * now rewrite published_app, Hpub.
      * rewrite !published_app, Hpub.
        destruct e; simpl; now rewrite app_nil_r.
    + exact Hstart.
  - intros w config key seconds days. apply startup_returns.
Qed.

(** ** The poll loop *)

Lemma poll_cycle_cases (self : MeteoblueClient.client) (token : option string)
    (update_interval : Z) (c : Main.cycle) :
  let body := Main.poll_body self token (Main.session c) in
  Main.poll_cycle self token update_interval c =
  match outcome body with
  | Ok _ => (events body +++ [Sleep update_interval], after_sleep c)
  | Raise e =>
      if is_Exception e
      then (events body +++ [failure_log e; Sleep update_interval], after_sleep c)
      else (events body, Raise e)
  end.
Proof.
  intros body. unfold Main.poll_cycle. fold body.
  destruct body as [t [[] | e]]; simpl.
  - reflexivity.
  - destruct (is_Exception e); simpl; [| reflexivity].
    now rewrite <- app_assoc.
Qed.

(** C6. When the body of a turn (fetch, then the publish steps) raises
    an exception, the turn logs the error after what the body did, then
    sleeps the interval, and ends as the sleep ends: the exception goes
    no further.  The sleep is the one of a successful turn.  If the
    sleep is not interrupted the loop goes on with the next turn.
    [main] runs the loop, right after the startup, with the interval
    the startup computed, which is the configured number of minutes,
    30 by default, times 60; it is never null there. *)
Theorem poll_cycle_survives_failure (self : MeteoblueClient.client)
    (token : option string) (interval : Z)
    (c : Main.cycle) (cs : list Main.cycle) (e : exn) :
  outcome (Main.poll_body self token (Main.session c)) = Raise e ->
  is_Exception e = true ->
  let body := Main.poll_body self token (Main.session c) in
  Main.poll_cycle self token interval c
  = (events body +++ [LogExn ERROR "Error updating weather: " e; Sleep interval],
     match Main.interrupt c with None => Ok tt | Some x => Raise x end)
  /\ (forall self' c',
        outcome (Main.poll_body self' token (Main.session c')) = Ok tt ->
        Main.poll_cycle self' token interval c'
        = (events (Main.poll_body self' token (Main.session c'))
           +++ [Sleep interval],
           match Main.interrupt c' with None => Ok tt | Some x => Raise x end))
  /\ (Main.interrupt c = None ->
      Main.poll_loop self token interval (c :: cs)
      = (events (Main.poll_cycle self token interval c)
         +++ events (Main.poll_loop self token interval cs),
         outcome (Main.poll_loop self token interval cs)))
  /\ (forall w self' seconds,
        outcome (Main.startup w) = Ok (self', seconds) ->
        let loop := Main.poll_loop self' (Main.token w) seconds (Main.polls w) in
        seconds = 60 * match update_interval (MeteoblueClient.config self') with
                       | Some (Some minutes) => minutes
                       | _ => 30
                       end
        /\ update_interval (MeteoblueClient.config self') <> Some None
        /\ Main.main w
           = match outcome loop with
             | Ok _ => (events (Main.startup w) +++ events loop, Main.Running)
             | Raise x =>
                 (events (Main.startup w) +++ events loop +++ shutdown x,
                  shutdown_status x)
             end).
Proof.
  intros Hraise Hexn body.
  pose proof (poll_cycle_cases self token interval c) as Hcycle.
  simpl in Hcycle. fold body in Hcycle. unfold body in Hraise.
  fold body in Hraise. rewrite Hraise, Hexn in Hcycle.
  split; [exact Hcycle |]. split; [| split].
  - intros self' c' Hok.
    pose proof (poll_cycle_cases self' token interval c') as Hcycle'.
    simpl in Hcycle'. now rewrite Hok in Hcycle'.
  - intros Hsleep. simpl Main.poll_loop. rewrite Hcycle.
    unfold after_sleep. rewrite Hsleep. unfold bind.
    destruct (Main.poll_loop self token interval cs) as [t r]. reflexivity.
  - intros w self' seconds Hstart loop.
    pose proof (startup_published w) as Hpub. rewrite Hstart in Hpub.
    destruct Hpub as [_ [Hseconds _]].
    unfold Main.update_interval_seconds, get_default in Hseconds.
    split; [| split].
    + destruct (update_interval (MeteoblueClient.config self')) as [[minutes |] |];
        try discriminate; injection Hseconds as <-; lia.
    + intros Hnull. now rewrite Hnull in Hseconds.
    + rewrite main_cases. subst loop.
      destruct (Main.startup w) as [t r]. simpl in Hstart. subst r.
      destruct (Main.poll_loop self' (Main.token w) seconds (Main.polls w))
        as [t' [[] | x]]; reflexivity.
Qed.

Example poll_cycle_publish_failure :
  Main.poll_cycle zurich_client None 1800 malformed_cycle
  = ([Log INFO "Fetching weather data...";
      Log INFO "Fetching weather for coordinates: 47.1, 8.3";
      HttpGet zurich_url [];
      LogExn ERROR "Error updating weather: " TypeError;
      Sleep 1800],
     Ok tt).
Proof. reflexivity. Qed.

Example zurich_url_built :
  MeteoblueClient.build_url zurich_client MeteoblueClient.default_packages
    (VFloat "47.1") (VFloat "8.3") VNone
  = Ok zurich_url.
Proof. reflexivity. Qed.

(** An exception of [fetch_weather] is an exception of the body of the
    turn, so the theorem above covers it. *)
Lemma poll_body_fetch_failure (self : MeteoblueClient.client)
    (token : option string) (session : http) (e : exn) :
  outcome (MeteoblueClient.fetch_weather self token session) = Raise e ->
  outcome (Main.poll_body self token session) = Raise e.
Proof.
  intros Hfetch. unfold Main.poll_body.
  rewrite outcome_bind. simpl outcome at 1. cbv iota.
  now rewrite outcome_bind, Hfetch.
Qed.

(** The GETs of [get_coordinates]: none with the position configured or
    the credential missing, one to the host platform otherwise. *)
Lemma get_coordinates_requests (self : MeteoblueClient.client)
    (token : option string) (session : http) :
  requests (events (MeteoblueClient.get_coordinates self token session)) =
  match latitude (MeteoblueClient.config self),
        longitude (MeteoblueClient.config self) with
  | Some _, Some _ => []
  | _, _ => if token_missing token then [] else [HASSIO_API ++ "/config"]
  end.
Proof.
  destruct (latitude (MeteoblueClient.config self)) as [la |] eqn:Hla;
    [destruct (longitude (MeteoblueClient.config self)) as [lo |] eqn:Hlo |].
  - now rewrite (get_coordinates_configured self token session la lo).
  - rewrite get_coordinates_from_platform by auto.
    now destruct (token_missing token).
  - rewrite get_coordinates_from_platform by auto.
    destruct (longitude (MeteoblueClient.config self));
      now destruct (token_missing token).
Qed.

(** * Further properties *)

(** ** The weather client *)

Lemma fetch_weather_cases (self : MeteoblueClient.client)
    (token : option string) (session : http) :
  MeteoblueClient.fetch_weather self token session =
  match MeteoblueClient.get_coordinates self token session with
  | (t, Raise e) => (t +++ fetch_failure_log e, Raise e)
  | (t, Ok (lat, lon, el)) =>
      match weather_url self lat lon el with
      | Raise e => (t +++ fetch_failure_log e, Raise e)
      | Ok url =>
          (t +++ [Log INFO ("Fetching weather for coordinates: "
                            ++ py_str lat ++ ", " ++ py_str lon);
                  HttpGet url []]
             +++ provider_log (session url []),
           provider_outcome (session url []))
      end
  end.
Proof.
  unfold MeteoblueClient.fetch_weather, weather_url, configured_packages.
  destruct (MeteoblueClient.get_coordinates self token session)
    as [t [[[lat lon] el] | e]].
  - unfold bind, emit, session_get, lift. cbv beta iota.
    destruct (MeteoblueClient.build_url self _ lat lon el) as [url | e].
    + unfold provider_log, provider_outcome, fetch_failure_log, status_error.
      set (line := Log INFO _).
      destruct (session url []) as [resp | e]; cbn [try_except app];
        [destruct (status resp =? 200); cbn [negb try_except app];
         [destruct (json resp) as [v | e]; cbn [try_except app]
         | destruct (text resp) as [body | e]; cbn [try_except app raise]] |];
        try destruct (is_Exception e); cbn [try_except app raise];
        rewrite ?app_nil_r, <- ?app_assoc; reflexivity.
    + unfold try_except, fetch_failure_log.
      destruct (is_Exception e); cbn [app raise]; rewrite ?app_nil_r; reflexivity.
  - unfold bind, try_except, fetch_failure_log. simpl.
    destruct (is_Exception e); simpl; rewrite ?app_nil_r; reflexivity.
Qed.

Lemma fetch_failure_log_offline (e : exn) : requests (fetch_failure_log e) = [].
Proof. unfold fetch_failure_log. now destruct (is_Exception e). Qed.

Lemma provider_log_offline (answer : result response) :
  requests (provider_log answer) = [].
Proof.
  unfold provider_log.
  destruct answer as [resp | e]; [| apply fetch_failure_log_offline].
  destruct (status resp =? 200).
  - destruct (json resp) as [v | e]; [reflexivity | apply fetch_failure_log_offline].
  - destruct (text resp) as [body | e]; [reflexivity | apply fetch_failure_log_offline].
Qed.

(** X1. When the coordinates cannot be resolved, [fetch_weather] stops
    there: it logs the error once (if [except Exception] catches it),
    raises the same exception again, and sends nothing to the
    provider; the only request it can have made is the one to the host
    platform. *)
Theorem fetch_weather_without_coordinates (self : MeteoblueClient.client)
    (token : option string) (session : http) (e : exn) :
  outcome (MeteoblueClient.get_coordinates self token session) = Raise e ->
  MeteoblueClient.fetch_weather self token session
  = (events (MeteoblueClient.get_coordinates self token session)
     +++ (if is_Exception e then [LogExn ERROR "Error fetching weather: " e] else []),
     Raise e)
  /\ Forall (fun url => url = HASSIO_API ++ "/config")
       (requests (events (MeteoblueClient.fetch_weather self token session))).
Proof.
  intros Hraise. rewrite fetch_weather_cases.
  pose proof (get_coordinates_requests self token session) as Hreq.
  destruct (MeteoblueClient.get_coordinates self token session) as [t r].
  simpl in Hraise, Hreq. subst r. split; [reflexivity |].
  simpl events. rewrite requests_app, Hreq.
  rewrite fetch_failure_log_offline, app_nil_r.
  destruct (latitude (MeteoblueClient.config self)),
           (longitude (MeteoblueClient.config self)),
           (token_missing token); repeat constructor.
Qed.

(** X2. Once the coordinates are resolved, [fetch_weather] builds the
    URL from the configured packages (or the four default ones) and
    those coordinates.  When that raises, as it does for packages that
    are null, it logs the error and raises it again without a request
    to the provider.  Otherwise it sends exactly one GET for that URL,
    without any header.  It returns the JSON body of a 200 answer; for
    any other status it reads the body, logs it and raises
    [ValueError]; a failed transport or a body that cannot be read, in
    either case, is raised again.  Every failure that
    [except Exception] catches is logged exactly once. *)
Theorem fetch_weather_provider_call (self : MeteoblueClient.client)
    (token : option string) (session : http) (lat lon el : value) :
  outcome (MeteoblueClient.get_coordinates self token session) = Ok (lat, lon, el) ->
  let position := events (MeteoblueClient.get_coordinates self token session) in
  match MeteoblueClient.build_url self
          (match packages (MeteoblueClient.config self) with
           | Some pk => pk
           | None => VList [VStr "current"; VStr "basic-1h"; VStr "basic-day";
                            VStr "sunmoon"]
           end) lat lon el with
  | Raise e =>
      MeteoblueClient.fetch_weather self token session
      = (position
         +++ (if is_Exception e then [LogExn ERROR "Error fetching weather: " e]
              else []),
         Raise e)
  | Ok url =>
      events (MeteoblueClient.fetch_weather self token session)
      = position
        +++ [Log INFO ("Fetching weather for coordinates: "
                       ++ py_str lat ++ ", " ++ py_str lon);
             HttpGet url []]
        +++ provider_log (session url [])
      /\ outcome (MeteoblueClient.fetch_weather self token session)
         = match session url [] with
           | Raise e => Raise e
           | Ok resp =>
               if status resp =? 200 then json resp
               else match text resp with
                    | Ok _ =>
                        Raise (ValueError
                                 ("API returned status " ++ str_int (status resp)))
                    | Raise e => Raise e
                    end
           end
      /\ requests (events (MeteoblueClient.fetch_weather self token session))
         = requests position +++ [url]
  end
  /\ (packages (MeteoblueClient.config self) = Some VNone ->
      MeteoblueClient.fetch_weather self token session
      = (position +++ [LogExn ERROR "Error fetching weather: " TypeError],
         Raise TypeError)).
Proof.
  intros Hok position. subst position.
  pose proof (fetch_weather_cases self token session) as Hcases.
  destruct (MeteoblueClient.get_coordinates self token session) as [t r].
  simpl in Hok. subst r. unfold weather_url, configured_packages, get_default in Hcases.
  change MeteoblueClient.default_packages
    with (VList [VStr "current"; VStr "basic-1h"; VStr "basic-day"; VStr "sunmoon"])
    in Hcases.
  cbn [events fst]. split.
  - destruct (MeteoblueClient.build_url self _ lat lon el) as [url | e].
    + rewrite Hcases. cbn [events outcome fst snd].
      split; [reflexivity |]. split; [reflexivity |].
      rewrite !requests_app, provider_log_offline. reflexivity.
    + exact Hcases.
  - intros Hnull. rewrite Hnull in Hcases. exact Hcases.
Qed.

(** X3. With the latitude or the longitude missing, the other one is
    of no use: [get_coordinates] does what it does with neither of them
    configured, so a lone configured latitude (or longitude) is
    replaced by what the host platform reports. *)
Theorem get_coordinates_ignores_lone_coordinate (self : MeteoblueClient.client)
    (token : option string) (session : http) (la lo : option num) :
  la = None \/ lo = None ->
  MeteoblueClient.get_coordinates (with_position self la lo) token session
  = MeteoblueClient.get_coordinates (with_position self None None) token session.
Proof.
  intros Hlone.
  rewrite (get_coordinates_from_platform (with_position self la lo))
    by (simpl; tauto).
  rewrite (get_coordinates_from_platform (with_position self None None))
    by (simpl; tauto).
  reflexivity.
Qed.

(** X4. A configured elevation that is not zero is the elevation
    [get_coordinates] returns, whether or not the host platform was
    asked and whatever elevation it reports. *)
Theorem get_coordinates_keeps_elevation (self : MeteoblueClient.client)
    (token : option string) (session : http) (n : num) (lat lon el : value) :
  elevation (MeteoblueClient.config self) = Some n ->
  truthy (value_of_num n) = true ->
  outcome (MeteoblueClient.get_coordinates self token session) = Ok (lat, lon, el) ->
  el = value_of_num n.
Proof.
  intros Hel Htruthy.
  destruct (latitude (MeteoblueClient.config self)) as [la |] eqn:Hla;
    [destruct (longitude (MeteoblueClient.config self)) as [lo |] eqn:Hlo |].
  - rewrite (get_coordinates_configured self token session la lo) by assumption.
    rewrite Hel. simpl. now intros [= _ _ <-].
  - rewrite get_coordinates_from_platform by auto.
    rewrite Hel. simpl get_num. unfold platform_coordinates.
    destruct (token_missing token); [discriminate |]. simpl outcome.
    destruct (session _ _) as [resp | e]; [| discriminate].
    destruct (status resp =? 200); [| discriminate].
    destruct (json resp) as [[| | | | | | d] | e]; try discriminate.
    rewrite Htruthy. now intros [= _ _ <-].
  - rewrite get_coordinates_from_platform by auto.
    rewrite Hel. simpl get_num. unfold platform_coordinates.
    destruct (token_missing token); [discriminate |]. simpl outcome.
    destruct (session _ _) as [resp | e]; [| discriminate].
    destruct (status resp =? 200); [| discriminate].
    destruct (json resp) as [[| | | | | | d] | e]; try discriminate.
    rewrite Htruthy. now intros [= _ _ <-].
Qed.

(** ** Broker settings *)

Lemma get_mqtt_config_starting (token : option string) (supervisor : http) :
  Forall starting (events (get_mqtt_config token supervisor)).
Proof.
  unfold get_mqtt_config.
  destruct (token_missing token); [constructor |].
  unfold session_get, bind, lift, try_finally, emit, events.
  destruct (supervisor _ _) as [resp | e]; [| repeat constructor].
  destruct (status resp =? 200); simpl; [| repeat constructor].
  destruct (json resp) as [[| | | | | | d] | e]; simpl; try (repeat constructor).
  destruct (dict_get d "data" (VDict [])); repeat constructor.
Qed.

(** X5. [get_mqtt_config] sends nothing without a credential.  With one
    it opens a session, sends exactly one GET to the [/services/mqtt]
    endpoint of the supervisor with the bearer and content-type
    headers, and closes the session again on every path, whether it
    returns the settings or raises. *)
Theorem get_mqtt_config_trace (token : option string) (supervisor : http) :
  events (get_mqtt_config token supervisor) =
  match token with
  | None => []
  | Some s =>
      if String.eqb s "" then []
      else [SessionOpen;
            HttpGet "http://supervisor/services/mqtt"
              [("Authorization", "Bearer " ++ s);
               ("Content-Type", "application/json")];
            SessionClose]
  end.
Proof.
  unfold get_mqtt_config.
  destruct token as [s |]; [| reflexivity]. simpl token_missing.
  destruct (String.eqb s ""); [reflexivity |].
  unfold session_get, bind, lift, try_finally, emit, events.
  change (SUPERVISOR_API ++ "/services/mqtt") with "http://supervisor/services/mqtt".
  change (bearer_headers (Some s))
    with [("Authorization", "Bearer " ++ s); ("Content-Type", "application/json")].
  destruct (supervisor _ _) as [resp | e]; [| reflexivity].
  destruct (status resp =? 200); simpl; [| reflexivity].
  destruct (json resp) as [[| | | | | | d] | e]; simpl; try reflexivity.
  destruct (dict_get d "data" (VDict [])); reflexivity.
Qed.

(** ** What the publish steps can raise *)

Lemma raises_among_bind {A B : Type} (es : list exn) (c : M A) (k : A -> M B) :
  raises_among es c -> (forall a, raises_among es (k a)) ->
  raises_among es (bind c k).
Proof.
  unfold raises_among. intros Hc Hk. rewrite outcome_bind.
  destruct (outcome c) as [a | e]; [apply Hk | exact Hc].
Qed.

Lemma raises_among_for_each {A : Type} (es : list exn) (l : list A)
    (body : A -> M unit) :
  (forall x, In x l -> raises_among es (body x)) -> raises_among es (for_each l body).
Proof.
  induction l as [| x l IH]; intros Hbody; [exact I |].
  simpl. apply raises_among_bind; [apply Hbody; now left |].
  intros _. apply IH. intros y Hy. apply Hbody. now right.
Qed.

Lemma raises_among_unit (es : list exn) (c : M unit) :
  raises_among es c -> ends_in (Ok tt :: map Raise es) c.
Proof.
  unfold raises_among, ends_in. destruct (outcome c) as [[] | e].
  - intros _. now left.
  - intros Hin. right. now apply in_map.
Qed.

Lemma code_points_nonempty (c : ascii) (s : string) : code_points (String c s) <> [].
Proof.
  simpl. destruct (code_points s) as [| p ps]; [discriminate |].
  destruct p as [| c' p]; [discriminate |].
  destruct (is_continuation c'); discriminate.
Qed.

Lemma publish_field_raises (current : value) (key entity_id : string) :
  raises_among [TypeError] (HomeAssistantPublisher.publish_field current key entity_id).
Proof.
  unfold raises_among, HomeAssistantPublisher.publish_field.
  destruct current as [| b | z | r | s | l | d]; simpl; auto.
  - destruct (contains key s); simpl; auto.
  - destruct (existsb _ l); simpl; auto.
  - unfold dict_mem. destruct (lookup key d); simpl; auto.
Qed.

Lemma publish_day_raises (forecast : value) (key : string) (i : nat) (suffix : string) :
  raises_among [TypeError; KeyError]
    (HomeAssistantPublisher.publish_day forecast key i suffix).
Proof.
  unfold raises_among, HomeAssistantPublisher.publish_day.
  destruct forecast as [| b | z | r | s | l | d]; simpl; auto.
  - destruct (contains key s); simpl; auto.
  - destruct (existsb _ l); simpl; auto.
  - unfold dict_mem. destruct (lookup key d) as [column |]; simpl; auto.
    destruct column as [| b | z | r | s | l | f]; simpl; auto.
    + destruct (i <? List.length (code_points s))%nat eqn:Hlt; simpl; auto.
      apply Nat.ltb_lt, nth_error_Some in Hlt.
      destruct (nth_error (code_points s) i); [simpl; auto | congruence].
    + destruct (i <? List.length l)%nat eqn:Hlt; simpl; auto.
      apply Nat.ltb_lt, nth_error_Some in Hlt.
      destruct (nth_error l i); [simpl; auto | congruence].
    + destruct (i <? List.length f)%nat; simpl; auto.
Qed.

Lemma publish_first_raises (sunmoon : value) (key entity_id : string) :
  raises_among [TypeError; KeyError]
    (HomeAssistantPublisher.publish_first sunmoon key entity_id).
Proof.
  unfold raises_among, HomeAssistantPublisher.publish_first.
  destruct sunmoon as [| b | z | r | s | l | d]; simpl; auto.
  - destruct (contains key s); simpl; auto.
  - destruct (existsb _ l); simpl; auto.
  - unfold dict_mem. destruct (lookup key d) as [column |]; simpl; auto.
    destruct column as [| b | z | r | s | l | f]; simpl; auto.
    + destruct b; simpl; auto.
    + destruct (z =? 0); simpl; auto.
    + destruct (String.eqb r "0.0" || String.eqb r "-0.0"); simpl; auto.
    + destruct s as [| c s]; [simpl; auto |].
      pose proof (code_points_nonempty c s) as Hne.
      change (negb (String.eqb (String c s) "")) with true. cbv iota.
      unfold bind, lift, py_index.
      destruct (code_points (String c s)); [congruence | simpl; auto].
    + destruct l; simpl; auto.
    + destruct f; simpl; auto.
Qed.

(** X6. Whatever the snapshot is, the publish steps end in one of a
    few ways: [publish_current_weather] returns or raises [TypeError]
    or [AttributeError]; [publish_forecast] and [publish_sunmoon]
    return or raise [TypeError], [AttributeError] or [KeyError].  In
    particular the guards on presence and length are enough for no
    [KeyError] on a missing key and no [IndexError] at all, and every
    exception of a publish step is one that [except Exception]
    catches. *)
Theorem publish_steps_end (data : value) :
  In (outcome (HomeAssistantPublisher.publish_current_weather data))
     [Ok tt; Raise TypeError; Raise AttributeError]
  /\ In (outcome (HomeAssistantPublisher.publish_forecast data))
        [Ok tt; Raise TypeError; Raise AttributeError; Raise KeyError]
  /\ In (outcome (HomeAssistantPublisher.publish_sunmoon data))
        [Ok tt; Raise TypeError; Raise AttributeError; Raise KeyError]
  /\ Forall (fun e => is_Exception e = true) [TypeError; AttributeError; KeyError].
Proof.
  split; [| split; [| split]].
  - apply (raises_among_unit [TypeError; AttributeError]).
    unfold HomeAssistantPublisher.publish_current_weather.
    apply raises_among_bind.
    { unfold raises_among; destruct data; simpl; auto. }
    intros current.
    repeat (apply raises_among_bind; [| intros _]);
      (pose proof (publish_field_raises current) as H;
       unfold raises_among in *;
       match goal with
       | |- match outcome (HomeAssistantPublisher.publish_field _ ?k ?e) with _ => _ end =>
           specialize (H k e);
           destruct (outcome (HomeAssistantPublisher.publish_field current k e));
           [exact I | simpl in *; tauto]
       end).
  - apply (raises_among_unit [TypeError; AttributeError; KeyError]).
    unfold HomeAssistantPublisher.publish_forecast.
    apply raises_among_bind.
    { unfold raises_among; destruct data; simpl; auto. }
    intros forecast. destruct (negb (truthy forecast)); [exact I |].
    apply raises_among_bind.
    { unfold raises_among; destruct forecast; simpl; auto. }
    intros times. apply raises_among_bind.
    { unfold raises_among; destruct times; simpl; auto. }
    intros ts. apply raises_among_for_each. intros i _.
    repeat (apply raises_among_bind; [| intros _]);
      (pose proof (publish_day_raises forecast) as H;
       unfold raises_among in *;
       match goal with
       | |- match outcome (HomeAssistantPublisher.publish_day _ ?k ?j ?e) with _ => _ end =>
           specialize (H k j e);
           destruct (outcome (HomeAssistantPublisher.publish_day forecast k j e));
           [exact I | simpl in *; tauto]
       end).
  - apply (raises_among_unit [TypeError; AttributeError; KeyError]).
    unfold HomeAssistantPublisher.publish_sunmoon.
    apply raises_among_bind.
    { unfold raises_among; destruct data; simpl; auto. }
    intros sunmoon. destruct (negb (truthy sunmoon)); [exact I |].
    apply raises_among_bind.
    { unfold raises_among; destruct sunmoon; simpl; auto. }
    intros time. destruct (negb (truthy time)); [exact I |].
    repeat (apply raises_among_bind; [| intros _]);
      (pose proof (publish_first_raises sunmoon) as H;
       unfold raises_among in *;
       match goal with
       | |- match outcome (HomeAssistantPublisher.publish_first _ ?k ?e) with _ => _ end =>
           specialize (H k e);
           destruct (outcome (HomeAssistantPublisher.publish_first sunmoon k e));
           [exact I | simpl in *; tauto]
       end).
  - repeat constructor.
Qed.

(** ** How much a forecast publishes *)

Lemma length_flat_map_app {A B : Type} (f g : A -> list B) (l : list A) :
  List.length (flat_map (fun x => f x +++ g x) l)
  = (List.length (flat_map f l) + List.length (flat_map g l))%nat.
Proof.
  induction l as [| x l IH]; [reflexivity |].
  simpl. rewrite !length_app, IH. lia.
Qed.

Lemma length_day_column (forecast : dict) (key suffix : string) (n : nat) :
  List.length (flat_map (fun i => day_message forecast key i suffix) (seq 0 n))
  = Nat.min n (column_length forecast key).
Proof.
  induction n as [| n IH]; [reflexivity |].
  rewrite seq_S, flat_map_app, length_app, IH. simpl flat_map.
  rewrite app_nil_r. unfold day_message, cell, column_length.
  destruct (lookup key forecast) as [[| | | | | column |] |];
    try (rewrite !Nat.min_0_r; reflexivity).
  destruct (nth_error column n) as [v |] eqn:Hnth.
  - assert (n < List.length column)%nat by (apply nth_error_Some; congruence).
    change (List.length (opt (option_map (state_message (day_entity n suffix)) (Some v))))
      with 1%nat.
    lia.
  - apply nth_error_None in Hnth.
    change (List.length (opt (option_map (state_message (day_entity n suffix)) None)))
      with 0%nat.
    lia.
Qed.

(** X7. For a daily section of arrays, [publish_forecast] publishes, for
    each of the four per-day columns, as many messages as the shorter of
    the column and the [time] array has elements: a short column ends
    early without an error, a long one is cut at the length of [time],
    and an absent one gives nothing. *)
Theorem publish_forecast_count (d forecast : dict) (times : list value) :
  dict_get d "data_day" (VDict []) = VDict forecast ->
  lookup "time" forecast = Some (VList times) ->
  columns_ok forecast forecast_keys = true ->
  outcome (HomeAssistantPublisher.publish_forecast (VDict d)) = Ok tt
  /\ List.length (published (events (HomeAssistantPublisher.publish_forecast (VDict d))))
     = (Nat.min (List.length times) (column_length forecast "temperature_max")
        + Nat.min (List.length times) (column_length forecast "temperature_min")
        + Nat.min (List.length times) (column_length forecast "precipitation")
        + Nat.min (List.length times) (column_length forecast "pictocode"))%nat.
Proof.
  intros Hsection Htime Hcols.
  rewrite (publish_forecast_says d forecast times) by assumption.
  split; [reflexivity |]. rewrite published_says.
  unfold day_messages.
  rewrite (length_flat_map_app
             (fun i => day_message forecast "temperature_max" i "temp_max")).
  rewrite (length_flat_map_app
             (fun i => day_message forecast "temperature_min" i "temp_min")).
  rewrite (length_flat_map_app
             (fun i => day_message forecast "precipitation" i "precipitation")).
  rewrite !length_day_column. lia.
Qed.

(** ** Sun and moon, exactly *)

Lemma publish_first_says (f : dict) (key entity_id : string) :
  column_ok f key = true ->
  HomeAssistantPublisher.publish_first (VDict f) key entity_id
  = says (first_message f key entity_id).
Proof.
  unfold column_ok, HomeAssistantPublisher.publish_first, first_message.
  simpl py_in. unfold dict_mem, py_getitem.
  destruct (lookup key f) as [[| | | | | [| x column] |] |]; try discriminate;
    reflexivity.
Qed.

(** X8. For a daily section of arrays with a non-empty [time],
    [publish_sunmoon] returns normally and publishes exactly the first
    element of each of sunrise, sunset, moonrise, moonset and
    moonphasename that is present and not empty, in this order, the
    last one to the entity moon_phase; an empty array is skipped like
    an absent one. *)
Theorem publish_sunmoon_today (d f : dict) :
  dict_get d "data_day" (VDict []) = VDict f ->
  truthy (dict_get f "time" VNone) = true ->
  columns_ok f sunmoon_keys = true ->
  HomeAssistantPublisher.publish_sunmoon (VDict d)
  = (map Publish
       (first_message f "sunrise" "sunrise"
        +++ first_message f "sunset" "sunset"
        +++ first_message f "moonrise" "moonrise"
        +++ first_message f "moonset" "moonset"
        +++ first_message f "moonphasename" "moon_phase"),
     Ok tt).
Proof.
  intros Hsection Htime Hcols.
  unfold columns_ok, sunmoon_keys in Hcols. simpl in Hcols.
  repeat (apply andb_prop in Hcols; destruct Hcols as [? Hcols]).
  rewrite publish_sunmoon_dict. unfold day_section. simpl items. rewrite Hsection.
  assert (Htruthy : truthy (VDict f) = true).
  { destruct f; [discriminate | reflexivity]. }
  rewrite Htruthy, Htime. simpl negb. cbv iota.
  rewrite !publish_first_says by assumption.
  change (map Publish ?ms, Ok tt) with (says ms).
  repeat (apply bind_says). reflexivity.
Qed.

(** ** A failing step and the rest of the turn *)

Lemma publish_field_quiet (current : value) (key entity_id : string) :
  (forall c, current <> VDict c) ->
  events (HomeAssistantPublisher.publish_field current key entity_id) = [].
Proof.
  intros Hnot. unfold HomeAssistantPublisher.publish_field.
  destruct current as [| b | z | r | s | l | c]; simpl; try reflexivity.
  - now destruct (contains key s).
  - now destruct (existsb _ l).
  - now destruct (Hnot c).
Qed.

Lemma publish_current_weather_all_or_nothing (data : value) (e : exn) :
  outcome (HomeAssistantPublisher.publish_current_weather data) = Raise e ->
  events (HomeAssistantPublisher.publish_current_weather data) = [].
Proof.
  unfold HomeAssistantPublisher.publish_current_weather.
  destruct data as [| b | z | r | s | l | d]; try reflexivity.
  simpl py_get. rewrite bind_lift_ok.
  destruct (dict_get d "data_current" (VDict [])) as [| b | z | r | s | l | c] eqn:Hc;
    try reflexivity.
  - intros _.
    repeat (rewrite events_bind, publish_field_quiet by discriminate;
            match goal with
            | |- match ?o with _ => _ end = _ => destruct o; [simpl | reflexivity]
            end).
    apply publish_field_quiet. discriminate.
  - intros _.
    repeat (rewrite events_bind, publish_field_quiet by discriminate;
            match goal with
            | |- match ?o with _ => _ end = _ => destruct o; [simpl | reflexivity]
            end).
    apply publish_field_quiet. discriminate.
  - rewrite !publish_field_says.
    intros Hraise. exfalso. revert Hraise.
    match goal with
    | |- outcome ?c = _ -> _ =>
        assert (Hsays : exists ms, c = says ms)
    end.
    { eexists. repeat (apply bind_says). reflexivity. }
    destruct Hsays as [ms ->]. discriminate.
Qed.

(** X9. When the snapshot has a [data_current] entry and
    [publish_current_weather] raises on it, the step has published
    nothing, the forecast and the sun and moon steps are not reached,
    and so the whole turn publishes no message at all, however good the
    daily section is. *)
Theorem current_failure_empties_turn (self : MeteoblueClient.client)
    (token : option string) (interval : Z) (c : Main.cycle) (data : value) (e : exn) :
  outcome (MeteoblueClient.fetch_weather self token (Main.session c)) = Ok data ->
  py_in "data_current" data = Ok true ->
  outcome (HomeAssistantPublisher.publish_current_weather data) = Raise e ->
  outcome (Main.poll_body self token (Main.session c)) = Raise e
  /\ published (events (Main.poll_cycle self token interval c)) = [].
Proof.
  intros Hfetch Hin Hraise.
  assert (Hbody : outcome (Main.poll_body self token (Main.session c)) = Raise e
                  /\ published (events (Main.poll_body self token (Main.session c))) = []).
  { pose proof (silent_nil _ (fetch_weather_silent self token (Main.session c))) as Hsil.
    pose proof (publish_current_weather_all_or_nothing data e Hraise) as Hnone.
    unfold Main.poll_body.
    destruct (MeteoblueClient.fetch_weather self token (Main.session c)) as [tf rf].
    destruct (HomeAssistantPublisher.publish_current_weather data) as [tp rp] eqn:Hp.
    simpl in Hfetch, Hsil, Hraise, Hnone. subst rf rp tp.
    unfold bind, emit, lift. rewrite Hin, Hp. simpl.
    rewrite published_app, Hsil. now split. }
  destruct Hbody as [Hout Hpub]. split; [exact Hout |].
  pose proof (poll_cycle_cases self token interval c) as Hcycle.
  simpl in Hcycle. rewrite Hcycle, Hout.
  destruct (is_Exception e); simpl events; rewrite ?published_app, Hpub; reflexivity.
Qed.

(** X10. The two sections are not treated alike when the provider
    sends something that is no object.  A [data_current] that is null,
    a bool or a number makes [publish_current_weather] raise
    [TypeError]; a [data_day] that is falsy (null, false, 0, an empty
    object, array or string) makes [publish_forecast] and
    [publish_sunmoon] return normally.  None of them publishes. *)
Theorem scalar_sections (d : dict) (current : value) :
  lookup "data_current" d = Some current ->
  is_scalar current = true ->
  truthy (dict_get d "data_day" (VDict [])) = false ->
  HomeAssistantPublisher.publish_current_weather (VDict d) = ([], Raise TypeError)
  /\ HomeAssistantPublisher.publish_forecast (VDict d) = ([], Ok tt)
  /\ HomeAssistantPublisher.publish_sunmoon (VDict d) = ([], Ok tt).
Proof.
  intros Hcurrent Hscalar Hday. split; [| split].
  - unfold HomeAssistantPublisher.publish_current_weather.
    simpl py_get. unfold dict_get. rewrite Hcurrent, bind_lift_ok.
    destruct current; try discriminate; reflexivity.
  - unfold HomeAssistantPublisher.publish_forecast.
    simpl py_get. now rewrite bind_lift_ok, Hday.
  - unfold HomeAssistantPublisher.publish_sunmoon.
    simpl py_get. now rewrite bind_lift_ok, Hday.
Qed.

(** ** The loop as a whole *)

Lemma events_bind_Forall {A B : Type} (P : event -> Prop) (c : M A) (k : A -> M B) :
  Forall P (events c) -> (forall a, Forall P (events (k a))) ->
  Forall P (events (bind c k)).
Proof.
  intros Hc Hk. rewrite events_bind.
  destruct (outcome c) as [a | e]; [| exact Hc].
  apply Forall_app. split; [exact Hc | apply Hk].
Qed.

Lemma events_try_except_Forall {A : Type} (P : event -> Prop)
    (c : M A) (h : exn -> M A) :
  Forall P (events c) -> (forall e, Forall P (events (h e))) ->
  Forall P (events (try_except c h)).
Proof.
  intros Hc Hh. destruct c as [t [a | e]]; [exact Hc |].
  unfold try_except. destruct (is_Exception e); [| exact Hc].
  specialize (Hh e). destruct (h e) as [t' r]. simpl in *.
  apply Forall_app. now split.
Qed.

Lemma events_for_each_Forall {A : Type} (P : event -> Prop)
    (l : list A) (body : A -> M unit) :
  (forall x, Forall P (events (body x))) -> Forall P (events (for_each l body)).
Proof.
  intros Hbody. induction l as [| x l IH]; [constructor |].
  simpl. apply events_bind_Forall; [apply Hbody | intros _; exact IH].
Qed.

(** One step through a computation, for a goal about all its events
    whose predicate computes on a given event. *)
Ltac event_step :=
  first
    [ apply events_bind_Forall; [| intros ?]
    | apply events_try_except_Forall; [| intros ?]
    | apply events_for_each_Forall; intros ?
    | apply Forall_nil
    | apply Forall_cons; [exact I |]
    | match goal with
      | |- context [if ?b then _ else _] => destruct b
      | |- context [match ?x with (_, _) => _ end] => destruct x
      | |- Forall _ (events (lift ?r)) => destruct r
      end ].

Ltac event_walk := repeat event_step.

Lemma sleeps_app (t t' : trace) : sleeps (t +++ t') = sleeps t +++ sleeps t'.
Proof.
  induction t as [| ev t IH]; [reflexivity |].
  destruct ev; simpl; rewrite IH; reflexivity.
Qed.

Lemma awake_sleeps (t : trace) : Forall awake t -> sleeps t = [].
Proof.
  induction 1 as [| ev t Hev _ IH]; [reflexivity |].
  destruct ev; simpl; auto. contradiction.
Qed.

Lemma poll_body_awake (self : MeteoblueClient.client) (token : option string)
    (session : http) :
  Forall awake (events (Main.poll_body self token session)).
Proof.
  unfold Main.poll_body, MeteoblueClient.fetch_weather,
    MeteoblueClient.get_coordinates,
    HomeAssistantPublisher.publish_current_weather,
    HomeAssistantPublisher.publish_forecast,
    HomeAssistantPublisher.publish_sunmoon,
    HomeAssistantPublisher.publish_field, HomeAssistantPublisher.publish_day,
    HomeAssistantPublisher.publish_first, HomeAssistantPublisher.publish_state,
    session_get.
  event_walk.
Qed.

Lemma poll_cycle_calm (self : MeteoblueClient.client) (token : option string)
    (interval : Z) (c : Main.cycle) :
  calm self token c = true ->
  outcome (Main.poll_cycle self token interval c) = Ok tt
  /\ sleeps (events (Main.poll_cycle self token interval c)) = [interval].
Proof.
  unfold calm. intros Hcalm.
  pose proof (poll_cycle_cases self token interval c) as Hcycle.
  pose proof (awake_sleeps _ (poll_body_awake self token (Main.session c))) as Hawake.
  simpl in Hcycle. rewrite Hcycle. unfold after_sleep.
  destruct (Main.interrupt c); [discriminate |].
  destruct (outcome (Main.poll_body self token (Main.session c))) as [[] | e].
  - simpl. now rewrite sleeps_app, Hawake.
  - rewrite Hcalm. simpl. now rewrite sleeps_app, Hawake.
Qed.

(** Over calm turns the loop goes on and sleeps once per turn. *)
Lemma poll_loop_calm (self : MeteoblueClient.client) (token : option string)
    (interval : Z) (cs : list Main.cycle) :
  forallb (calm self token) cs = true ->
  outcome (Main.poll_loop self token interval cs) = Ok tt
  /\ sleeps (events (Main.poll_loop self token interval cs))
     = repeat interval (List.length cs).
Proof.
  induction cs as [| c cs IH]; intros Hcalm; [now split |].
  simpl in Hcalm. apply andb_prop in Hcalm. destruct Hcalm as [Hc Hcs].
  destruct (poll_cycle_calm self token interval c Hc) as [Hout Hsleep].
  destruct (IH Hcs) as [Hout' Hsleep'].
  simpl Main.poll_loop. rewrite outcome_bind, events_bind, Hout.
  split; [exact Hout' |].
  rewrite sleeps_app, Hsleep, Hsleep'. reflexivity.
Qed.

(** X11. The loop ends only from outside: if it raises [e] after some
    turns, then in one of them [e] interrupted the sleep, or [e] came
    out of the body and is not an [Exception] (a keyboard interrupt, a
    cancellation, an exit).  No exception of a fetch or publish step
    that [except Exception] catches ever ends it. *)
Theorem poll_loop_ends_from_outside (self : MeteoblueClient.client)
    (token : option string) (interval : Z) (cs : list Main.cycle) (e : exn) :
  outcome (Main.poll_loop self token interval cs) = Raise e ->
  Exists (fun c =>
            Main.interrupt c = Some e
            \/ (outcome (Main.poll_body self token (Main.session c)) = Raise e
                /\ is_Exception e = false)) cs.
Proof.
  induction cs as [| c cs IH]; [discriminate |].
  simpl Main.poll_loop. rewrite outcome_bind.
  pose proof (poll_cycle_cases self token interval c) as Hcycle.
  simpl in Hcycle. rewrite Hcycle. unfold after_sleep.
  destruct (outcome (Main.poll_body self token (Main.session c))) as [[] | x] eqn:Hbody.
  - simpl outcome. destruct (Main.interrupt c) as [y |] eqn:Hint.
    + intros [= <-]. left. now left.
    + intros Hrest. right. now apply IH.
  - destruct (is_Exception x) eqn:Hx; simpl outcome.
    + destruct (Main.interrupt c) as [y |] eqn:Hint.
      * intros [= <-]. left. now left.
      * intros Hrest. right. now apply IH.
    + intros [= <-]. left. right. now split.
Qed.

(** ** Startup *)

(** X12. When the options file cannot be read, or holds no API key or
    an empty one, [main] logs that single error after its first line
    and exits with code 1: before any request to the supervisor, any
    connection to the broker and any publication. *)
Theorem main_stops_on_configuration (w : Main.world) (line : event) :
  configuration_failure w = Some line ->
  Main.main w = ([Log INFO "Starting Meteoblue Weather Add-on"; line], Main.Exited 1).
Proof.
  intros Hfail.
  assert (Hload : Main.load_configuration w
                  = ([Log INFO "Starting Meteoblue Weather Add-on"; line],
                     Raise (SystemExit 1))).
  { revert Hfail. unfold configuration_failure, Main.load_configuration.
    destruct (Main.options w) as [config | e]; simpl.
    - destruct (api_key config) as [k |]; simpl.
      + destruct (String.eqb k ""); simpl; [| discriminate].
        now intros [= <-].
      + now intros [= <-].
    - destruct (is_Exception e); simpl; [| discriminate].
      now intros [= <-]. }
  unfold Main.main, Main.startup. now rewrite Hload.
Qed.

(** X13. Once the broker settings are fetched, "Set up MQTT" logs host
    and port, hands the credentials to the client exactly when the
    username is truthy (a password without a username is never used),
    calls [connect] once with the host and port of the settings and
    keepalive 60, and starts the network loop only after [connect]
    succeeded.  A failure of [connect] that [except Exception] catches
    is logged and becomes exit code 1. *)
Theorem connect_mqtt_stage (w : Main.world) (settings : value) :
  outcome (get_mqtt_config (Main.token w) (Main.supervisor w)) = Ok settings ->
  let host := dict_get (items settings) "host" VNone in
  let port := dict_get (items settings) "port" VNone in
  let username := dict_get (items settings) "username" VNone in
  let password := dict_get (items settings) "password" VNone in
  events (Main.connect_mqtt w)
  = events (get_mqtt_config (Main.token w) (Main.supervisor w))
    +++ [Log INFO ("Got MQTT config: host=" ++ py_str host ++ ", port=" ++ py_str port)]
    +++ (if truthy username then [UsernamePwSet username password] else [])
    +++ [Connect host port 60]
    +++ match Main.broker w host port with
        | Ok _ => [LoopStart; Log INFO "Connected to MQTT broker"]
        | Raise e =>
            if is_Exception e
            then [LogExn ERROR "Failed to connect to MQTT: " e] else []
        end
  /\ outcome (Main.connect_mqtt w)
     = match Main.broker w host port with
       | Ok _ => Ok tt
       | Raise e => if is_Exception e then Raise (SystemExit 1) else Raise e
       end.
Proof.
  intros Hsettings. rewrite connect_mqtt_cases.
  destruct (get_mqtt_config (Main.token w) (Main.supervisor w)) as [t r].
  simpl in Hsettings. subst r. split; reflexivity.
Qed.

(** X14. With the configuration in order (the options are read, they
    hold an API key, and the interval is not null), a failure to get
    the broker settings (no credential, supervisor out of reach, a
    status other than 200, an unusable body) ends [main] with exit code
    1 right after the error is logged: [connect] is never called, no
    HTTP session for the provider is opened and nothing is published. *)
Theorem main_stops_without_settings (w : Main.world) (e : exn) :
  configuration_failure w = None ->
  (exists config, Main.options w = Ok config /\ update_interval config <> Some None) ->
  outcome (get_mqtt_config (Main.token w) (Main.supervisor w)) = Raise e ->
  is_Exception e = true ->
  Main.main w
  = ([Log INFO "Starting Meteoblue Weather Add-on"]
     +++ events (get_mqtt_config (Main.token w) (Main.supervisor w))
     +++ [LogExn ERROR "Failed to get MQTT configuration: " e],
     Main.Exited 1).
Proof.
  intros Hconfig [config [Hoptions Hinterval]] Hsettings Hexn.
  rewrite main_cases, startup_cases, load_configuration_cases, connect_mqtt_cases.
  rewrite Hconfig, Hoptions.
  assert (Hseconds : exists seconds, Main.update_interval_seconds config = Ok seconds).
  { unfold Main.update_interval_seconds.
    destruct (update_interval config) as [[minutes |] |]; simpl; eauto.
    now destruct Hinterval. }
  destruct Hseconds as [seconds ->].
  destruct (get_mqtt_config (Main.token w) (Main.supervisor w)) as [t r].
  simpl in Hsettings. subst r. rewrite Hexn. reflexivity.
Qed.

(** ** Nothing is published before the broker is connected *)

Lemma before_publish_prefix (f : event -> bool) (t t' : trace) :
  published t = [] -> existsb f t = true ->
  existsb f (before_publish (t +++ t')) = true.
Proof.
  induction t as [| ev t IH]; [discriminate |].
  destruct ev; simpl; try discriminate;
    intros Hsilent Hex; apply orb_true_iff in Hex; apply orb_true_iff;
    (destruct Hex as [Hex | Hex]; [now left | right; now apply IH]).
Qed.

Lemma connect_mqtt_connected (w : Main.world) :
  outcome (Main.connect_mqtt w) = Ok tt ->
  existsb is_connect (events (Main.connect_mqtt w)) = true
  /\ existsb is_loop_start (events (Main.connect_mqtt w)) = true.
Proof.
  rewrite connect_mqtt_cases.
  destruct (get_mqtt_config (Main.token w) (Main.supervisor w)) as [t [settings | e]].
  - cbv zeta. unfold connect_outcome, connect_events, events, outcome. cbn [fst snd].
    destruct (Main.broker w _ _) as [[] | e].
    + intros _. split; apply existsb_exists.
      * exists (Connect (dict_get (items settings) "host" VNone)
                         (dict_get (items settings) "port" VNone) 60).
        split; [| reflexivity].
        do 3 (apply in_or_app; right). apply in_or_app. left. now left.
      * exists LoopStart. split; [| reflexivity].
        do 4 (apply in_or_app; right). now left.
    + destruct (is_Exception e); discriminate.
  - destruct (is_Exception e); discriminate.
Qed.

(** X15. In every run of [main] that publishes anything, the first
    publication comes after a call of [connect] with keepalive 60 and
    after the start of the network loop: no message is ever handed to
    a client that was not connected first. *)
Theorem publish_after_connect (w : Main.world) :
  published (fst (Main.main w)) <> [] ->
  existsb is_connect (before_publish (fst (Main.main w))) = true
  /\ existsb is_loop_start (before_publish (fst (Main.main w))) = true.
Proof.
  intros Hpub.
  assert (Hshape : exists t1 t2 rest,
             fst (Main.main w) = (t1 +++ t2) +++ rest
             /\ published (t1 +++ t2) = []
             /\ existsb is_connect t2 = true /\ existsb is_loop_start t2 = true).
  { revert Hpub. rewrite main_cases, startup_cases.
    pose proof (silent_nil _ (load_configuration_silent w)) as H1.
    pose proof (silent_nil _ (connect_mqtt_silent w)) as H2.
    pose proof (connect_mqtt_connected w) as Hconn.
    destruct (Main.load_configuration w) as [t1 [[[config key] iv] | e]];
      simpl in H1.
    - destruct (Main.connect_mqtt w) as [t2 [[] | e]]; simpl in H2, Hconn.
      + destruct (Hconn eq_refl) as [Hc Hl]. intros _.
        set (self := {| MeteoblueClient.api_key := key;
                        MeteoblueClient.config := config |}).
        destruct (outcome (Main.setup_sensors config)) as [[] | e].
        * destruct (Main.poll_loop self (Main.token w) iv (Main.polls w))
            as [t' [[] | e]]; simpl fst;
            eexists t1, t2, _;
            (split; [rewrite <- !app_assoc; reflexivity |]);
            rewrite published_app, H1, H2; auto.
        * simpl fst.
          exists t1, t2, ([SessionOpen] +++ events (Main.setup_sensors config)).
          split; [now rewrite <- app_assoc |].
          rewrite published_app, H1, H2; auto.
      + intros Hpub. exfalso. apply Hpub.
        destruct e; simpl; now rewrite published_app, H1, H2.
    - intros Hpub. exfalso. apply Hpub. destruct e; simpl; exact H1. }
  destruct Hshape as [t1 [t2 [rest [-> [Hsilent [Hc Hl]]]]]].
  split; apply before_publish_prefix; try exact Hsilent;
    rewrite existsb_app; rewrite ?Hc, ?Hl; apply orb_true_r.
Qed.

(** ** Entity ids of numbered sensors *)

Lemma forecast_entity_id (day : Z) (tail : string) :
  is_ascii tail = true ->
  HomeAssistantPublisher.entity_id_of ("Forecast Day " ++ str_int day ++ tail)
  = "forecast_day_" ++ str_int day ++ replace " " "_" (lower_ascii tail).
Proof.
  intros Htail. destruct (str_int_plain day) as [Hascii [Hlower Hreplace]].
  rewrite entity_id_of_ascii.
  - now rewrite !lower_ascii_app, !replace_app, Hlower, Hreplace.
  - now rewrite !is_ascii_app, Hascii, Htail.
Qed.

Lemma forecast_entity_ids (i : nat) :
  map HomeAssistantPublisher.entity_id_of (forecast_names (Z.of_nat i))
  = forecast_entities i.
Proof.
  unfold forecast_names, forecast_entities, day_entity. cbn [map].
  rewrite !forecast_entity_id by reflexivity. reflexivity.
Qed.

(** ** State topics and the catalogue *)

Lemma declared_flat_map {A : Type} (f : A -> list message) (l : list A) :
  declared (flat_map f l) = flat_map (fun x => declared (f x)) l.
Proof.
  unfold declared. induction l as [| x l IH]; [reflexivity |].
  simpl. now rewrite flat_map_app, IH.
Qed.

Lemma declared_forecast (days : Z) :
  declared (published
              (events (HomeAssistantPublisher.setup_forecast_sensors (VInt days))))
  = flat_map (fun day =>
                map (fun name => state_topic (HomeAssistantPublisher.entity_id_of name))
                    (forecast_names day))
             (range days).
Proof.
  rewrite setup_forecast_sensors_published, declared_flat_map. reflexivity.
Qed.

(** The state topics that the current-weather and the sun and moon
    sensors announce. *)
Lemma declared_fixed :
  declared (published (events HomeAssistantPublisher.setup_current_sensors))
  = map state_topic current_ids
  /\ declared (published (events HomeAssistantPublisher.setup_sunmoon_sensors))
     = map state_topic sunmoon_ids.
Proof.
  unfold HomeAssistantPublisher.setup_current_sensors,
    HomeAssistantPublisher.setup_sunmoon_sensors,
    HomeAssistantPublisher.publish_discovery,
    HomeAssistantPublisher.discovery_config.
  rewrite !entity_id_of_ascii by reflexivity. split; reflexivity.
Qed.

Lemma published_for_each_Forall_in {A : Type} (P : message -> Prop)
    (l : list A) (body : A -> M unit) :
  (forall x, In x l -> Forall P (published (events (body x)))) ->
  Forall P (published (events (for_each l body))).
Proof.
  induction l as [| x l IH]; intros Hbody; [constructor |].
  simpl. apply published_bind_Forall; [apply Hbody; now left |].
  intros _. apply IH. intros y Hy. apply Hbody. now right.
Qed.

(** X16. Every state message of [publish_current_weather] goes to a
    state topic that a discovery message of [setup_current_sensors]
    announced, and every state message of [publish_sunmoon] to one
    that [setup_sunmoon_sensors] announced, whatever the snapshot: the
    entity ids written in the publish steps agree with the ids derived
    from the sensor names. *)
Theorem state_topics_declared (data : value) :
  Forall (fun m =>
            In (topic m)
               (declared (published
                            (events HomeAssistantPublisher.setup_current_sensors))))
    (published (events (HomeAssistantPublisher.publish_current_weather data)))
  /\ Forall (fun m =>
               In (topic m)
                  (declared (published
                               (events HomeAssistantPublisher.setup_sunmoon_sensors))))
       (published (events (HomeAssistantPublisher.publish_sunmoon data))).
Proof.
  destruct declared_fixed as [-> ->]. split.
  - unfold HomeAssistantPublisher.publish_current_weather,
      HomeAssistantPublisher.publish_field.
    trace_walk;
      (apply Forall_cons; [simpl; auto 10 | apply Forall_nil]).
  - unfold HomeAssistantPublisher.publish_sunmoon,
      HomeAssistantPublisher.publish_first.
    trace_walk;
      (apply Forall_cons; [simpl; auto 10 | apply Forall_nil]).
Qed.

Lemma forecast_topic_declared (days : Z) (i : nat) (suffix : string) :
  Z.of_nat i < days ->
  In (day_entity i suffix) (forecast_entities i) ->
  In (state_topic (day_entity i suffix))
     (declared (published
                  (events (HomeAssistantPublisher.setup_forecast_sensors (VInt days))))).
Proof.
  intros Hi Hin. rewrite declared_forecast. apply in_flat_map.
  exists (Z.of_nat i). split.
  - unfold range. apply in_map, in_seq. lia.
  - rewrite <- forecast_entity_ids in Hin. apply in_map_iff in Hin.
    destruct Hin as [name [Hname Hin]]. apply in_map_iff.
    exists name. now rewrite Hname.
Qed.

Lemma publish_day_declared (days : Z) (forecast : value) (key : string) (i : nat)
    (suffix : string) :
  Z.of_nat i < days ->
  In (day_entity i suffix) (forecast_entities i) ->
  Forall (fun m =>
            In (topic m)
               (declared
                  (published
                     (events (HomeAssistantPublisher.setup_forecast_sensors
                                (VInt days))))))
    (published (events (HomeAssistantPublisher.publish_day forecast key i suffix))).
Proof.
  intros Hi Hin. unfold HomeAssistantPublisher.publish_day.
  trace_walk.
  apply Forall_cons; [| apply Forall_nil].
  now apply forecast_topic_declared.
Qed.

(** X17. When the snapshot holds no more days than [forecast_days]
    sensors were set up for, every state message of [publish_forecast]
    goes to a state topic that a discovery message of
    [setup_forecast_sensors] announced. *)
Theorem forecast_topics_declared (data : value) (days : Z) :
  Z.of_nat (time_count data) <= days ->
  Forall (fun m =>
            In (topic m)
               (declared
                  (published
                     (events (HomeAssistantPublisher.setup_forecast_sensors
                                (VInt days))))))
    (published (events (HomeAssistantPublisher.publish_forecast data))).
Proof.
  intros Hdays. unfold HomeAssistantPublisher.publish_forecast.
  destruct data as [| b | z | r | s | l | d]; try constructor.
  simpl py_get. rewrite bind_lift_ok.
  unfold time_count, day_section in Hdays. simpl items in Hdays.
  destruct (dict_get d "data_day" (VDict [])) as [| b | z | r | s | l | f];
    try (match goal with
         | |- context [negb (truthy ?v)] => destruct (negb (truthy v))
         end; constructor).
  destruct (negb (truthy (VDict f))); [constructor |].
  simpl py_get. rewrite bind_lift_ok. simpl items in Hdays.
  destruct (py_iter (dict_get f "time" (VList []))) as [times | e]; [| constructor].
  rewrite bind_lift_ok.
  apply published_for_each_Forall_in. intros i Hi. apply in_seq in Hi.
  repeat (apply published_bind_Forall; [| intros _]);
    (apply publish_day_declared; [lia | unfold forecast_entities; simpl; auto]).
Qed.

(** ** Distinct sensors *)

Lemma append_inj_l (p a b : string) : p ++ a = p ++ b -> a = b.
Proof.
  induction p as [| c p IH]; simpl; [auto |]. intros [= H]. now apply IH.
Qed.

Lemma append_inj_r (a b s : string) : a ++ s = b ++ s -> a = b.
Proof.
  intros H.
  assert (Hlen : String.length a = String.length b).
  { apply (f_equal String.length) in H. rewrite !length_append in H. lia. }
  revert b H Hlen. induction a as [| c a IH]; intros [| c' b] H Hlen;
    try discriminate; [reflexivity |].
  simpl in H, Hlen. injection H as -> H. f_equal. apply IH; [exact H | lia].
Qed.

Lemma split_at_underscore (a b r1 r2 : string) :
  Forall (fun c => c <> "_"%char) (chars a) ->
  Forall (fun c => c <> "_"%char) (chars b) ->
  a ++ String "_" r1 = b ++ String "_" r2 -> a = b /\ r1 = r2.
Proof.
  revert b. induction a as [| c a IH]; intros [| c' b] Ha Hb H; simpl in *.
  - injection H as ->. now split.
  - injection H as <- _. inversion Hb. congruence.
  - injection H as -> _. inversion Ha. congruence.
  - injection H as -> H. inversion Ha. inversion Hb.
    destruct (IH b) as [-> ->]; auto.
Qed.

Lemma uint_no_underscore (d : Decimal.uint) :
  Forall (fun c => c <> "_"%char) (chars (NilEmpty.string_of_uint d)).
Proof.
  induction d; simpl; constructor; (discriminate || assumption).
Qed.

Lemma str_int_no_underscore (z : Z) :
  Forall (fun c => c <> "_"%char) (chars (str_int z)).
Proof.
  unfold str_int, NilZero.string_of_int, NilZero.string_of_uint.
  destruct (Z.to_int z) as [d | d].
  - destruct d; try apply uint_no_underscore.
    simpl. constructor; [discriminate | constructor].
  - simpl. constructor; [discriminate |].
    destruct d; try apply uint_no_underscore.
    simpl. constructor; [discriminate | constructor].
Qed.

Lemma str_int_inj (x y : Z) : str_int x = str_int y -> x = y.
Proof.
  unfold str_int. intros H. apply DecimalZ.to_int_inj.
  assert (Hx : NilZero.int_of_string (NilZero.string_of_int (Z.to_int x))
               = Some (Z.to_int x)).
  { apply NilZero.isi; destruct x; simpl; try discriminate;
      intros [= E]; now apply (DecimalPos.Unsigned.to_uint_nonnil p). }
  assert (Hy : NilZero.int_of_string (NilZero.string_of_int (Z.to_int y))
               = Some (Z.to_int y)).
  { apply NilZero.isi; destruct y; simpl; try discriminate;
      intros [= E]; now apply (DecimalPos.Unsigned.to_uint_nonnil p). }
  rewrite H, Hy in Hx. now injection Hx.
Qed.

Lemma forecast_id_inj (x y : Z) (s1 s2 : string) :
  "forecast_day_" ++ str_int x ++ String "_" s1
  = "forecast_day_" ++ str_int y ++ String "_" s2 ->
  x = y /\ s1 = s2.
Proof.
  intros H. apply append_inj_l in H.
  apply split_at_underscore in H; try apply str_int_no_underscore.
  destruct H as [H ->]. split; [now apply str_int_inj | reflexivity].
Qed.

Lemma forecast_ids_forecast (day : Z) (id : string) :
  In id (forecast_ids day) ->
  exists s, id = "forecast_day_" ++ str_int day ++ String "_" s
            /\ In s ["temp_max"; "temp_min"; "precipitation"; "pictocode"].
Proof.
  unfold forecast_ids. simpl.
  intros [<- | [<- | [<- | [<- | []]]]]; eexists; (split; [reflexivity |]);
    simpl; auto.
Qed.

Lemma forecast_ids_prefix (day : Z) (id : string) :
  In id (forecast_ids day) -> is_forecast_id id = true.
Proof.
  intros Hin. destruct (forecast_ids_forecast day id Hin) as [s [-> _]]. reflexivity.
Qed.

Lemma forecast_ids_NoDup (day : Z) : NoDup (forecast_ids day).
Proof.
  unfold forecast_ids.
  repeat (constructor;
          [simpl; intros Hin;
           repeat (destruct Hin as [Hin | Hin];
                   [apply forecast_id_inj in Hin; destruct Hin; discriminate |]);
           exact Hin |]).
  constructor.
Qed.

Lemma NoDup_flat_map {A B : Type} (f : A -> list B) (l : list A) :
  NoDup l ->
  (forall x, In x l -> NoDup (f x)) ->
  (forall x y a, In x l -> In y l -> In a (f x) -> In a (f y) -> x = y) ->
  NoDup (flat_map f l).
Proof.
  induction 1 as [| x l Hx Hl IH]; intros Heach Hapart; [constructor |].
  simpl. apply NoDup_app.
  - apply Heach. now left.
  - apply IH.
    + intros y Hy. apply Heach. now right.
    + intros y z a Hy Hz. apply Hapart; now right.
  - intros a Ha Hin. apply in_flat_map in Hin. destruct Hin as [y [Hy Hay]].
    assert (x = y) by (apply (Hapart x y a); auto; [now left | now right]).
    subst y. contradiction.
Qed.

Lemma range_NoDup (days : Z) : NoDup (range days).
Proof.
  unfold range. apply NoDup_map_NoDup_ForallPairs; [| apply seq_NoDup].
  intros x y _ _. apply Nat2Z.inj.
Qed.

Lemma catalogue_ids_NoDup (days : Z) : NoDup (catalogue_ids days).
Proof.
  unfold catalogue_ids.
  assert (Hforecast : forall id, In id (flat_map forecast_ids (range days)) ->
                                 is_forecast_id id = true).
  { intros id Hin. apply in_flat_map in Hin. destruct Hin as [day [_ Hin]].
    now apply (forecast_ids_prefix day). }
  apply NoDup_app; [| apply NoDup_app |].
  - unfold current_ids.
    repeat (constructor; [simpl; intuition discriminate |]). constructor.
  - apply NoDup_flat_map.
    + apply range_NoDup.
    + intros day _. apply forecast_ids_NoDup.
    + intros x y a _ _ Hx Hy.
      destruct (forecast_ids_forecast x a Hx) as [s1 [-> _]].
      destruct (forecast_ids_forecast y _ Hy) as [s2 [H _]].
      now apply forecast_id_inj in H.
  - unfold sunmoon_ids.
    repeat (constructor; [simpl; intuition discriminate |]). constructor.
  - intros a Ha Hin. apply Hforecast in Ha.
    unfold sunmoon_ids in Hin. simpl in Hin.
    repeat (destruct Hin as [<- | Hin]; [discriminate |]). exact Hin.
  - intros a Ha Hin. apply in_app_or in Hin. destruct Hin as [Hin | Hin].
    + apply Hforecast in Hin. unfold current_ids in Ha. simpl in Ha.
      repeat (destruct Ha as [<- | Ha]; [discriminate |]). exact Ha.
    + unfold current_ids in Ha. unfold sunmoon_ids in Hin. simpl in Ha, Hin.
      repeat (destruct Ha as [<- | Ha];
              [repeat (destruct Hin as [Hin | Hin]; [discriminate |]); exact Hin |]).
      exact Ha.
Qed.

Lemma map_flat_map {A B C : Type} (f : B -> C) (g : A -> list B) (l : list A) :
  map f (flat_map g l) = flat_map (fun x => map f (g x)) l.
Proof.
  induction l as [| x l IH]; [reflexivity |].
  simpl. now rewrite map_app, IH.
Qed.

Lemma forecast_names_ids (day : Z) :
  map HomeAssistantPublisher.entity_id_of (forecast_names day) = forecast_ids day.
Proof.
  unfold forecast_names, forecast_ids. cbn [map].
  rewrite !forecast_entity_id by reflexivity. reflexivity.
Qed.

Lemma topics_fixed :
  map topic (published (events HomeAssistantPublisher.setup_current_sensors))
  = map discovery_topic current_ids
  /\ map topic (published (events HomeAssistantPublisher.setup_sunmoon_sensors))
     = map discovery_topic sunmoon_ids.
Proof.
  unfold HomeAssistantPublisher.setup_current_sensors,
    HomeAssistantPublisher.setup_sunmoon_sensors,
    HomeAssistantPublisher.publish_discovery.
  rewrite !entity_id_of_ascii by reflexivity. split; reflexivity.
Qed.

Lemma catalogue_topics (days : Z) :
  map topic (catalogue days) = map discovery_topic (catalogue_ids days)
  /\ declared (catalogue days) = map state_topic (catalogue_ids days).
Proof.
  unfold catalogue, catalogue_ids.
  assert (Htopics :
            map topic
              (published
                 (events (HomeAssistantPublisher.setup_forecast_sensors (VInt days))))
            = map discovery_topic (flat_map forecast_ids (range days))).
  { rewrite setup_forecast_sensors_published.
    rewrite !map_flat_map. apply flat_map_ext. intros day.
    rewrite <- forecast_names_ids. reflexivity. }
  assert (Hstates :
            declared
              (published
                 (events (HomeAssistantPublisher.setup_forecast_sensors (VInt days))))
            = map state_topic (flat_map forecast_ids (range days))).
  { rewrite declared_forecast, map_flat_map. apply flat_map_ext. intros day.
    rewrite <- forecast_names_ids. now rewrite map_map. }
  destruct topics_fixed as [Hcurrent Hsunmoon].
  destruct declared_fixed as [Hcurrent' Hsunmoon'].
  split.
  - now rewrite !map_app, Htopics, Hcurrent, Hsunmoon.
  - unfold declared at 1. rewrite !flat_map_app.
    fold (declared (published (events HomeAssistantPublisher.setup_current_sensors))).
    fold (declared
            (published
               (events (HomeAssistantPublisher.setup_forecast_sensors (VInt days))))).
    fold (declared (published (events HomeAssistantPublisher.setup_sunmoon_sensors))).
    now rewrite Hstates, Hcurrent', Hsunmoon', !map_app.
Qed.

Lemma discovery_topic_inj (a b : string) : discovery_topic a = discovery_topic b -> a = b.
Proof.
  unfold discovery_topic. intros H. apply append_inj_l in H.
  now apply append_inj_r in H.
Qed.

Lemma state_topic_inj (a b : string) : state_topic a = state_topic b -> a = b.
Proof.
  unfold state_topic. intros H. apply append_inj_l in H.
  now apply append_inj_r in H.
Qed.

(** X18. For every number of forecast days the sensors of the catalogue
    are pairwise distinct on the bus: no two discovery messages of the
    startup go to the same topic, and no two of them announce the same
    state topic. *)
Theorem catalogue_sensors_distinct (days : Z) :
  NoDup (map topic (catalogue days)) /\ NoDup (declared (catalogue days)).
Proof.
  destruct (catalogue_topics days) as [-> ->].
  split; (apply NoDup_map_NoDup_ForallPairs; [| apply catalogue_ids_NoDup]).
  - intros a b _ _. apply discovery_topic_inj.
  - intros a b _ _. apply state_topic_inj.
Qed.

(** X19. Nothing keeps [publish_forecast] within the sensors that were
    set up.  For a daily section whose per-day columns are arrays where
    present: when the section has more days than [forecast_days] and
    its [temperature_max] column reaches that far, the maximum of the
    first day beyond (element [forecast_days] of the column) is
    published, to a state topic that no discovery message of the
    catalogue announced. *)
Theorem forecast_beyond_catalogue (d forecast : dict) (times column : list value)
    (days : Z) (v : value) :
  dict_get d "data_day" (VDict []) = VDict forecast ->
  lookup "time" forecast = Some (VList times) ->
  columns_ok forecast forecast_keys = true ->
  lookup "temperature_max" forecast = Some (VList column) ->
  0 <= days ->
  days < Z.of_nat (List.length times) ->
  nth_error column (Z.to_nat days) = Some v ->
  In {| topic := state_topic (day_entity (Z.to_nat days) "temp_max");
        payload_of := plain (py_str v);
        retain := false |}
     (published (events (HomeAssistantPublisher.publish_forecast (VDict d))))
  /\ ~ In (state_topic (day_entity (Z.to_nat days) "temp_max"))
          (declared (catalogue days)).
Proof.
  intros Hsection Htime Hcols Hmax Hdays Htimes Hnth.
  rewrite (publish_forecast_says d forecast times) by assumption.
  rewrite published_says.
  set (k := Z.to_nat days) in *.
  split.
  - apply in_flat_map. exists k. split; [apply in_seq; lia |].
    unfold day_messages. apply in_or_app. left.
    unfold day_message, cell. rewrite Hmax, Hnth. now left.
  - destruct (catalogue_topics days) as [_ ->].
    intros Hin. apply in_map_iff in Hin.
    destruct Hin as [id [Hid Hin]]. apply state_topic_inj in Hid. subst id.
    unfold catalogue_ids in Hin.
    apply in_app_or in Hin. destruct Hin as [Hin | Hin];
      [| apply in_app_or in Hin; destruct Hin as [Hin | Hin]].
    + unfold current_ids in Hin. simpl in Hin.
      repeat (destruct Hin as [Hin | Hin];
              [apply (f_equal is_forecast_id) in Hin; discriminate |]).
      exact Hin.
    + apply in_flat_map in Hin. destruct Hin as [day [Hday Hin]].
      destruct (forecast_ids_forecast day _ Hin) as [s [Hid _]].
      unfold day_entity in Hid.
      change ("_" ++ "temp_max") with (String "_" "temp_max") in Hid.
      apply forecast_id_inj in Hid. destruct Hid as [<- _].
      unfold range in Hday. apply in_map_iff in Hday.
      destruct Hday as [i [Hi Hseq]]. apply in_seq in Hseq. lia.
    + unfold sunmoon_ids in Hin. simpl in Hin.
      repeat (destruct Hin as [Hin | Hin];
              [apply (f_equal is_forecast_id) in Hin; discriminate |]).
      exact Hin.
Qed.

(** ** Requests of a turn *)

Lemma offline_requests (t : trace) : Forall offline t -> requests t = [].
Proof.
  induction 1 as [| ev t Hev _ IH]; [reflexivity |].
  destruct ev; simpl; auto. contradiction.
Qed.

Lemma publish_steps_offline (data : value) :
  Forall offline (events (HomeAssistantPublisher.publish_current_weather data))
  /\ Forall offline (events (HomeAssistantPublisher.publish_forecast data))
  /\ Forall offline (events (HomeAssistantPublisher.publish_sunmoon data)).
Proof.
  unfold HomeAssistantPublisher.publish_current_weather,
    HomeAssistantPublisher.publish_forecast, HomeAssistantPublisher.publish_sunmoon,
    HomeAssistantPublisher.publish_field, HomeAssistantPublisher.publish_day,
    HomeAssistantPublisher.publish_first, HomeAssistantPublisher.publish_state.
  repeat split; event_walk.
Qed.

Lemma fetch_weather_requests (self : MeteoblueClient.client) (token : option string)
    (session : http) :
  (List.length (requests (events (MeteoblueClient.fetch_weather self token session)))
   <= 2)%nat.
Proof.
  rewrite fetch_weather_cases.
  pose proof (get_coordinates_requests self token session) as Hreq.
  assert (Hgc : (List.length
                   (requests (events (MeteoblueClient.get_coordinates
                                        self token session))) <= 1)%nat).
  { rewrite Hreq.
    destruct (latitude (MeteoblueClient.config self)),
             (longitude (MeteoblueClient.config self)),
             (token_missing token); simpl; lia. }
  destruct (MeteoblueClient.get_coordinates self token session)
    as [t [[[lat lon] el] | e]]; simpl in Hgc.
  - destruct (weather_url self lat lon el) as [url | e]; cbn [events fst].
    + rewrite !requests_app, !length_app, provider_log_offline. simpl. lia.
    + rewrite requests_app, length_app, fetch_failure_log_offline. simpl. lia.
  - cbn [events fst].
    rewrite requests_app, length_app, fetch_failure_log_offline. simpl. lia.
Qed.

(** X20. A turn of the loop sends at most two HTTP requests, the ones
    of [fetch_weather] (at most one to the host platform for the
    position, at most one to the provider): the publish steps, the
    error handling and the sleep send none, and a failed request is
    not repeated within the turn. *)
Theorem poll_cycle_requests (self : MeteoblueClient.client) (token : option string)
    (interval : Z) (c : Main.cycle) :
  requests (events (Main.poll_cycle self token interval c))
  = requests (events (MeteoblueClient.fetch_weather self token (Main.session c)))
  /\ (List.length (requests (events (Main.poll_cycle self token interval c))) <= 2)%nat.
Proof.
  assert (Hbody : requests (events (Main.poll_body self token (Main.session c)))
                  = requests (events (MeteoblueClient.fetch_weather
                                        self token (Main.session c)))).
  { unfold Main.poll_body.
    match goal with
    | |- requests (events (bind _ (fun _ => bind _ ?K))) = _ => set (rest := K)
    end.
    assert (Hrest : forall data, Forall offline (events (rest data))).
    { intros data. subst rest. cbv beta.
      destruct (publish_steps_offline data) as [Hc [Hf Hs]].
      apply events_bind_Forall; [destruct (py_in _ data); constructor |].
      intros has_current.
      apply events_bind_Forall; [destruct has_current; [exact Hc | constructor] |].
      intros _.
      apply events_bind_Forall; [destruct (py_in _ data); constructor |].
      intros has_day.
      apply events_bind_Forall; [| intros _; repeat constructor].
      destruct has_day; [| constructor].
      apply events_bind_Forall; [exact Hf | intros _; exact Hs]. }
    clearbody rest.
    destruct (MeteoblueClient.fetch_weather self token (Main.session c))
      as [tf [data | e]]; [| reflexivity].
    specialize (Hrest data). unfold bind, emit.
    destruct (rest data) as [tr rr]. simpl in *.
    now rewrite requests_app, (offline_requests _ Hrest), app_nil_r. }
  assert (Hcycle : requests (events (Main.poll_cycle self token interval c))
                   = requests (events (Main.poll_body self token (Main.session c)))).
  { pose proof (poll_cycle_cases self token interval c) as H. simpl in H. rewrite H.
    destruct (outcome (Main.poll_body self token (Main.session c))) as [[] | e];
      [| destruct (is_Exception e)]; simpl events;
      rewrite ?requests_app; simpl; rewrite ?app_nil_r; reflexivity. }
  rewrite Hcycle, Hbody. split; [reflexivity | apply fetch_weather_requests].
Qed.

(** ** A run that keeps going *)

Lemma startup_starting (w : Main.world) : Forall starting (events (Main.startup w)).
Proof.
  assert (Hload : Forall starting (events (Main.load_configuration w))).
  { unfold Main.load_configuration.
    apply events_bind_Forall; [repeat constructor | intros _].
    apply events_bind_Forall; [event_walk | intros config].
    apply events_bind_Forall; [| intros key; event_walk].
    destruct (api_key config) as [k |]; [destruct (truthy (VStr k)) |];
      repeat constructor. }
  assert (Hconnect : Forall starting (events (Main.connect_mqtt w))).
  { rewrite connect_mqtt_cases.
    assert (Hsettings : Forall starting
                          (events (get_mqtt_config (Main.token w) (Main.supervisor w)))).
    { apply get_mqtt_config_starting. }
    destruct (get_mqtt_config (Main.token w) (Main.supervisor w))
      as [t [settings | e]]; simpl in Hsettings.
    - cbv zeta. unfold connect_outcome, connect_events, credentials_events.
      destruct (Main.broker w _ _) as [[] | e]; [| destruct (is_Exception e)];
        simpl events; repeat (apply Forall_app; split);
        try exact Hsettings; try (destruct (truthy _)); repeat constructor.
    - destruct (is_Exception e); simpl events;
        repeat (apply Forall_app; split); try exact Hsettings; repeat constructor. }
  assert (Hsetup : forall config, Forall starting (events (Main.setup_sensors config))).
  { intros config.
    unfold Main.setup_sensors, HomeAssistantPublisher.setup_current_sensors,
      HomeAssistantPublisher.setup_forecast_sensors,
      HomeAssistantPublisher.setup_sunmoon_sensors,
      HomeAssistantPublisher.publish_discovery.
    event_walk. }
  rewrite startup_cases.
  destruct (Main.load_configuration w) as [t1 [[[config key] iv] | e]];
    simpl in Hload; [| exact Hload].
  destruct (Main.connect_mqtt w) as [t2 [[] | e]]; simpl in Hconnect;
    cbn [events fst];
    repeat (apply Forall_app; split); try assumption; try apply Hsetup;
    repeat constructor; apply Hsetup.
Qed.

Lemma startup_awake (w : Main.world) : Forall awake (events (Main.startup w)).
Proof.
  apply (Forall_impl awake (P := starting)); [| apply startup_starting].
  now intros [].
Qed.

(** X21. A run whose startup succeeds and whose turns are all calm (no
    interrupted sleep, no exception past [except Exception]) is still
    running after them, and it has slept exactly once per turn, each
    time for 60 times the configured number of minutes (30 by
    default): the startup itself never sleeps. *)
Theorem main_keeps_running (w : Main.world) (self : MeteoblueClient.client)
    (seconds : Z) :
  outcome (Main.startup w) = Ok (self, seconds) ->
  forallb (calm self (Main.token w)) (Main.polls w) = true ->
  snd (Main.main w) = Main.Running
  /\ sleeps (fst (Main.main w))
     = repeat (60 * match update_interval (MeteoblueClient.config self) with
                    | Some (Some minutes) => minutes
                    | _ => 30
                    end)
              (List.length (Main.polls w)).
Proof.
  intros Hstart Hcalm.
  pose proof (startup_published w) as Hpub. rewrite Hstart in Hpub.
  destruct Hpub as [_ [Hseconds _]].
  pose proof (awake_sleeps _ (startup_awake w)) as Hawake.
  destruct (poll_loop_calm self (Main.token w) seconds (Main.polls w) Hcalm)
    as [Hout Hsleeps].
  rewrite main_cases.
  destruct (Main.startup w) as [t r]. simpl in Hstart, Hawake. subst r.
  destruct (Main.poll_loop self (Main.token w) seconds (Main.polls w)) as [t' r'].
  simpl in Hout, Hsleeps. subst r'. simpl fst. simpl snd.
  split; [reflexivity |].
  rewrite sleeps_app, Hawake, Hsleeps.
  unfold Main.update_interval_seconds, get_default in Hseconds.
  destruct (update_interval (MeteoblueClient.config self)) as [[minutes |] |];
    try discriminate; injection Hseconds as <-;
    cbn [List.app]; f_equal; lia.
Qed.

(** ** Discovery documents and entity ids *)

(** X22. The discovery document of a sensor holds, in this order and
    each once, its name, the unique id meteoblue_{entity_id}, the state
    topic and the device, and then each of unit_of_measurement,
    device_class, state_class and icon exactly when that argument is a
    non-empty string: an empty string is left out like [None], and no
    entry hides another.  The entity id is the one of the topics: the
    lower-cased name with underscores for spaces. *)
Theorem discovery_document (name : string)
    (unit_ device_class state_class icon : option string) :
  let document :=
    items (HomeAssistantPublisher.discovery_config
             name unit_ device_class state_class icon) in
  lookup "name" document = Some (VStr name)
  /\ lookup "unique_id" document
     = Some (VStr ("meteoblue_" ++ replace " " "_" (lower name)))
  /\ lookup "device" document = Some HomeAssistantPublisher.device_info
  /\ lookup "unit_of_measurement" document = kept unit_
  /\ lookup "device_class" document = kept device_class
  /\ lookup "state_class" document = kept state_class
  /\ lookup "icon" document = kept icon
  /\ map fst document
     = ["name"; "unique_id"; "state_topic"; "device"]
       +++ opt (option_map (fun _ => "unit_of_measurement") (kept unit_))
       +++ opt (option_map (fun _ => "device_class") (kept device_class))
       +++ opt (option_map (fun _ => "state_class") (kept state_class))
       +++ opt (option_map (fun _ => "icon") (kept icon))
  /\ NoDup (map fst document).
Proof.
  unfold HomeAssistantPublisher.discovery_config,
    HomeAssistantPublisher.optional_entry, kept.
  simpl truthy. cbv zeta.
  destruct unit_ as [u |]; [destruct (String.eqb u "") |];
    (destruct device_class as [dc |]; [destruct (String.eqb dc "") |]);
    (destruct state_class as [sc |]; [destruct (String.eqb sc "") |]);
    (destruct icon as [ic |]; [destruct (String.eqb ic "") |]);
    (split; [reflexivity |]); (split; [reflexivity |]); (split; [reflexivity |]);
    (split; [reflexivity |]); (split; [reflexivity |]); (split; [reflexivity |]);
    (split; [reflexivity |]); (split; [reflexivity |]);
    cbn [items map fst List.app];
    repeat (constructor; [simpl; intuition discriminate |]); constructor.
Qed.

(** ** Cleaning up *)

Lemma poll_loop_connected (self : MeteoblueClient.client) (token : option string)
    (interval : Z) (cs : list Main.cycle) :
  Forall connected (events (Main.poll_loop self token interval cs)).
Proof.
  induction cs as [| c cs IH]; [constructor |].
  simpl. apply events_bind_Forall; [| intros _; exact IH].
  unfold Main.poll_cycle.
  apply events_bind_Forall; [| intros _; repeat constructor].
  apply events_try_except_Forall; [| intros e; repeat constructor].
  unfold Main.poll_body, MeteoblueClient.fetch_weather,
    MeteoblueClient.get_coordinates,
    HomeAssistantPublisher.publish_current_weather,
    HomeAssistantPublisher.publish_forecast,
    HomeAssistantPublisher.publish_sunmoon,
    HomeAssistantPublisher.publish_field, HomeAssistantPublisher.publish_day,
    HomeAssistantPublisher.publish_first, HomeAssistantPublisher.publish_state,
    session_get.
  event_walk.
Qed.

(** X24. After a successful startup the network loop is stopped and the
    broker disconnected by the cleanup only: neither the startup nor
    any turn of the loop does it.  The cleanup runs exactly when the
    loop ends, as the last events of the run: the HTTP session is
    closed, the network loop stopped, the broker disconnected, in this
    order.  On a keyboard interrupt they follow the line
    "Shutting down..." and [main] returns; any other exception goes on
    after them. *)
Theorem main_cleans_up (w : Main.world) (self : MeteoblueClient.client)
    (seconds : Z) :
  outcome (Main.startup w) = Ok (self, seconds) ->
  let loop := Main.poll_loop self (Main.token w) seconds (Main.polls w) in
  Forall connected (events (Main.startup w) +++ events loop)
  /\ Main.main w
     = match outcome loop with
       | Ok _ => (events (Main.startup w) +++ events loop, Main.Running)
       | Raise e =>
           (events (Main.startup w) +++ events loop
              +++ (match e with
                   | KeyboardInterrupt => [Log INFO "Shutting down..."]
                   | _ => []
                   end)
              +++ [SessionClose; LoopStop; Disconnect],
            match e with
            | KeyboardInterrupt => Main.Returned
            | _ => Main.Died e
            end)
       end.
Proof.
  intros Hstart loop. split.
  - apply Forall_app. split; [| apply poll_loop_connected].
    apply (Forall_impl connected (P := starting)); [| apply startup_starting].
    now intros [].
  - rewrite main_cases. subst loop.
    destruct (Main.startup w) as [t r]. simpl in Hstart. subst r.
    destruct (Main.poll_loop self (Main.token w) seconds (Main.polls w))
      as [t' [[] | e]]; [reflexivity | now destruct e].
Qed.

End Properties.

(** * The theorems at work

    The theorems above hold for every Unicode database.  The examples
    below run the program on concrete inputs, and for that take the
    database cut down to ASCII, [ascii_tables]: all their text is
    ASCII, where every database does what this one does. *)

#[local] Existing Instance ascii_tables.

(** ** Python objects *)

Example lower_wind : replace " " "_" (lower "Wind Speed") = "wind_speed".
Proof. reflexivity. Qed.

(** ** The request URL *)

(** The claim of C2 fails as stated: for a configuration whose [units]
    entry is null, [build_url] raises and returns no URL. *)
Lemma build_url_null_units :
  units (MeteoblueClient.config null_units_client) = Some VNone
  /\ MeteoblueClient.build_url null_units_client (names ["current"])
       (VFloat "47.1") (VFloat "8.3") VNone
     = Raise AttributeError.
Proof.
  split; [reflexivity |].
  exact (build_url_without_units null_units_client ["current"]
           (VFloat "47.1") (VFloat "8.3") VNone eq_refl).
Qed.

Example build_url_null_days :
  MeteoblueClient.build_url null_days_client (names ["current"])
    (VFloat "47.1") (VFloat "8.3") VNone
  = Ok "https://my.meteoblue.com/packages/current?lat=47.1&lon=8.3&apikey=key&format=json&temperature=C&windspeed=ms-1&precipitationamount=mm&forecast_days=None&tz=UTC".
Proof. reflexivity. Qed.

Example build_url_null_packages :
  MeteoblueClient.build_url zurich_client VNone (VFloat "47.1") (VFloat "8.3") VNone
  = Raise TypeError.
Proof. reflexivity. Qed.

(** ** Broker settings *)

Lemma get_mqtt_config_contract_witness :
  well_formed_answer (mqtt_answer (Some "token") supervisor_answer) = true
  /\ outcome (get_mqtt_config (Some "token") supervisor_answer) =
     Ok (VDict [("host", VStr "core-mosquitto"); ("port", VInt 1883);
                ("username", VStr "addons"); ("password", VStr "secret")]).
Proof.
  split; [reflexivity |].
  exact (proj2 (get_mqtt_config_contract (Some "token") supervisor_answer)
           eq_refl _ _ eq_refl eq_refl eq_refl).
Defined.

(** ** Publishing a snapshot *)

(** The claim of C8 fails as stated: a field [humidity] that is present
    in the section of current conditions is not published. *)
Lemma humidity_key_ignored :
  py_in "humidity" (current_section humidity_snapshot) = Ok true
  /\ HomeAssistantPublisher.publish_current_weather humidity_snapshot = ([], Ok tt).
Proof. exact humidity_unread. Qed.

Lemma publish_current_weather_fields_witness :
  HomeAssistantPublisher.publish_current_weather (VDict current_snapshot)
  = ([Publish (state_message "temperature" (VFloat "21.5"));
      Publish (state_message "humidity" (VInt 55))],
     Ok tt).
Proof.
  exact (publish_current_weather_fields current_snapshot
           [("temperature", VFloat "21.5"); ("relativehumidity", VInt 55)] eq_refl).
Defined.

(** The claim of C4 fails as stated: with [time] and [temperature_max]
    of three elements each and a null [temperature_min], one
    forecast_day_N_temp_max message is published, not three, and
    [publish_forecast] raises. *)
Lemma publish_forecast_null_column :
  column_length null_min_forecast "time" = 3%nat
  /\ column_length null_min_forecast "temperature_max" = 3%nat
  /\ HomeAssistantPublisher.publish_forecast
       (VDict [("data_day", VDict null_min_forecast)])
     = ([Publish (state_message "forecast_day_0_temp_max" (VFloat "4.5"))],
        Raise TypeError).
Proof.
  split; [reflexivity |]. split; [reflexivity |].
  exact null_column_stops_forecast.
Qed.

Lemma publish_forecast_three_days_witness :
  filter is_temp_max
    (published (events (HomeAssistantPublisher.publish_forecast
                          (VDict [("data_day", VDict three_day_forecast)]))))
  = [state_message "forecast_day_0_temp_max" (VFloat "4.5");
     state_message "forecast_day_1_temp_max" (VFloat "6.0");
     state_message "forecast_day_2_temp_max" (VFloat "3.2")].
Proof.
  exact (proj2 (proj2 (publish_forecast_three_days
                         [("data_day", VDict three_day_forecast)] three_day_forecast
                         [VStr "2025-01-01"; VStr "2025-01-02"; VStr "2025-01-03"]
                         [VFloat "4.5"; VFloat "6.0"; VFloat "3.2"]
                         eq_refl eq_refl eq_refl eq_refl eq_refl eq_refl))).
Defined.

Lemma no_time_no_state_witness :
  time_column timeless_snapshot = None
  /\ events (HomeAssistantPublisher.publish_forecast timeless_snapshot) = []
  /\ events (HomeAssistantPublisher.publish_sunmoon timeless_snapshot) = [].
Proof.
  split; [reflexivity |].
  exact (no_time_no_state timeless_snapshot (or_introl eq_refl)).
Defined.

Lemma publish_forecast_count_witness :
  List.length
    (published (events (HomeAssistantPublisher.publish_forecast
                          (VDict [("data_day", VDict three_day_forecast)]))))
  = 5%nat.
Proof.
  exact (proj2 (publish_forecast_count
                  [("data_day", VDict three_day_forecast)] three_day_forecast
                  [VStr "2025-01-01"; VStr "2025-01-02"; VStr "2025-01-03"]
                  eq_refl eq_refl eq_refl)).
Defined.

Lemma publish_sunmoon_today_witness :
  HomeAssistantPublisher.publish_sunmoon (VDict [("data_day", VDict sparse_sunmoon)])
  = ([Publish (state_message "sunrise" (VStr "08:12"));
      Publish (state_message "moon_phase" (VStr "new moon"))],
     Ok tt).
Proof.
  exact (publish_sunmoon_today [("data_day", VDict sparse_sunmoon)] sparse_sunmoon
           eq_refl eq_refl eq_refl).
Defined.

Lemma scalar_sections_witness :
  HomeAssistantPublisher.publish_current_weather (VDict null_snapshot)
  = ([], Raise TypeError)
  /\ HomeAssistantPublisher.publish_forecast (VDict null_snapshot) = ([], Ok tt)
  /\ HomeAssistantPublisher.publish_sunmoon (VDict null_snapshot) = ([], Ok tt).
Proof.
  exact (scalar_sections null_snapshot VNone eq_refl eq_refl eq_refl).
Defined.

Lemma forecast_topics_declared_witness :
  Forall (fun m =>
            In (topic m)
               (declared
                  (published
                     (events (HomeAssistantPublisher.setup_forecast_sensors (VInt 7))))))
    (published (events (HomeAssistantPublisher.publish_forecast
                          (VDict [("data_day", VDict three_day_forecast)])))).
Proof.
  apply forecast_topics_declared. vm_compute. discriminate.
Defined.

Lemma forecast_beyond_catalogue_witness :
  In (state_message "forecast_day_1_temp_max" (VFloat "6.0"))
     (published (events (HomeAssistantPublisher.publish_forecast
                           (VDict [("data_day", VDict long_forecast)]))))
  /\ ~ In "meteoblue/forecast_day_1_temp_max/state" (declared (catalogue 1)).
Proof.
  apply (forecast_beyond_catalogue [("data_day", VDict long_forecast)] long_forecast
           [VStr "2025-01-01"; VStr "2025-01-02"] [VFloat "4.5"; VFloat "6.0"] 1
           (VFloat "6.0"));
    try reflexivity; simpl; lia.
Defined.

(** ** The weather client *)

Lemma fetch_weather_without_coordinates_witness :
  MeteoblueClient.fetch_weather hillside_client None unavailable
  = ([LogExn ERROR "Error fetching weather: "
        (ValueError "Cannot get Home Assistant token")],
     Raise (ValueError "Cannot get Home Assistant token")).
Proof.
  exact (proj1 (fetch_weather_without_coordinates hillside_client None unavailable
                  (ValueError "Cannot get Home Assistant token") eq_refl)).
Defined.

Lemma fetch_weather_provider_call_witness :
  (outcome (MeteoblueClient.fetch_weather zurich_client None unavailable)
   = Raise (ValueError "API returned status 503")
   /\ events (MeteoblueClient.fetch_weather zurich_client None unavailable)
      = [Log INFO "Fetching weather for coordinates: 47.1, 8.3";
         HttpGet zurich_url [];
         Log ERROR "API error 503: Service Unavailable";
         LogExn ERROR "Error fetching weather: "
           (ValueError "API returned status 503")])
  /\ MeteoblueClient.fetch_weather null_packages_client None unavailable
     = ([LogExn ERROR "Error fetching weather: " TypeError], Raise TypeError).
Proof.
  pose proof (proj1 (fetch_weather_provider_call zurich_client None unavailable
                       (VFloat "47.1") (VFloat "8.3") VNone eq_refl)) as H.
  split; [split; [exact (proj1 (proj2 H)) | exact (proj1 H)] |].
  exact (proj2 (fetch_weather_provider_call null_packages_client None unavailable
                  (VFloat "47.1") (VFloat "8.3") VNone eq_refl) eq_refl).
Defined.

Lemma get_coordinates_ignores_lone_coordinate_witness :
  outcome (MeteoblueClient.get_coordinates
             (with_position hillside_client (Some (Float "46.0")) None)
             (Some "token") hass_config_answer)
  = Ok (VFloat "47.1", VFloat "8.3", VInt 520)
  /\ MeteoblueClient.get_coordinates
       (with_position hillside_client (Some (Float "46.0")) None)
       (Some "token") hass_config_answer
     = MeteoblueClient.get_coordinates
         (with_position hillside_client None None) (Some "token") hass_config_answer.
Proof.
  split; [reflexivity |].
  exact (get_coordinates_ignores_lone_coordinate hillside_client (Some "token")
           hass_config_answer (Some (Float "46.0")) None (or_intror eq_refl)).
Defined.

Lemma get_coordinates_keeps_elevation_witness :
  outcome (MeteoblueClient.get_coordinates hillside_client (Some "token")
             hass_config_answer)
  = Ok (VFloat "47.1", VFloat "8.3", VInt 520)
  /\ VInt 520 = value_of_num (Int 520).
Proof.
  split; [reflexivity |].
  exact (get_coordinates_keeps_elevation hillside_client (Some "token")
           hass_config_answer (Int 520) (VFloat "47.1") (VFloat "8.3") (VInt 520)
           eq_refl eq_refl eq_refl).
Defined.

(** ** The startup *)

(** A run whose startup goes through: the catalogue for one day, then
    the state of the one turn. *)
Lemma discovery_before_state_witness :
  outcome (Main.startup (world_of (Ok minimal_options) [interrupted_cycle]))
  = Ok (minimal_client, 300)
  /\ Main.options (world_of (Ok minimal_options) [interrupted_cycle])
     = Ok minimal_options
  /\ exists days states,
       day_count (get_default (forecast_days minimal_options) (VInt 7)) = Some days
       /\ published (fst (Main.main (world_of (Ok minimal_options) [interrupted_cycle])))
          = catalogue days +++ states
       /\ Forall is_state states.
Proof.
  split.
  - apply (proj2 (proj2 discovery_before_state)) with (days := 1);
      try reflexivity; discriminate.
  - exact (proj1 (proj2 discovery_before_state)
             (world_of (Ok minimal_options) [interrupted_cycle])).
Defined.

Example startup_published_one_day :
  published (fst (Main.main (world_of (Ok minimal_options) [interrupted_cycle])))
  = catalogue 1 +++ [state_message "temperature" (VFloat "3.5")]
  /\ List.length (catalogue 1) = 15%nat.
Proof. split; reflexivity. Qed.

(** With null for the number of days the run dies in [range], after the
    six current-weather sensors; with null for the interval it dies
    before anything else. *)
Example main_null_days :
  snd (Main.main (world_of (Ok null_days_options) [offline_cycle]))
  = Main.Died TypeError
  /\ published (fst (Main.main (world_of (Ok null_days_options) [offline_cycle])))
     = published (events HomeAssistantPublisher.setup_current_sensors).
Proof. split; reflexivity. Qed.

Example main_null_interval :
  Main.main (world_of (Ok null_interval_options) [offline_cycle])
  = ([Log INFO "Starting Meteoblue Weather Add-on"], Main.Died TypeError).
Proof. reflexivity. Qed.

Lemma main_stops_on_configuration_witness :
  Main.main (world_of (Ok keyless_options) [offline_cycle])
  = ([Log INFO "Starting Meteoblue Weather Add-on";
      Log ERROR "API key not configured"],
     Main.Exited 1).
Proof.
  exact (main_stops_on_configuration (world_of (Ok keyless_options) [offline_cycle])
           (Log ERROR "API key not configured") eq_refl).
Defined.

Lemma connect_mqtt_stage_witness :
  Main.connect_mqtt (world_without_broker (Ok minimal_options))
  = ([SessionOpen;
      HttpGet "http://supervisor/services/mqtt"
        [("Authorization", "Bearer token"); ("Content-Type", "application/json")];
      SessionClose;
      Log INFO "Got MQTT config: host=core-mosquitto, port=1883";
      UsernamePwSet (VStr "addons") (VStr "secret");
      Connect (VStr "core-mosquitto") (VInt 1883) 60;
      LogExn ERROR "Failed to connect to MQTT: " OSError],
     Raise (SystemExit 1)).
Proof.
  pose proof (connect_mqtt_stage (world_without_broker (Ok minimal_options))
                (VDict [("host", VStr "core-mosquitto"); ("port", VInt 1883);
                        ("username", VStr "addons"); ("password", VStr "secret")])
                eq_refl) as H.
  destruct (Main.connect_mqtt (world_without_broker (Ok minimal_options))) as [t r].
  destruct H as [Ht Hr]. simpl in Ht, Hr. now rewrite Ht, Hr.
Defined.

Lemma main_stops_without_settings_witness :
  Main.main world_without_supervisor
  = ([Log INFO "Starting Meteoblue Weather Add-on";
      SessionOpen;
      HttpGet "http://supervisor/services/mqtt"
        [("Authorization", "Bearer token"); ("Content-Type", "application/json")];
      SessionClose;
      LogExn ERROR "Failed to get MQTT configuration: " ClientError],
     Main.Exited 1).
Proof.
  apply (main_stops_without_settings world_without_supervisor ClientError);
    [reflexivity | | reflexivity | reflexivity].
  exists minimal_options. split; [reflexivity | discriminate].
Defined.

Lemma publish_after_connect_witness :
  existsb is_connect
    (before_publish (fst (Main.main (world_of (Ok minimal_options) [])))) = true
  /\ existsb is_loop_start
       (before_publish (fst (Main.main (world_of (Ok minimal_options) [])))) = true.
Proof.
  apply publish_after_connect. vm_compute. discriminate.
Defined.

(** ** The poll loop *)

(** A turn that fails, for an interval of 1800 seconds; and a run of
    [main] with an interval of 5 minutes, whose one turn fails and
    still sleeps 300 seconds. *)
Lemma poll_cycle_survives_failure_witness :
  Main.poll_cycle zurich_client None 1800 offline_cycle
  = ([Log INFO "Fetching weather data...";
      Log INFO "Fetching weather for coordinates: 47.1, 8.3";
      HttpGet zurich_url [];
      LogExn ERROR "Error fetching weather: " ClientError;
      LogExn ERROR "Error updating weather: " ClientError;
      Sleep 1800],
     Ok tt)
  /\ Main.main (world_of (Ok minimal_options) [offline_cycle])
     = (events (Main.startup (world_of (Ok minimal_options) [offline_cycle]))
        +++ [Log INFO "Fetching weather data...";
             HttpGet "http://supervisor/core/api/config"
               [("Authorization", "Bearer token");
                ("Content-Type", "application/json")];
             LogExn ERROR "Error fetching weather: " ClientError;
             LogExn ERROR "Error updating weather: " ClientError;
             Sleep 300],
        Main.Running).
Proof.
  pose proof (poll_cycle_survives_failure zurich_client None 1800 offline_cycle []
                ClientError eq_refl eq_refl) as H.
  split; [exact (proj1 H) |].
  exact (proj2 (proj2 (proj2 (proj2 (proj2 H))
                         (world_of (Ok minimal_options) [offline_cycle])
                         minimal_client 300 eq_refl))).
Defined.

Lemma current_failure_empties_turn_witness :
  outcome (Main.poll_body zurich_client None (Main.session half_broken_cycle))
  = Raise TypeError
  /\ published (events (Main.poll_cycle zurich_client None 1800 half_broken_cycle)) = [].
Proof.
  exact (current_failure_empties_turn zurich_client None 1800 half_broken_cycle
           (VDict [("data_current", VInt 5); ("data_day", VDict three_day_forecast)])
           TypeError eq_refl eq_refl eq_refl).
Defined.

Lemma poll_loop_ends_from_outside_witness :
  outcome (Main.poll_loop zurich_client None 1800 [offline_cycle; interrupted_cycle])
  = Raise KeyboardInterrupt
  /\ Exists (fun c =>
               Main.interrupt c = Some KeyboardInterrupt
               \/ (outcome (Main.poll_body zurich_client None (Main.session c))
                   = Raise KeyboardInterrupt
                   /\ is_Exception KeyboardInterrupt = false))
       [offline_cycle; interrupted_cycle].
Proof.
  split; [reflexivity |].
  exact (poll_loop_ends_from_outside zurich_client None 1800
           [offline_cycle; interrupted_cycle] KeyboardInterrupt eq_refl).
Defined.

Lemma main_keeps_running_witness :
  snd (Main.main calm_world) = Main.Running
  /\ sleeps (fst (Main.main calm_world)) = [300; 300].
Proof.
  exact (main_keeps_running calm_world minimal_client 300 eq_refl eq_refl).
Defined.

Lemma main_cleans_up_witness :
  Main.main (world_of (Ok minimal_options) [interrupted_cycle])
  = (events (Main.startup (world_of (Ok minimal_options) [interrupted_cycle]))
     +++ events (Main.poll_loop minimal_client (Some "token") 300 [interrupted_cycle])
     +++ [Log INFO "Shutting down..."]
     +++ [SessionClose; LoopStop; Disconnect],
     Main.Returned).
Proof.
  exact (proj2 (main_cleans_up (world_of (Ok minimal_options) [interrupted_cycle])
                  minimal_client 300 eq_refl)).
Defined.
